(** * chatgpt-wrapper: the browser-mediated streaming bridge

    A shallow embedding of [chatgpt_wrapper/asyncChatGPT.py] (class
    [AsyncChatGPT]) and [chatgpt_wrapper/chatgpt.py] (class [ChatGPT]).

    The Python code drives a browser page; everything the page, the clock and
    the identifier generator answer is read from an explicit [World].  The
    library functions [base64.b64decode] and [json.loads] are an interface
    ([PyLib]) the development is parametric in; [str.replace] and
    [json.dumps], which make the code handed to the page, are written out.
    Generators are modelled by the list of values they yield together with
    the way they end. *)

From Stdlib Require Import String Ascii List ZArith Bool Lia Permutation DecimalString.
Import ListNotations.
Open Scope string_scope.
Open Scope list_scope.

(** ** Python values *)

Module Py.

(** What [json.loads] can return: [None], [bool], [int], [str], [list],
    [dict].  A [dict] is kept as its items in insertion order (keys are
    unique); JSON numbers are kept as integers. *)
#[local] Set Warnings "-register-all".
Inductive Json : Type :=
| JNull
| JBool (b : bool)
| JNum (z : Z)
| JStr (s : string)
| JArr (items : list Json)
| JObj (items : list (string * Json)).

(** [d[key]] on a dict. *)
Fixpoint lookup (key : string) (d : list (string * Json)) : option Json :=
  match d with
  | [] => None
  | (k, v) :: rest => if String.eqb k key then Some v else lookup key rest
  end.

(** [obj[key]] with a string key: [KeyError] on a dict without the key,
    [TypeError] on every other value; both are [None] here. *)
Definition getitem (obj : Json) (key : string) : option Json :=
  match obj with
  | JObj d => lookup key d
  | _ => None
  end.

(** [needle in s] on strings. *)
Definition str_contains (needle s : string) : bool :=
  match String.index 0 needle s with
  | Some _ => true
  | None => false
  end.

Definition is_str (key : string) (v : Json) : bool :=
  match v with
  | JStr s => String.eqb s key
  | _ => false
  end.

(** [key in obj]: membership in the keys of a dict, in the elements of a
    list, substring test on a string; [TypeError] ([None]) otherwise. *)
Definition contains (key : string) (obj : Json) : option bool :=
  match obj with
  | JObj d => Some (existsb (fun kv => String.eqb (fst kv) key) d)
  | JArr l => Some (existsb (is_str key) l)
  | JStr s => Some (str_contains key s)
  | _ => None
  end.

(** [obj == {}]. *)
Definition is_empty_dict (obj : Json) : bool :=
  match obj with
  | JObj [] => true
  | _ => false
  end.

(** Truth value of an object, as [not obj] and [a and b] use it. *)
Definition truthy (obj : Json) : bool :=
  match obj with
  | JNull => false
  | JBool b => b
  | JNum z => negb (z =? 0)%Z
  | JStr s => negb (String.eqb s "")
  | JArr l => match l with [] => false | _ => true end
  | JObj d => match d with [] => false | _ => true end
  end.

Definition newline : string := String (ascii_of_nat 10) EmptyString.

(** The characters of a string, each as a string of length one (iterating
    over a [str]). *)
Fixpoint chars (s : string) : list string :=
  match s with
  | EmptyString => []
  | String a rest => String a EmptyString :: chars rest
  end.

(** The elements of a list when all of them are [str]. *)
Fixpoint all_str (l : list Json) : option (list string) :=
  match l with
  | [] => Some []
  | JStr s :: rest =>
      match all_str rest with
      | Some ss => Some (s :: ss)
      | None => None
      end
  | _ :: _ => None
  end.

(** ["\n".join(parts)]: [parts] is iterated, so a list of strings, a string
    (its characters) or a dict (its keys) are joined; anything else is a
    [TypeError]. *)
Definition join_lines (parts : Json) : option string :=
  match parts with
  | JArr l =>
      match all_str l with
      | Some ss => Some (String.concat newline ss)
      | None => None
      end
  | JStr s => Some (String.concat newline (chars s))
  | JObj d => Some (String.concat newline (map fst d))
  | _ => None
  end.

(** [s[n:]]. *)
Fixpoint slice_from (n : nat) (s : string) : string :=
  match n, s with
  | O, _ => s
  | S _, EmptyString => EmptyString
  | S n', String _ rest => slice_from n' rest
  end.

(** [s.find(c)] for a one-character [c]; [None] stands for [-1]. *)
Definition find (c : string) (s : string) : option nat := String.index 0 c s.

(** The index the loop [for index in range(len(s)-1, -1, -1)] stops at:
    the last position holding [c]. *)
Fixpoint rfind_char (c : ascii) (s : string) : option nat :=
  match s with
  | EmptyString => None
  | String a rest =>
      match rfind_char c rest with
      | Some i => Some (S i)
      | None => if Ascii.eqb a c then Some O else None
      end
  end.

(** [s[start:stop]]. *)
Definition slice (start stop : nat) (s : string) : string :=
  String.substring start (stop - start) s.

Definition quote : string := String (ascii_of_nat 34) EmptyString.
Definition backslash : string := String (ascii_of_nat 92) EmptyString.

(** [s.replace(old, new)]: the occurrences of [old], looked for from left
    to right and never overlapping, are replaced by [new]; what [new] brings
    in is not looked at again.  [skip] counts the characters of the
    occurrence just replaced that are still to be passed.  An empty [old]
    occurs before every character and at the end. *)
Fixpoint replace_from (old new : string) (skip : nat) (s : string) : string :=
  match s with
  | EmptyString => match old with EmptyString => new | _ => EmptyString end
  | String a rest =>
      match skip with
      | S k => replace_from old new k rest
      | O =>
          if String.prefix old s then
            String.append new
              match old with
              | EmptyString => String a (replace_from old new 0 rest)
              | String _ tail => replace_from old new (String.length tail) rest
              end
          else String a (replace_from old new 0 rest)
      end
  end.

Definition replace (old new s : string) : string := replace_from old new 0 s.

Definition hex (n : nat) : string := String.substring n 1 "0123456789abcdef".

(** What [json.dumps] (with its default [ensure_ascii=True]) writes for one
    character of a string.  Characters are code points below 256. *)
Definition escape (a : ascii) : string :=
  let n := nat_of_ascii a in
  if (n =? 34)%nat then String.append backslash quote
  else if (n =? 92)%nat then String.append backslash backslash
  else if (n =? 10)%nat then String.append backslash "n"
  else if (n =? 13)%nat then String.append backslash "r"
  else if (n =? 9)%nat then String.append backslash "t"
  else if (n =? 12)%nat then String.append backslash "f"
  else if (n =? 8)%nat then String.append backslash "b"
  else if ((32 <=? n) && (n <=? 126))%nat%bool then String a EmptyString
  else String.concat "" [ backslash; "u00"; hex (n / 16); hex (n mod 16) ].

Fixpoint escaped (s : string) : string :=
  match s with
  | EmptyString => EmptyString
  | String a rest => String.append (escape a) (escaped rest)
  end.

Definition dumps_str (s : string) : string :=
  String.concat "" [ quote; escaped s; quote ].

(** [json.dumps(obj)] with the default separators [", "] and [": "]. *)
Fixpoint json_dumps (obj : Json) : string :=
  match obj with
  | JNull => "null"
  | JBool b => if b then "true" else "false"
  | JNum z => NilZero.string_of_int (Z.to_int z)
  | JStr s => dumps_str s
  | JArr items =>
      String.concat "" [ "["; String.concat ", " (map json_dumps items); "]" ]
  | JObj items =>
      String.concat ""
        [ "{";
          String.concat ", "
            (map (fun kv => match kv with
                            | (k, v) =>
                                String.concat "" [ dumps_str k; ": "; json_dumps v ]
                            end) items);
          "}" ]
  end.

End Py.
Import Py.

(** ** The library interface and the environment *)

(** [base64.b64decode] and [json.loads]; [None] is a raised exception. *)
Class PyLib : Type := {
  b64decode : string -> option string;
  json_loads : string -> option Json
}.

(** What one iteration of a polling loop reads: the clock, whether the
    end-of-stream marker is in the page, and the [innerHTML] of the stream
    marker when that marker is in the page. *)
Record Poll : Type := {
  now : Z;
  eof_datas : bool;
  conversation_datas : option string
}.

(** The environment.  [calls] counts the answers given so far and indexes
    the oracles; [polls] is the script of the polling iterations still to
    come.  [page_evaluate] tells whether injecting the request code returns
    ([true]) or throws; [cleanup_divs] the same for removing the markers;
    [request_post] is the [ok] flag of an API response, or [None] when the
    request throws. *)
Record World : Type := {
  calls : nat;
  uuid4 : nat -> string;
  time_time : nat -> Z;
  page_content : nat -> string;
  page_evaluate : nat -> bool;
  cleanup_divs : nat -> bool;
  request_post : nat -> option bool;
  polls : list Poll
}.

Definition tick (w : World) : World :=
  {| calls := S (calls w); uuid4 := uuid4 w; time_time := time_time w;
     page_content := page_content w; page_evaluate := page_evaluate w;
     cleanup_divs := cleanup_divs w; request_post := request_post w;
     polls := polls w |}.

Definition set_polls (ps : list Poll) (w : World) : World :=
  {| calls := calls w; uuid4 := uuid4 w; time_time := time_time w;
     page_content := page_content w; page_evaluate := page_evaluate w;
     cleanup_divs := cleanup_divs w; request_post := request_post w;
     polls := ps |}.

(** Reading the next answer of an oracle. *)
Definition consult {A : Type} (oracle : World -> nat -> A) (w : World) : A * World :=
  (oracle w (calls w), tick w).

(** The exceptions a caller can see.  [PyError] is a [TypeError] or
    [KeyError] raised by the interpreter, [PlaywrightError] an error of the
    page. *)
Inductive Exn : Type :=
| NetworkError
| NotLoggedInError
| ChatGPTResponseError
| PyError
| PlaywrightError.

(** How a run ends: it returns, raises, waits for the lock for ever, is
    still polling when the script of the environment ends, or the model
    runs out of recursion depth. *)
Inductive Outcome : Type :=
| Returned
| Raised (e : Exn)
| Blocked
| Pending
| OutOfFuel.

(** What a turn hands to [page.evaluate]: [script] is the string itself,
    the other fields are the arguments of the four [str.replace] calls that
    made it ([request_json] is the dict [request], before [json.dumps]). *)
Record Code : Type := {
  bearer_token : string;
  request_json : Json;
  stream_div : string;
  eof_div : string;
  script : string
}.

(** The calls a run makes, in order. *)
Inductive Event : Type :=
| EvStream (prompt : string) (remaining_retry : Z)
| EvAsk (message : string) (remaining_retry : Z)
| EvRefresh
| EvInject (code : Code) (threw : bool).

(** The rolling pair that threads turns into one conversation. *)
Record Conv : Type := {
  parent_message_id : Json;
  conversation_id : Json
}.

Definition stream_div_id : string := "chatgpt-wrapper-conversation-stream-data".
Definition eof_div_id : string := "chatgpt-wrapper-conversation-stream-data-eof".

(** ** What both implementations share *)

Section Shared.
Context {lib : PyLib}.

(** What the [try] block of a polling iteration leaves in
    [full_event_message], or that it raised. *)
Inductive Decoded : Type :=
| DecodeError
| NoMessage
| Message (full_event_message : string).

(** The [try] block of a polling iteration (asyncChatGPT.py 319-328,
    chatgpt.py 275-284): the marker's content is decoded and parsed, the
    two identifiers are stored one after the other, and the text parts are
    joined.  An exception leaves the assignments already made in place. *)
Definition read_event (inner_html : string) (c : Conv) : Conv * Decoded :=
  match b64decode inner_html with
  | None => (c, DecodeError)
  | Some event_raw =>
      if (String.length event_raw =? 0)%nat then (c, NoMessage)
      else
        match json_loads event_raw with
        | None => (c, DecodeError)
        | Some JNull => (c, NoMessage)
        | Some event =>
            match getitem event "message" with
            | None => (c, DecodeError)
            | Some message =>
                match getitem message "id" with
                | None => (c, DecodeError)
                | Some id =>
                    let c1 := {| parent_message_id := id;
                                 conversation_id := conversation_id c |} in
                    match getitem event "conversation_id" with
                    | None => (c1, DecodeError)
                    | Some cid =>
                        let c2 := {| parent_message_id := id;
                                     conversation_id := cid |} in
                        match getitem message "content" with
                        | None => (c2, DecodeError)
                        | Some content =>
                            match getitem content "parts" with
                            | None => (c2, DecodeError)
                            | Some parts =>
                                match join_lines parts with
                                | None => (c2, DecodeError)
                                | Some text => (c2, Message text)
                                end
                            end
                        end
                    end
                end
            end
        end
  end.

(** [chunk = full_event_message[len(last_event_msg):]]. *)
Definition chunk_of (last_event_msg full_event_message : string) : string :=
  slice_from (String.length last_event_msg) full_event_message.

Definition interstitial : string :=
  "Please stand by, while we are checking your browser...".

(** The text between the first opening and the last closing brace of the
    document (asyncChatGPT.py 166-176); [None] is the [JSONDecodeError]
    raised when either brace is missing. *)
Definition braces (contents : string) : option string :=
  match find "{" contents with
  | None => None
  | Some start =>
      match rfind_char "}"%char contents with
      | None => None
      | Some stop => Some (slice start (S stop) contents)
      end
  end.

(** The document a refresh reads: read once, and once more when the first
    reading shows the browser check. *)
Definition read_document (w : World) : string * World :=
  let (contents, w1) := consult page_content w in
  if str_contains interstitial contents then consult page_content w1
  else (contents, w1).

(** The session a refresh leaves (asyncChatGPT.py 161-181): the parsed
    object, assigned in one step, or the old session when a brace is
    missing or [json.loads] raises. *)
Definition refreshed (session : Json) (w : World) : Json * World :=
  let (contents, w') := read_document w in
  match braces contents with
  | None => (session, w')
  | Some text =>
      match json_loads text with
      | Some parsed => (parsed, w')
      | None => (session, w')
      end
  end.

(** The request of a turn (asyncChatGPT.py 231-244, chatgpt.py 194-206). *)
Definition build_request (new_message_id prompt model : string) (c : Conv) : Json :=
  JObj [ ("messages",
          JArr [ JObj [ ("id", JStr new_message_id);
                        ("role", JStr "user");
                        ("content", JObj [ ("content_type", JStr "text");
                                           ("parts", JArr [JStr prompt]) ]) ] ]);
         ("model", JStr model);
         ("conversation_id", conversation_id c);
         ("parent_message_id", parent_message_id c);
         ("action", JStr "next") ].

(** The four substitutions (asyncChatGPT.py 291-294, chatgpt.py 252-257),
    one after the other on the whole text: the markers' names are replaced
    after the request has been written into the template, and so in the
    request as well. *)
Definition substitute (template token : string) (request : Json) : string :=
  replace "EOF_DIV_ID" eof_div_id
    (replace "STREAM_DIV_ID" stream_div_id
       (replace "REQUEST_JSON" (json_dumps request)
          (replace "BEARER_TOKEN" token template))).

(** The code of a turn.  [session["accessToken"]] must exist and, as an
    argument of [str.replace], be a string. *)
Definition build_code (template : string) (session request : Json) : option Code :=
  match getitem session "accessToken" with
  | Some (JStr token) =>
      Some {| bearer_token := token; request_json := request;
              stream_div := stream_div_id; eof_div := eof_div_id;
              script := substitute template token request |}
  | _ => None
  end.

End Shared.

(** A run of a generator: what it yielded, how it ended, and the client,
    the environment and the calls it leaves. *)
Record Run (Client : Type) : Type := {
  yielded : list string;
  outcome : Outcome;
  client : Client;
  world : World;
  trace : list Event
}.
Arguments yielded {Client} _.
Arguments outcome {Client} _.
Arguments client {Client} _.
Arguments world {Client} _.
Arguments trace {Client} _.

Definition opt_list {A : Type} (o : option A) : list A :=
  match o with
  | Some a => [a]
  | None => []
  end.

Definition is_some {A : Type} (o : option A) : bool :=
  match o with
  | Some _ => true
  | None => false
  end.

(** How an iteration of a polling loop hands over. *)
Inductive Control : Type :=
| Continue
| Break
| Raise.

(** One iteration of a polling loop: the chunk it yields, if any, the
    cumulative message it read, if any ([seen]), the variables and the
    conversation state it leaves, and where it goes. *)
Record Iteration : Type := {
  delta : option string;
  seen : option string;
  full_after : option string;
  last_after : string;
  conv_after : Conv;
  control : Control
}.

(** A polling loop run over a script: the chunks yielded, the cumulative
    messages read ([observed], in order), the variables left, how the loop
    was left and the part of the script not read. *)
Inductive Exit : Type :=
| ExitBreak
| ExitElse
| ExitRaise
| ExitPending.

Record Loop : Type := {
  chunks : list string;
  observed : list string;
  last_event_msg : string;
  conv_end : Conv;
  exit : Exit;
  unread : list Poll
}.

(** A loop that goes on after an iteration. *)
Definition after (it : Iteration) (l : Loop) : Loop :=
  {| chunks := opt_list (delta it) ++ chunks l;
     observed := opt_list (seen it) ++ observed l;
     last_event_msg := last_event_msg l;
     conv_end := conv_end l;
     exit := exit l;
     unread := unread l |}.

(** A loop that ends with an iteration. *)
Definition ending (it : Iteration) (how : Exit) (rest : list Poll) : Loop :=
  {| chunks := opt_list (delta it);
     observed := opt_list (seen it);
     last_event_msg := last_after it;
     conv_end := conv_after it;
     exit := how;
     unread := rest |}.

(** A loop that ends between iterations. *)
Definition leaving (last : string) (c : Conv) (how : Exit) (rest : list Poll) : Loop :=
  {| chunks := []; observed := []; last_event_msg := last; conv_end := c;
     exit := how; unread := rest |}.

(** ** asyncChatGPT.py *)

Module Async.
Section WithLib.
Context {lib : PyLib}.

(** The class attributes [session] and [lock] and the attributes of the
    instance.  [lock] tells whether [AsyncChatGPT.lock] is held. *)
Record Client : Type := {
  session : Json;
  lock : bool;
  conv : Conv;
  timeout : Z
}.

Definition with_lock (held : bool) (st : Client) : Client :=
  {| session := session st; lock := held; conv := conv st; timeout := timeout st |}.

Definition with_session (s : Json) (st : Client) : Client :=
  {| session := s; lock := lock st; conv := conv st; timeout := timeout st |}.

Definition with_conv (c : Conv) (st : Client) : Client :=
  {| session := session st; lock := lock st; conv := c; timeout := timeout st |}.

Definition model : string := "text-davinci-002-render-sha".

(** The text [code] is made from (lines 247-290), line by line. *)
Definition template : string :=
  String.concat newline
    [ "";
      "                const stream_div = document.createElement('DIV');";
      String.concat "" [ "                stream_div.id = "; quote; "STREAM_DIV_ID"; quote; ";" ];
      "                document.body.appendChild(stream_div);";
      "                const xhr = new XMLHttpRequest();";
      "                xhr.open('POST', 'https://chat.openai.com/backend-api/conversation');";
      "                xhr.setRequestHeader('Accept', 'text/event-stream');";
      "                xhr.setRequestHeader('Content-Type', 'application/json');";
      "                xhr.setRequestHeader('Authorization', 'Bearer BEARER_TOKEN');";
      "                xhr.responseType = 'stream';";
      "                xhr.onreadystatechange = function() {";
      "                var newEvent;";
      "                if(xhr.readyState == 3 || xhr.readyState == 4) {";
      "                    const newData = xhr.response.substr(xhr.seenBytes);";
      "                    try {";
      "                    const newEvents = newData.split(/\n\n/).reverse();";
      "                    newEvents.shift();";
      String.concat "" [ "                    if(newEvents[0] == "; quote; "data: [DONE]"; quote; ") {" ];
      "                        newEvents.shift();";
      "                    }";
      "                    if(newEvents.length > 0) {";
      "                        newEvent = newEvents[0].substring(6);";
      "                        // using XHR for eventstream sucks and occasionally ive seen incomplete";
      "                        // json objects come through  JSON.parse will throw if that happens, and";
      "                        // that should just skip until we get a full response.";
      "                        JSON.parse(newEvent);";
      "                    }";
      "                    } catch (err) {";
      "                    console.error(err);";
      "                    newEvent = undefined;";
      "                    }";
      "                    if(newEvent !== undefined) {";
      "                    stream_div.innerHTML = btoa(newEvent);";
      "                    xhr.seenBytes = xhr.responseText.length;";
      "                    }";
      "                }";
      "                if(xhr.readyState == 4) {";
      "                    const eof_div = document.createElement('DIV');";
      String.concat "" [ "                    eof_div.id = "; quote; "EOF_DIV_ID"; quote; ";" ];
      "                    document.body.appendChild(eof_div);";
      "                }";
      "                };";
      "                xhr.send(JSON.stringify(REQUEST_JSON));";
      "                " ].

(** [async_refresh_session]: the page is sent to the session endpoint and
    its document parsed; the navigation before and [_start_browser] after
    do not touch the client. *)
Definition async_refresh_session (st : Client) (w : World) : Client * World :=
  let (s, w') := refreshed (session st) w in
  (with_session s st, w').

(** [async_refresh_session] as the other coroutines meet it: at an [await]
    (given by its line) they may run and read [AsyncChatGPT.session]; line
    178 assigns the object [json.loads] returned.  The call of line 160 is
    not awaited and runs nothing. *)
Inductive Step : Type :=
| Await (line : nat)
| Assign (parsed : Json).

(** The steps of one refresh, in order: the navigation (155, 157), the
    reading of the document (162, and 164-165 when it shows the browser
    check), the assignment when the text between the braces parses, and
    [_start_browser] (182), which awaits the page several times and does
    not touch the session. *)
Definition refresh_steps (w : World) : list Step :=
  let checking := str_contains interstitial (fst (consult page_content w)) in
  let contents := fst (read_document w) in
  [Await 155; Await 157; Await 162]
  ++ (if checking then [Await 164; Await 165] else [])
  ++ match braces contents with
     | Some text =>
         match json_loads text with
         | Some parsed => [Assign parsed]
         | None => []
         end
     | None => []
     end
  ++ [Await 182].

(** Lines 218-219: a session equal to [{}] is refreshed first. *)
Definition ensure_session (st : Client) (w : World) : Client * World * list Event :=
  if is_empty_dict (session st)
  then let (st', w') := async_refresh_session st w in (st', w', [EvRefresh])
  else (st, w, []).

(** The body of the polling loop (lines 309-349). *)
Definition iteration (p : Poll) (full : option string) (last : string) (c : Conv) : Iteration :=
  match conversation_datas p with
  | None =>
      {| delta := None; seen := None; full_after := full; last_after := last;
         conv_after := c; control := Continue |}
  | Some inner_html =>
      match read_event inner_html c with
      | (c', DecodeError) =>
          {| delta := None; seen := None; full_after := None; last_after := last;
             conv_after := c'; control := Raise |}
      | (c', NoMessage) =>
          {| delta := None; seen := None; full_after := None; last_after := last;
             conv_after := c';
             control := if eof_datas p then Break else Continue |}
      | (c', Message m) =>
          {| delta := Some (chunk_of last m); seen := Some m; full_after := Some m;
             last_after := m; conv_after := c';
             control := if eof_datas p then Break else Continue |}
      end
  end.

(** The [while ... else] loop (lines 308-356) over the script. *)
Fixpoint poll_loop (ps : list Poll) (start_time tmo : Z)
    (full : option string) (last : string) (c : Conv) : Loop :=
  match ps with
  | [] => leaving last c ExitPending []
  | p :: rest =>
      if ((now p - start_time <=? tmo)%Z || is_some full)%bool then
        let it := iteration p full last c in
        match control it with
        | Continue =>
            after it (poll_loop rest start_time tmo (full_after it)
                        (last_after it) (conv_after it))
        | Break => ending it ExitBreak rest
        | Raise => ending it ExitRaise rest
        end
      else leaving last c ExitElse rest
  end.

Definition stop (o : Outcome) (ys : list string) (st : Client) (w : World)
    (tr : list Event) : Run Client :=
  {| yielded := ys; outcome := o; client := st; world := w; trace := tr |}.

(** [async for chunk in retry: yield chunk] followed by [return], inside
    the [async with] block: the lock is released when the inner generator
    returns or raises. *)
Definition delegate (ys : list string) (tr : list Event) (r : Run Client) : Run Client :=
  {| yielded := ys ++ yielded r;
     outcome := outcome r;
     client := match outcome r with
               | Returned | Raised _ => with_lock false (client r)
               | _ => client r
               end;
     world := world r;
     trace := tr ++ trace r |}.

(** [async_ask_stream] (lines 191-358).  [asyncio.Lock] is not reentrant:
    entering [async with AsyncChatGPT.lock] while the lock is held waits
    until it is released. *)
Fixpoint async_ask_stream (fuel : nat) (prompt : string) (remaining_retry : Z)
    (st : Client) (w : World) {struct fuel} : Run Client :=
  let entered := [EvStream prompt remaining_retry] in
  match fuel with
  | O => stop OutOfFuel [] st w entered
  | S fuel' =>
    if lock st then stop Blocked [] st w entered
    else if (remaining_retry =? 0)%Z then stop (Raised NetworkError) [] st w entered
    else
      let '(st1, w1, tr1) := ensure_session (with_lock true st) w in
      let (new_message_id, w2) := consult uuid4 w1 in
      match contains "accessToken" (session st1) with
      | None => stop (Raised PyError) [] (with_lock false st1) w2 (entered ++ tr1)
      | Some false =>
          stop (Raised NotLoggedInError) [] (with_lock false st1) w2 (entered ++ tr1)
      | Some true =>
        let request := build_request new_message_id prompt model (conv st1) in
        match build_code template (session st1) request with
        | None => stop (Raised PyError) [] (with_lock false st1) w2 (entered ++ tr1)
        | Some code =>
          let (ok, w3) := consult page_evaluate w2 in
          if ok then
            let (start_time, w4) := consult time_time w3 in
            let l := poll_loop (polls w4) start_time (timeout st1) None "" (conv st1) in
            let st2 := with_conv (conv_end l) st1 in
            let w5 := set_polls (unread l) w4 in
            let tr2 := entered ++ tr1 ++ [EvInject code false] in
            match exit l with
            | ExitBreak =>
                (* [_cleanup_divs] catches what removing the markers throws *)
                let (_, w6) := consult cleanup_divs w5 in
                stop Returned (chunks l) (with_lock false st2) w6 tr2
            | ExitRaise =>
                stop (Raised ChatGPTResponseError) (chunks l) (with_lock false st2) w5 tr2
            | ExitPending => stop Pending (chunks l) st2 w5 tr2
            | ExitElse =>
                let (st3, w6) := async_refresh_session st2 w5 in
                delegate (chunks l) (tr2 ++ [EvRefresh])
                  (async_ask_stream fuel' prompt (remaining_retry - 1) st3 w6)
            end
          else
            let (st2, w4) := async_refresh_session st1 w3 in
            delegate [] (entered ++ tr1 ++ [EvInject code true; EvRefresh])
              (async_ask_stream fuel' prompt 2 st2 w4)
        end
      end
  end.

(** A call of [async_ask]: the string it returns, if it returns. *)
Record AskRun : Type := {
  response : option string;
  ask_outcome : Outcome;
  ask_client : Client;
  ask_world : World;
  ask_trace : list Event
}.

(** [async_ask] (lines 496-517). *)
Fixpoint async_ask (fuel : nat) (message : string) (remaining_retry : Z)
    (st : Client) (w : World) {struct fuel} : AskRun :=
  let entered := [EvAsk message remaining_retry] in
  match fuel with
  | O => {| response := None; ask_outcome := OutOfFuel; ask_client := st;
            ask_world := w; ask_trace := entered |}
  | S fuel' =>
    if (remaining_retry =? 0)%Z then
      {| response := None; ask_outcome := Raised ChatGPTResponseError;
         ask_client := st; ask_world := w; ask_trace := entered |}
    else
      let r := async_ask_stream fuel message 2 st w in
      match outcome r, yielded r with
      | Returned, [] =>
          let (st', w') := async_refresh_session (client r) (world r) in
          let a := async_ask fuel' message (remaining_retry - 1) st' w' in
          {| response := response a; ask_outcome := ask_outcome a;
             ask_client := ask_client a; ask_world := ask_world a;
             ask_trace := entered ++ trace r ++ [EvRefresh] ++ ask_trace a |}
      | Returned, ys =>
          {| response := Some (String.concat "" ys); ask_outcome := Returned;
             ask_client := client r; ask_world := world r;
             ask_trace := entered ++ trace r |}
      | o, _ =>
          {| response := None; ask_outcome := o; ask_client := client r;
             ask_world := world r; ask_trace := entered ++ trace r |}
      end
  end.

(** [async_new_conversation] (lines 519-521). *)
Definition async_new_conversation (st : Client) (w : World) : Client * World :=
  let (id, w') := consult uuid4 w in
  (with_conv {| parent_message_id := JStr id; conversation_id := JNull |} st, w').

End WithLib.
End Async.

(** ** chatgpt.py *)

Module Sync.
Section WithLib.
Context {lib : PyLib}.

Definition RENDER_MODELS : list (string * string) :=
  [ ("default", "text-davinci-002-render-sha");
    ("legacy-paid", "text-davinci-002-render-paid");
    ("legacy-free", "text-davinci-002-render") ].

(** [RENDER_MODELS[name]]; [None] is the [KeyError]. *)
Fixpoint render_model (table : list (string * string)) (name : string) : option string :=
  match table with
  | [] => None
  | (k, v) :: rest => if String.eqb k name then Some v else render_model rest name
  end.

(** [session] is [self.browser.session]. *)
Record Client : Type := {
  session : Json;
  conv : Conv;
  conversation_title_set : Json;
  model : string;
  timeout : Z
}.

Definition with_session (s : Json) (st : Client) : Client :=
  {| session := s; conv := conv st;
     conversation_title_set := conversation_title_set st;
     model := model st; timeout := timeout st |}.

Definition with_conv (c : Conv) (st : Client) : Client :=
  {| session := session st; conv := c;
     conversation_title_set := conversation_title_set st;
     model := model st; timeout := timeout st |}.

Definition with_title_set (t : Json) (st : Client) : Client :=
  {| session := session st; conv := conv st; conversation_title_set := t;
     model := model st; timeout := timeout st |}.

(** Modelled from the spec: [Browser.refresh_session] of the module
    [.browser], which is not among the sources.  Section 4.1 of the
    specification describes one session refresh for both implementations:
    the document of the session endpoint is read, the text between its first
    opening and last closing brace is parsed, and the session is overwritten
    wholesale when that succeeds. *)
Definition refresh_session (st : Client) (w : World) : Client * World :=
  let (s, w') := refreshed (session st) w in
  (with_session s st, w').

Definition not_usable_text : string :=
  String.concat newline
    [ "Your ChatGPT session is not usable.";
      "* Run this program with the `install` parameter and log in to ChatGPT.";
      "* If you think you are already logged in, try running the `session` command." ].

Definition failed_text : string :=
  String.concat newline
    [ "Failed to read response from ChatGPT.  Tips:";
      " * Try again.  ChatGPT can be flaky.";
      " * Use the `session` command to refresh your session, and then try again.";
      " * Restart the program in the `install` mode and make sure you are logged in." ].

Definition fallback_text : string :=
  "Unusable response produced, maybe login session expired. Try 'pkill firefox' and 'chatgpt install'".

(** The text [code] is made from (lines 209-252), line by line. *)
Definition template : string :=
  String.concat newline
    [ "";
      "            const stream_div = document.createElement('DIV');";
      String.concat "" [ "            stream_div.id = "; quote; "STREAM_DIV_ID"; quote; ";" ];
      "            document.body.appendChild(stream_div);";
      "            const xhr = new XMLHttpRequest();";
      "            xhr.open('POST', 'https://chat.openai.com/backend-api/conversation');";
      "            xhr.setRequestHeader('Accept', 'text/event-stream');";
      "            xhr.setRequestHeader('Content-Type', 'application/json');";
      "            xhr.setRequestHeader('Authorization', 'Bearer BEARER_TOKEN');";
      "            xhr.responseType = 'stream';";
      "            xhr.onreadystatechange = function() {";
      "              var newEvent;";
      "              if(xhr.readyState == 3 || xhr.readyState == 4) {";
      "                const newData = xhr.response.substr(xhr.seenBytes);";
      "                try {";
      "                  const newEvents = newData.split(/\n\n/).reverse();";
      "                  newEvents.shift();";
      String.concat "" [ "                  if(newEvents[0] == "; quote; "data: [DONE]"; quote; ") {" ];
      "                    newEvents.shift();";
      "                  }";
      "                  if(newEvents.length > 0) {";
      "                    newEvent = newEvents[0].substring(6);";
      "                    // using XHR for eventstream sucks and occasionally ive seen incomplete";
      "                    // json objects come through  JSON.parse will throw if that happens, and";
      "                    // that should just skip until we get a full response.";
      "                    JSON.parse(newEvent);";
      "                  }";
      "                } catch (err) {";
      "                  console.log(err);";
      "                  newEvent = undefined;";
      "                }";
      "                if(newEvent !== undefined) {";
      "                  stream_div.innerHTML = btoa(newEvent);";
      "                  xhr.seenBytes = xhr.responseText.length;";
      "                }";
      "              }";
      "              if(xhr.readyState == 4) {";
      "                const eof_div = document.createElement('DIV');";
      String.concat "" [ "                eof_div.id = "; quote; "EOF_DIV_ID"; quote; ";" ];
      "                document.body.appendChild(eof_div);";
      "              }";
      "            };";
      "            xhr.send(JSON.stringify(REQUEST_JSON));";
      "            " ].

(** The body of the polling loop (lines 265-304).  A failure of the [try]
    block yields [failed_text] and leaves the loop by [break] (told apart
    here as [Raise]); the loop is also left when the time is over and this
    iteration read no message. *)
Definition iteration (p : Poll) (start_time tmo : Z) (last : string) (c : Conv) : Iteration :=
  match conversation_datas p with
  | None =>
      {| delta := None; seen := None; full_after := None; last_after := last;
         conv_after := c; control := Continue |}
  | Some inner_html =>
      match read_event inner_html c with
      | (c', DecodeError) =>
          {| delta := Some failed_text; seen := None; full_after := None;
             last_after := last; conv_after := c'; control := Raise |}
      | (c', NoMessage) =>
          {| delta := None; seen := None; full_after := None; last_after := last;
             conv_after := c';
             control := if (eof_datas p || (tmo <? now p - start_time)%Z)%bool
                        then Break else Continue |}
      | (c', Message m) =>
          {| delta := Some (chunk_of last m); seen := Some m; full_after := Some m;
             last_after := m; conv_after := c';
             control := if eof_datas p then Break else Continue |}
      end
  end.

(** The [while True] loop over the script. *)
Fixpoint poll_loop (ps : list Poll) (start_time tmo : Z) (last : string) (c : Conv) : Loop :=
  match ps with
  | [] => leaving last c ExitPending []
  | p :: rest =>
      let it := iteration p start_time tmo last c in
      match control it with
      | Continue =>
          after it (poll_loop rest start_time tmo (last_after it) (conv_after it))
      | Break => ending it ExitBreak rest
      | Raise => ending it ExitRaise rest
      end
  end.

Definition stop (o : Outcome) (ys : list string) (st : Client) (w : World)
    (tr : list Event) : Run Client :=
  {| yielded := ys; outcome := o; client := st; world := w; trace := tr |}.

(** [_gen_title] (lines 92-106): the client it leaves, or the exception. *)
Definition _gen_title (st : Client) (w : World) : (Client + Exn) * World :=
  if (negb (truthy (conversation_id (conv st)))
      || truthy (conversation_title_set st))%bool
  then (inl st, w)
  else
    match render_model RENDER_MODELS (model st) with
    | None => (inr PyError, w)
    | Some _ =>
        match getitem (session st) "accessToken" with
        | None => (inr PyError, w)
        | Some _ =>
            match consult request_post w with
            | (None, w') => (inr PlaywrightError, w')
            | (Some true, w') => (inl (with_title_set (JBool true) st), w')
            | (Some false, w') => (inl st, w')
            end
        end
    end.

(** What follows the loop: [_cleanup_divs], which throws when a marker is
    not in the page, then [_gen_title]. *)
Definition finish (ys : list string) (st : Client) (w : World) (tr : list Event) : Run Client :=
  let (removed, w1) := consult cleanup_divs w in
  if removed then
    match _gen_title st w1 with
    | (inl st', w2) => stop Returned ys st' w2 tr
    | (inr e, w2) => stop (Raised e) ys st w2 tr
    end
  else stop (Raised PlaywrightError) ys st w1 tr.

(** [ask_stream] (lines 180-307). *)
Definition ask_stream (prompt : string) (st : Client) (w : World) : Run Client :=
  match contains "accessToken" (session st) with
  | None => stop (Raised PyError) [] st w []
  | Some has =>
    let '(st1, w1, tr1) :=
      if has then (st, w, [])
      else let (st', w') := refresh_session st w in (st', w', [EvRefresh]) in
    let (new_message_id, w2) := consult uuid4 w1 in
    match contains "accessToken" (session st1) with
    | None => stop (Raised PyError) [] st1 w2 tr1
    | Some false => stop Returned [not_usable_text] st1 w2 tr1
    | Some true =>
      match render_model RENDER_MODELS (model st1) with
      | None => stop (Raised PyError) [] st1 w2 tr1
      | Some m =>
        let request := build_request new_message_id prompt m (conv st1) in
        match build_code template (session st1) request with
        | None => stop (Raised PyError) [] st1 w2 tr1
        | Some code =>
          let (ok, w3) := consult page_evaluate w2 in
          if ok then
            let (start_time, w4) := consult time_time w3 in
            let l := poll_loop (polls w4) start_time (timeout st1) "" (conv st1) in
            let st2 := with_conv (conv_end l) st1 in
            let w5 := set_polls (unread l) w4 in
            let tr2 := tr1 ++ [EvInject code false] in
            match exit l with
            | ExitBreak | ExitRaise => finish (chunks l) st2 w5 tr2
            | _ => stop Pending (chunks l) st2 w5 tr2
            end
          else stop (Raised PlaywrightError) [] st1 w3 (tr1 ++ [EvInject code true])
        end
      end
    end
  end.

(** [reduce(operator.add, response)] on a list that is not empty. *)
Definition reduce_add (response : list string) : string :=
  match response with
  | [] => ""
  | first :: rest => fold_left String.append rest first
  end.

(** [ask] (lines 309-324): the string returned, or how [ask_stream] ended
    when it did not return. *)
Definition ask (message : string) (st : Client) (w : World) : (string + Outcome) * Run Client :=
  let r := ask_stream message st w in
  match outcome r with
  | Returned =>
      (inl (match yielded r with
            | [] => fallback_text
            | response => reduce_add response
            end), r)
  | o => (inr o, r)
  end.

(** [new_conversation] (lines 326-329). *)
Definition new_conversation (st : Client) (w : World) : Client * World :=
  let (id, w') := consult uuid4 w in
  (with_title_set JNull
     (with_conv {| parent_message_id := JStr id; conversation_id := JNull |} st), w').

End WithLib.
End Sync.

(** ** A sample library and sample environments

    A [PyLib] that knows the encodings and the texts of a few events, and
    clients and environments to run the two implementations on. *)

Module Sample.

Definition q : string := String (ascii_of_nat 34) EmptyString.

(** The text of an event, as the page receives it. *)
Definition event_text (id text : string) : string :=
  String.concat ""
    [ "{"; q; "message"; q; ":{"; q; "id"; q; ":"; q; id; q; ","; q; "content"; q;
      ":{"; q; "parts"; q; ":["; q; text; q; "]}},"; q; "conversation_id"; q; ":";
      q; "c1"; q; "}" ].

(** The object [json.loads] makes of it. *)
Definition event_value (id text : string) : Json :=
  JObj [ ("message", JObj [ ("id", JStr id);
                            ("content", JObj [ ("parts", JArr [JStr text]) ]) ]);
         ("conversation_id", JStr "c1") ].

Definition session_text : string :=
  String.concat "" [ "{"; q; "accessToken"; q; ":"; q; "tok"; q; "}" ].

Definition session_value : Json := JObj [ ("accessToken", JStr "tok") ].

(** Stream marker contents: two growing events, one whose text is no
    extension of theirs, one cut in the middle, and the empty marker. *)
Definition html_good : string :=
  "eyJtZXNzYWdlIjp7ImlkIjoibTEiLCJjb250ZW50Ijp7InBhcnRzIjpbIkdvb2QgIl19fSwiY29udmVyc2F0aW9uX2lkIjoiYzEifQ==".
Definition html_good_night : string :=
  "eyJtZXNzYWdlIjp7ImlkIjoibTIiLCJjb250ZW50Ijp7InBhcnRzIjpbIkdvb2QgbmlnaHQhIl19fSwiY29udmVyc2F0aW9uX2lkIjoiYzEifQ==".
Definition html_hi : string :=
  "eyJtZXNzYWdlIjp7ImlkIjoibTMiLCJjb250ZW50Ijp7InBhcnRzIjpbIkhpIl19fSwiY29udmVyc2F0aW9uX2lkIjoiYzEifQ==".
Definition html_broken : string := "eyJtZXNzYWdlIjo=".

Fixpoint assoc {A : Type} (table : list (string * A)) (key : string) : option A :=
  match table with
  | [] => None
  | (k, v) :: rest => if String.eqb k key then Some v else assoc rest key
  end.

Definition library : PyLib :=
  {| b64decode :=
       assoc [ ("", "");
               (html_good, event_text "m1" "Good ");
               (html_good_night, event_text "m2" "Good night!");
               (html_hi, event_text "m3" "Hi");
               (html_broken, String.concat "" ["{"; q; "message"; q; ":"]) ];
     json_loads :=
       assoc [ (event_text "m1" "Good ", event_value "m1" "Good ");
               (event_text "m2" "Good night!", event_value "m2" "Good night!");
               (event_text "m3" "Hi", event_value "m3" "Hi");
               (session_text, session_value);
               ("{}", JObj []) ] |}.

Definition poll (t : Z) (eof : bool) (marker : option string) : Poll :=
  {| now := t; eof_datas := eof; conversation_datas := marker |}.

(** An environment in which the page cooperates ([evaluate] tells whether
    the injection returns), the clock reads 0 at the start of a turn and
    the session endpoint shows [document]. *)
Definition environment (document : string) (evaluate : bool) (script : list Poll) : World :=
  {| calls := 0;
     uuid4 := fun n => String.append "uuid-" (String (ascii_of_nat (48 + n)) EmptyString);
     time_time := fun _ => 0%Z;
     page_content := fun _ => document;
     page_evaluate := fun _ => evaluate;
     cleanup_divs := fun _ => true;
     request_post := fun _ => Some true;
     polls := script |}.

Definition fresh : Conv :=
  {| parent_message_id := JStr "uuid-start"; conversation_id := JNull |}.

Definition async_client (s : Json) : Async.Client :=
  {| Async.session := s; Async.lock := false; Async.conv := fresh;
     Async.timeout := 60 |}.

Definition sync_client (s : Json) : Sync.Client :=
  {| Sync.session := s; Sync.conv := fresh;
     Sync.conversation_title_set := JNull; Sync.model := "default";
     Sync.timeout := 60 |}.

Definition session_page : string :=
  String.concat "" [ "<html><body><pre>"; session_text; "</pre></body></html>" ].

Definition login_page : string := "<html><body>Log in</body></html>".

End Sample.

(** ** chatgpt.py: the conversation history *)

Module Api.

(** [a == b] on the values [json.loads] returns.  [True] and [False] are
    the integers 1 and 0; lists are compared element by element; two dicts
    are equal when they have as many keys and every key of the first has an
    equal value in the second. *)
Fixpoint py_eq (a b : Json) {struct a} : bool :=
  match a, b with
  | JNull, JNull => true
  | JBool x, JBool y => Bool.eqb x y
  | JBool x, JNum z => (z =? (if x then 1 else 0))%Z
  | JNum z, JBool x => (z =? (if x then 1 else 0))%Z
  | JNum x, JNum y => (x =? y)%Z
  | JStr x, JStr y => String.eqb x y
  | JArr xs, JArr ys =>
      (fix all2 (xs ys : list Json) {struct xs} : bool :=
         match xs, ys with
         | [], [] => true
         | x :: xs', y :: ys' => (py_eq x y && all2 xs' ys')%bool
         | _, _ => false
         end) xs ys
  | JObj xs, JObj ys =>
      ((length xs =? length ys)%nat &&
       (fix all (xs : list (string * Json)) {struct xs} : bool :=
          match xs with
          | [] => true
          | (k, v) :: xs' =>
              (match lookup k ys with
               | Some v' => py_eq v v'
               | None => false
               end && all xs')%bool
          end) xs)%bool
  | _, _ => false
  end.

(** How [conversation_data_to_messages] ends: it returns the messages, it
    raises ([KeyError], [TypeError] or [AttributeError]), or it is still
    walking when the model runs out of steps. *)
Inductive Walk : Type :=
| Messages (messages : list Json)
| Fails
| Walking.

(** [next((item for item in values if item['parent'] == parent_id), None)]:
    the first item whose parent is [parent_id], [Some None] when there is
    none, [None] when an item met on the way has no ['parent']. *)
Fixpoint next_item (values : list Json) (parent_id : Json) : option (option Json) :=
  match values with
  | [] => Some None
  | item :: rest =>
      match getitem item "parent" with
      | None => None
      | Some parent =>
          if py_eq parent parent_id then Some (Some item)
          else next_item rest parent_id
      end
  end.

(** [message is not None and 'author' in message and
    message['author']['role'] != 'system'] (line 117); [None] when the test
    raises. *)
Definition wanted (message : Json) : option bool :=
  match message with
  | JNull => Some false
  | _ =>
      match contains "author" message with
      | None => None
      | Some false => Some false
      | Some true =>
          match getitem message "author" with
          | None => None
          | Some author =>
              match getitem author "role" with
              | None => None
              | Some role => Some (negb (py_eq role (JStr "system")))
              end
          end
      end
  end.

(** The [while True] loop of [conversation_data_to_messages] (lines
    112-119), [steps] iterations of it at most. *)
Fixpoint walk (steps : nat) (values : list Json) (parent_id : Json)
    (messages : list Json) : Walk :=
  match steps with
  | O => Walking
  | S steps' =>
      match next_item values parent_id with
      | None => Fails
      | Some None => Messages messages
      | Some (Some current_item) =>
          match getitem current_item "message" with
          | None => Fails
          | Some message =>
              match wanted message with
              | None => Fails
              | Some keep =>
                  match getitem current_item "id" with
                  | None => Fails
                  | Some id =>
                      walk steps' values id
                        (if keep then messages ++ [message] else messages)
                  end
              end
          end
      end
  end.

(** [conversation_data_to_messages] (lines 108-119). *)
Definition conversation_data_to_messages (steps : nat) (conversation_data : Json) : Walk :=
  match getitem conversation_data "mapping" with
  | Some (JObj mapping_dict) => walk steps (map snd mapping_dict) JNull []
  | _ => Fails
  end.

(** *** The API calls *)

(** The address of a request, by the identifier formatted into it. *)
Inductive Endpoint : Type :=
| Conversations
| Conversation (id : Json).

(** A request: the method, the address, the credential formatted into the
    [Authorization] header, and the query parameters or the data. *)
Record Request : Type := {
  method : string;
  endpoint : Endpoint;
  authorization : Json;
  payload : Json
}.

(** A response: [response.ok], and [response.json()] unless that raises
    [JSONDecodeError]. *)
Record Response : Type := {
  ok : bool;
  body : option Json
}.

(** What a call gives back: a value ([None] is [JNull]), the dict built by
    [get_history] (its items in insertion order), or an exception. *)
Inductive Reply : Type :=
| Value (v : Json)
| Table (history : list (Json * Json))
| Throws (e : Exn).

Record Call : Type := {
  reply : Reply;
  client_after : Sync.Client;
  world_after : World;
  requests : list Request
}.

(** [_process_api_response] (lines 65-75): the flag and the parsed body,
    which is [None] when the response is not ok or does not parse. *)
Definition _process_api_response (response : Response) : bool * option Json :=
  (ok response, if ok response then body response else None).

(** [_api_request_build_headers] (lines 58-63): the credential, or [None]
    for the [KeyError]. *)
Definition _api_request_build_headers (session : Json) : option Json :=
  getitem session "accessToken".

(** [d[key] = value] on a dict kept as its items: the value of an equal key
    is replaced in place, a new key goes to the end. *)
Fixpoint dict_set (key value : Json) (d : list (Json * Json)) : list (Json * Json) :=
  match d with
  | [] => [(key, value)]
  | (k, v) :: rest =>
      if py_eq k key then (k, value) :: rest
      else (k, v) :: dict_set key value rest
  end.

(** [d.get(key)]. *)
Fixpoint dict_get (key : Json) (d : list (Json * Json)) : option Json :=
  match d with
  | [] => None
  | (k, v) :: rest => if py_eq k key then Some v else dict_get key rest
  end.

(** Lists and dicts cannot be keys. *)
Definition hashable (key : Json) : bool :=
  match key with
  | JArr _ | JObj _ => false
  | _ => true
  end.

(** [for x in obj]: the elements of a list, the characters of a string,
    the keys of a dict; [None] for the [TypeError]. *)
Definition iterate (obj : Json) : option (list Json) :=
  match obj with
  | JArr l => Some l
  | JStr s => Some (map JStr (chars s))
  | JObj d => Some (map (fun kv => JStr (fst kv)) d)
  | _ => None
  end.

(** The loop [for item in json["items"]: history[item["id"]] = item]
    (lines 162-163). *)
Fixpoint index_items (items : list Json) (history : list (Json * Json))
    : option (list (Json * Json)) :=
  match items with
  | [] => Some history
  | item :: rest =>
      match getitem item "id" with
      | None => None
      | Some id =>
          if hashable id then index_items rest (dict_set id item history)
          else None
      end
  end.

Section WithLib.
Context {lib : PyLib}.

(** The first lines of every call: a session without credential is
    refreshed; [None] when the membership test raises. *)
Definition with_credential (st : Sync.Client) (w : World)
    : option (Sync.Client * World) :=
  match contains "accessToken" (Sync.session st) with
  | None => None
  | Some true => Some (st, w)
  | Some false => Some (Sync.refresh_session st w)
  end.

(** [_api_get_request], [_api_post_request] and [_api_patch_request]
    (lines 77-90): the headers are built, the request is sent to [server]
    ([None] when sending throws), the response is processed. *)
Definition send (server : Request -> option Response) (verb : string)
    (target : Endpoint) (data : Json) (session : Json)
    : (bool * option Json + Exn) * list Request :=
  match _api_request_build_headers session with
  | None => (inr PyError, [])
  | Some token =>
      let request := {| method := verb; endpoint := target;
                        authorization := token; payload := data |} in
      match server request with
      | None => (inr PlaywrightError, [request])
      | Some response => (inl (_process_api_response response), [request])
      end
  end.

Definition finish (st : Sync.Client) (w : World) (r : Reply) (rs : list Request) : Call :=
  {| reply := r; client_after := st; world_after := w; requests := rs |}.

Definition none_or (v : option Json) : Json :=
  match v with
  | Some j => j
  | None => JNull
  end.

(** [delete_conversation] (lines 121-135); [uuid] is [JNull] when the
    argument is left out. *)
Definition delete_conversation (server : Request -> option Response)
    (uuid : Json) (st : Sync.Client) (w : World) : Call :=
  match with_credential st w with
  | None => finish st w (Throws PyError) []
  | Some (st1, w1) =>
      if (negb (truthy uuid) && negb (truthy (conversation_id (Sync.conv st1))))%bool
      then finish st1 w1 (Value JNull) []
      else
        let id := if truthy uuid then uuid else conversation_id (Sync.conv st1) in
        match send server "PATCH" (Conversation id)
                (JObj [("is_visible", JBool false)]) (Sync.session st1) with
        | (inr e, rs) => finish st1 w1 (Throws e) rs
        | (inl (true, json), rs) => finish st1 w1 (Value (none_or json)) rs
        | (inl (false, _), rs) => finish st1 w1 (Value JNull) rs
        end
  end.

(** [set_title] (lines 137-149). *)
Definition set_title (server : Request -> option Response)
    (title conversation_id_arg : Json) (st : Sync.Client) (w : World) : Call :=
  match with_credential st w with
  | None => finish st w (Throws PyError) []
  | Some (st1, w1) =>
      let id := if truthy conversation_id_arg then conversation_id_arg
                else conversation_id (Sync.conv st1) in
      match send server "PATCH" (Conversation id)
              (JObj [("title", title)]) (Sync.session st1) with
      | (inr e, rs) => finish st1 w1 (Throws e) rs
      | (inl (true, json), rs) => finish st1 w1 (Value (none_or json)) rs
      | (inl (false, _), rs) => finish st1 w1 (Value JNull) rs
      end
  end.

(** [get_history] (lines 151-166). *)
Definition get_history (server : Request -> option Response)
    (limit offset : Json) (st : Sync.Client) (w : World) : Call :=
  match with_credential st w with
  | None => finish st w (Throws PyError) []
  | Some (st1, w1) =>
      match send server "GET" Conversations
              (JObj [("offset", offset); ("limit", limit)]) (Sync.session st1) with
      | (inr e, rs) => finish st1 w1 (Throws e) rs
      | (inl (false, _), rs) => finish st1 w1 (Value JNull) rs
      | (inl (true, json), rs) =>
          match json with
          | None => finish st1 w1 (Throws PyError) rs
          | Some j =>
              match getitem j "items" with
              | None => finish st1 w1 (Throws PyError) rs
              | Some items =>
                  match iterate items with
                  | None => finish st1 w1 (Throws PyError) rs
                  | Some l =>
                      match index_items l [] with
                      | None => finish st1 w1 (Throws PyError) rs
                      | Some history => finish st1 w1 (Table history) rs
                      end
                  end
              end
          end
      end
  end.

(** [get_conversation] (lines 168-178). *)
Definition get_conversation (server : Request -> option Response)
    (id_arg : Json) (st : Sync.Client) (w : World) : Call :=
  match with_credential st w with
  | None => finish st w (Throws PyError) []
  | Some (st1, w1) =>
      let id := if truthy id_arg then id_arg else conversation_id (Sync.conv st1) in
      if truthy id then
        match send server "GET" (Conversation id) (JObj []) (Sync.session st1) with
        | (inr e, rs) => finish st1 w1 (Throws e) rs
        | (inl (true, json), rs) => finish st1 w1 (Value (none_or json)) rs
        | (inl (false, _), rs) => finish st1 w1 (Value JNull) rs
        end
      else finish st1 w1 (Value JNull) []
  end.

End WithLib.
End Api.

(** ** Vocabulary of the properties *)

(** Each message of [ms] extends the one before it, the first one [last]. *)
Fixpoint extends (last : string) (ms : list string) : Prop :=
  match ms with
  | [] => True
  | m :: rest => String.prefix last m = true /\ extends m rest
  end.

(** The lengths of [ms] never go down, starting from [n]. *)
Fixpoint nondecreasing (n : nat) (ms : list string) : Prop :=
  match ms with
  | [] => True
  | m :: rest => n <= String.length m /\ nondecreasing (String.length m) rest
  end.

(** The retry budgets [async_ask_stream] was entered with, in order. *)
Fixpoint stream_budgets (tr : list Event) : list Z :=
  match tr with
  | [] => []
  | EvStream _ b :: rest => b :: stream_budgets rest
  | _ :: rest => stream_budgets rest
  end.

(** The retry budgets [async_ask] was entered with, in order. *)
Fixpoint ask_budgets (tr : list Event) : list Z :=
  match tr with
  | [] => []
  | EvAsk _ b :: rest => b :: ask_budgets rest
  | _ :: rest => ask_budgets rest
  end.

(** Neighbours of a list are related by [R]. *)
Fixpoint chain (R : Z -> Z -> Prop) (l : list Z) : Prop :=
  match l with
  | a :: (b :: _) as rest => R a b /\ chain R rest
  | _ => True
  end.

Definition strictly_decreasing (l : list Z) : Prop := chain (fun a b => (b < a)%Z) l.

(** The codes a run injected into the page. *)
Fixpoint injected (tr : list Event) : list Code :=
  match tr with
  | [] => []
  | EvInject code _ :: rest => code :: injected rest
  | _ :: rest => injected rest
  end.

(** The code sends [request]: its text has the call of [xhr.send] of the
    template with [json.dumps(request)] as the object. *)
Definition sends (request : Json) (code : string) : bool :=
  str_contains
    (String.concat "" [ "xhr.send(JSON.stringify("; json_dumps request; "));" ])
    code.

(** The payload as the specification words it: [{messages:[{id: newId,
    role:"user", content:{content_type:"text", parts:[prompt]}}], model,
    conversation_id, parent_message_id, action:"next"}]. *)
Definition spec_payload (newId prompt model : string)
    (conversation_id parent_message_id : Json) : Json :=
  JObj [ ("messages",
          JArr [ JObj [ ("id", JStr newId); ("role", JStr "user");
                        ("content", JObj [ ("content_type", JStr "text");
                                           ("parts", JArr [JStr prompt]) ]) ] ]);
         ("model", JStr model);
         ("conversation_id", conversation_id);
         ("parent_message_id", parent_message_id);
         ("action", JStr "next") ].

Section Vocabulary.
Context {lib : PyLib}.

(** The [try] block of an iteration on [inner_html] makes no assignment:
    nothing is decoded, or what is decoded has no [message.id]. *)
Definition silent (inner_html : string) : bool :=
  match b64decode inner_html with
  | None => true
  | Some event_raw =>
      if (String.length event_raw =? 0)%nat then true
      else
        match json_loads event_raw with
        | None | Some JNull => true
        | Some event =>
            match getitem event "message" with
            | None => true
            | Some message =>
                match getitem message "id" with
                | None => true
                | Some _ => false
                end
            end
        end
  end.

(** No iteration of the script decodes an event. *)
Definition quiet (ps : list Poll) : bool :=
  forallb (fun p => match conversation_datas p with
                    | None => true
                    | Some inner_html => silent inner_html
                    end) ps.

(** The session [async_ask_stream] tests for the credential: the stored
    one, refreshed first when it equals [{}]. *)
Definition async_checked_session (st : Async.Client) (w : World) : Json :=
  if is_empty_dict (Async.session st)
  then fst (refreshed (Async.session st) w)
  else Async.session st.

(** The session [ask_stream] tests for the credential: the stored one,
    refreshed first when it has no credential. *)
Definition sync_checked_session (st : Sync.Client) (w : World) : Json :=
  match contains "accessToken" (Sync.session st) with
  | Some false => fst (refreshed (Sync.session st) w)
  | _ => Sync.session st
  end.

(** The conversation state after the iteration that reads [p]: the one
    the [try] block leaves, whether it completes or raises. *)
Definition stored (c : Conv) (p : Poll) : Conv :=
  match conversation_datas p with
  | Some inner_html => fst (read_event inner_html c)
  | None => c
  end.

(** The part of the script [ps] a loop ran the body of: what it read, less
    the last reading of the clock when it was left through its [else]. *)
Definition iterated (ps : list Poll) (l : Loop) : list Poll :=
  firstn (length ps - length (unread l)
          - match exit l with ExitElse => 1 | _ => 0 end) ps.

(** The streaming calls [async_ask] makes (line 511 of every attempt), in
    order. *)
Fixpoint ask_attempts (fuel : nat) (message : string) (remaining_retry : Z)
    (st : Async.Client) (w : World) {struct fuel} : list (Run Async.Client) :=
  match fuel with
  | O => []
  | S fuel' =>
      if (remaining_retry =? 0)%Z then []
      else
        let r := Async.async_ask_stream fuel message 2 st w in
        r :: match outcome r, yielded r with
             | Returned, [] =>
                 let (st', w') := Async.async_refresh_session (client r) (world r) in
                 ask_attempts fuel' message (remaining_retry - 1) st' w'
             | _, _ => []
             end
  end.

End Vocabulary.

(** What a coroutine that runs at the awaits of [steps] reads in
    [AsyncChatGPT.session], await by await, when the session is [session]
    before the first step. *)
Fixpoint sessions_seen (steps : list Async.Step) (session : Json) : list Json :=
  match steps with
  | [] => []
  | Async.Await _ :: rest => session :: sessions_seen rest session
  | Async.Assign parsed :: rest => sessions_seen rest parsed
  end.

(** The session the steps leave. *)
Fixpoint session_after (steps : list Async.Step) (session : Json) : Json :=
  match steps with
  | [] => session
  | Async.Await _ :: rest => session_after rest session
  | Async.Assign parsed :: rest => session_after rest parsed
  end.

(** [text] is the part of [contents] from its first opening brace to its
    last closing brace, both included. *)
Definition window (contents text : string) : Prop :=
  exists start stop,
    (String.get start contents = Some "{"%char
     /\ forall j, j < start -> String.get j contents <> Some "{"%char)
    /\ (String.get stop contents = Some "}"%char
        /\ forall j, stop < j -> String.get j contents <> Some "}"%char)
    /\ text = String.substring start (S stop - start) contents.

(** What the loops keep true: the chunks complete [last] to the last
    message read. *)
Definition tracks (last : string) (l : Loop) : Prop :=
  String.append last (String.concat "" (chunks l)) = last_event_msg l
  /\ last_event_msg l = List.last (observed l) last
  /\ nondecreasing (String.length last) (observed l).

(** The ways a call of [async_ask_stream] can go, by what it leaves. *)
Inductive StreamView {lib : PyLib} (prompt : string) (b : Z) (st : Async.Client)
    (w : World) (r : Run Async.Client) : Prop :=
| ViewEarly (tr1 : list Event) :
    trace r = EvStream prompt b :: tr1 ->
    tr1 = [] \/ tr1 = [EvRefresh] ->
    yielded r = [] ->
    Async.conv (client r) = Async.conv st ->
    outcome r <> Returned ->
    (outcome r = Raised NetworkError -> b = 0%Z) ->
    StreamView prompt b st w r
| ViewThrew (tr1 : list Event) (code : Code) (n : nat) :
    trace r = EvStream prompt b :: tr1 ++ [EvInject code true; EvRefresh; EvStream prompt 2] ->
    tr1 = [] \/ tr1 = [EvRefresh] ->
    request_json code = build_request (uuid4 w n) prompt Async.model (Async.conv st) ->
    yielded r = [] ->
    Async.conv (client r) = Async.conv st ->
    outcome r = Blocked \/ outcome r = OutOfFuel ->
    StreamView prompt b st w r
| ViewPolled (tr1 tail : list Event) (code : Code) (n : nat) (start_time : Z) :
    let l := Async.poll_loop (polls w) start_time (Async.timeout st) None ""
               (Async.conv st) in
    trace r = EvStream prompt b :: tr1 ++ EvInject code false :: tail ->
    tr1 = [] \/ tr1 = [EvRefresh] ->
    request_json code = build_request (uuid4 w n) prompt Async.model (Async.conv st) ->
    (tail = [] /\ exit l <> ExitElse)
    \/ (tail = [EvRefresh; EvStream prompt (b - 1)] /\ exit l = ExitElse
        /\ (outcome r = Blocked \/ outcome r = OutOfFuel)) ->
    yielded r = chunks l ->
    Async.conv (client r) = conv_end l ->
    outcome r <> Raised NetworkError ->
    StreamView prompt b st w r.

(** The ways a call of the synchronous [ask_stream] can go, by what it
    leaves. *)
Inductive SyncView {lib : PyLib} (prompt : string) (st : Sync.Client)
    (w : World) (r : Run Sync.Client) : Prop :=
| SyncEarly (tr1 : list Event) :
    trace r = tr1 ->
    tr1 = [] \/ tr1 = [EvRefresh] ->
    Sync.conv (client r) = Sync.conv st ->
    SyncView prompt st w r
| SyncInjected (tr1 : list Event) (code : Code) (threw : bool) (n : nat)
    (m : string) (start_time : Z) :
    let l := Sync.poll_loop (polls w) start_time (Sync.timeout st) ""
               (Sync.conv st) in
    trace r = tr1 ++ [EvInject code threw] ->
    tr1 = [] \/ tr1 = [EvRefresh] ->
    Sync.render_model Sync.RENDER_MODELS (Sync.model st) = Some m ->
    request_json code = build_request (uuid4 w n) prompt m (Sync.conv st) ->
    (if threw then yielded r = [] /\ Sync.conv (client r) = Sync.conv st
     else yielded r = chunks l /\ Sync.conv (client r) = conv_end l) ->
    SyncView prompt st w r.

(** ** Vocabulary of the further properties *)

(** An identifier as the site uses them: [None] or a string. *)
Definition is_key (j : Json) : Prop := j = JNull \/ exists s, j = JStr s.

(** The items of a mapping have string identifiers, parents that are
    identifiers or [None], and items with the same identifier have the same
    parent. *)
Definition well_formed (values : list Json) : Prop :=
  (forall x a, In x values -> getitem x "id" = Some a -> exists s, a = JStr s)
  /\ (forall x p, In x values -> getitem x "parent" = Some p -> is_key p)
  /\ (forall x y a, In x values -> In y values ->
        getitem x "id" = Some a -> getitem y "id" = Some a ->
        getitem x "parent" = getitem y "parent").

(** The identifiers of the items visited, the last one first: each belongs
    to an item whose parent is the identifier visited before. *)
Fixpoint trail (values : list Json) (visited : list Json) : Prop :=
  match visited with
  | [] => True
  | a :: rest =>
      (exists x, In x values /\ getitem x "id" = Some a
                 /\ getitem x "parent" = Some (hd JNull rest))
      /\ trail values rest
  end.

Definition ids_of (values : list Json) : list Json :=
  flat_map (fun x => opt_list (getitem x "id")) values.

(** A conversation without branches: the first item has parent [parent],
    every other item has the identifier of the item before it as parent,
    and the identifiers are strings. *)
Fixpoint linear (parent : Json) (items : list Json) : Prop :=
  match items with
  | [] => True
  | x :: rest =>
      getitem x "parent" = Some parent
      /\ exists s, getitem x "id" = Some (JStr s) /\ linear (JStr s) rest
  end.

(** The messages of the items that pass the test of line 117, in order;
    [None] when an item has no message or the test raises. *)
Fixpoint selected (items : list Json) : option (list Json) :=
  match items with
  | [] => Some []
  | x :: rest =>
      match getitem x "message" with
      | None => None
      | Some m =>
          match Api.wanted m, selected rest with
          | Some keep, Some out => Some (if keep then m :: out else out)
          | _, _ => None
          end
      end
  end.

(** The identifier the walk ends on. *)
Fixpoint last_id (parent : Json) (items : list Json) : Json :=
  match items with
  | [] => parent
  | x :: rest =>
      match getitem x "id" with
      | Some a => last_id a rest
      | None => parent
      end
  end.

(** The last item of [items] whose identifier is the string [s], [found]
    when there is none. *)
Fixpoint last_with_id (s : string) (items : list Json) (found : option Json) : option Json :=
  match items with
  | [] => found
  | item :: rest =>
      last_with_id s rest
        (match getitem item "id" with
         | Some (JStr t) => if String.eqb t s then Some item else found
         | _ => found
         end)
  end.

(** Further sample data. *)
Module Cases.

(** An event with a message identifier and no conversation identifier. *)
Definition html_no_conversation : string := "eyJtZXNzYWdlIjp7ImlkIjoibTkifX0=".

Definition text_no_conversation : string :=
  String.concat ""
    [ "{"; Sample.q; "message"; Sample.q; ":{"; Sample.q; "id"; Sample.q; ":";
      Sample.q; "m9"; Sample.q; "}}" ].

Definition value_no_conversation : Json :=
  JObj [ ("message", JObj [ ("id", JStr "m9") ]) ].

(** The sample library, knowing that event too. *)
Definition library : PyLib :=
  {| b64decode := fun s =>
       if String.eqb s html_no_conversation then Some text_no_conversation
       else b64decode (PyLib := Sample.library) s;
     json_loads := fun s =>
       if String.eqb s text_no_conversation then Some value_no_conversation
       else json_loads (PyLib := Sample.library) s |}.

(** An item of a conversation mapping. *)
Definition item (id : string) (parent : Json) (role text : string) : Json :=
  JObj [ ("id", JStr id);
         ("message", JObj [ ("author", JObj [ ("role", JStr role) ]);
                            ("content", JObj [ ("parts", JArr [JStr text]) ]) ]);
         ("parent", parent) ].

Definition message_of (role text : string) : Json :=
  JObj [ ("author", JObj [ ("role", JStr role) ]);
         ("content", JObj [ ("parts", JArr [JStr text]) ]) ].

(** A conversation of three messages, the first one of the system. *)
Definition thread : list Json :=
  [ item "a" JNull "system" "";
    item "b" (JStr "a") "user" "Good night!";
    item "c" (JStr "b") "assistant" "Sleep well." ].

(** Its data, the mapping in another order. *)
Definition conversation : Json :=
  JObj [ ("title", JStr "Night");
         ("mapping",
          JObj [ ("c", item "c" (JStr "b") "assistant" "Sleep well.");
                 ("a", item "a" JNull "system" "");
                 ("b", item "b" (JStr "a") "user" "Good night!") ]) ].

(** A mapping whose root item has no identifier. *)
Definition rootless : Json :=
  JObj [ ("mapping",
          JObj [ ("x", JObj [ ("id", JNull); ("message", JNull);
                              ("parent", JNull) ]) ]) ].

Definition entry (id title : string) : Json :=
  JObj [ ("id", JStr id); ("title", JStr title) ].

(** A listing in which one conversation comes twice. *)
Definition listing : Json :=
  JObj [ ("items", JArr [ entry "c1" "old"; entry "c2" "other"; entry "c1" "new" ]) ].

(** A server that answers every request the same way. *)
Definition server (answer : option Api.Response) : Api.Request -> option Api.Response :=
  fun _ => answer.

Definition answered (j : Json) : option Api.Response :=
  Some {| Api.ok := true; Api.body := Some j |}.

(** A client in the conversation "c1". *)
Definition in_conversation (s : Json) : Sync.Client :=
  {| Sync.session := s;
     Sync.conv := {| parent_message_id := JStr "m2"; conversation_id := JStr "c1" |};
     Sync.conversation_title_set := JBool true; Sync.model := "default";
     Sync.timeout := 60 |}.

(** The environment [w] with a page in which removing the markers throws
    (a marker is missing). *)
Definition marker_missing (w : World) : World :=
  {| calls := calls w; uuid4 := uuid4 w; time_time := time_time w;
     page_content := page_content w; page_evaluate := page_evaluate w;
     cleanup_divs := fun _ => false; request_post := request_post w;
     polls := polls w |}.

End Cases.

(** ** Strings *)

Lemma append_empty (s : string) : String.append s "" = s.
Proof. induction s as [|a s IH]; simpl; [reflexivity | now rewrite IH]. Qed.

Lemma concat_cons (x : string) (xs : list string) :
  String.concat "" (x :: xs) = String.append x (String.concat "" xs).
Proof. destruct xs; simpl; [now rewrite append_empty | reflexivity]. Qed.

Lemma append_assoc (a b c : string) :
  String.append (String.append a b) c = String.append a (String.append b c).
Proof. induction a as [|x a IH]; simpl; [reflexivity | now rewrite IH]. Qed.

(** A message that extends [last] is [last] followed by the chunk. *)
Lemma chunk_completes (last m : string) :
  String.prefix last m = true -> String.append last (chunk_of last m) = m.
Proof.
  unfold chunk_of. revert m.
  induction last as [|a last IH]; intros m H.
  - reflexivity.
  - destruct m as [|b m]; simpl in H; [discriminate|].
    destruct (Ascii.ascii_dec a b) as [->|]; [|discriminate].
    simpl. now rewrite IH.
Qed.

Lemma prefix_length (a b : string) :
  String.prefix a b = true -> String.length a <= String.length b.
Proof.
  revert b. induction a as [|x a IH]; intros b H; [simpl; lia|].
  destruct b as [|y b]; simpl in H; [discriminate|].
  destruct (Ascii.ascii_dec x y); [|discriminate].
  simpl. apply IH in H. lia.
Qed.

Lemma last_cons {A : Type} (m d : A) (l : list A) :
  List.last (m :: l) d = List.last l m.
Proof.
  revert m d. induction l as [|x l IH]; intros m d; [reflexivity|].
  change (List.last (x :: l) d = List.last (x :: l) m).
  now rewrite !IH.
Qed.

(** ** The diff of the polling loops *)

Section Diff.
Context {lib : PyLib}.

Lemma tracks_leaving last c how rest : tracks last (leaving last c how rest).
Proof. unfold tracks; simpl. now rewrite append_empty. Qed.

Lemma tracks_message last m l :
  String.prefix last m = true ->
  tracks m l ->
  tracks last
    {| chunks := chunk_of last m :: chunks l; observed := m :: observed l;
       last_event_msg := last_event_msg l; conv_end := conv_end l;
       exit := exit l; unread := unread l |}.
Proof.
  intros Hp (Hc & Hl & Hn). unfold tracks. cbn [chunks observed last_event_msg].
  rewrite concat_cons, <- append_assoc, (chunk_completes _ _ Hp), last_cons.
  repeat split; auto using prefix_length.
Qed.

Lemma async_loop_tracks ps start_time tmo full last c :
  extends last (observed (Async.poll_loop ps start_time tmo full last c)) ->
  tracks last (Async.poll_loop ps start_time tmo full last c).
Proof.
  revert full last c.
  induction ps as [|p rest IH]; intros full last c; cbn [Async.poll_loop].
  - intros _. apply tracks_leaving.
  - destruct ((now p - start_time <=? tmo)%Z || is_some full)%bool;
      [|intros _; apply tracks_leaving].
    unfold Async.iteration.
    destruct (conversation_datas p) as [inner_html|]; cbn.
    + destruct (read_event inner_html c) as [c' [| |m]]; cbn.
      * intros _. unfold tracks; cbn. now rewrite append_empty.
      * destruct (eof_datas p); cbn.
        -- intros _. unfold tracks; cbn. now rewrite append_empty.
        -- apply IH.
      * destruct (eof_datas p); cbn.
        -- intros [Hp _]. apply (tracks_message last m (leaving m c' ExitBreak rest) Hp).
           apply tracks_leaving.
        -- intros [Hp He]. apply (tracks_message _ _ _ Hp). now apply IH.
    + apply IH.
Qed.

Lemma sync_loop_tracks ps start_time tmo last c :
  extends last (observed (Sync.poll_loop ps start_time tmo last c)) ->
  exit (Sync.poll_loop ps start_time tmo last c) <> ExitRaise ->
  tracks last (Sync.poll_loop ps start_time tmo last c).
Proof.
  revert last c.
  induction ps as [|p rest IH]; intros last c; cbn [Sync.poll_loop].
  - intros _ _. apply tracks_leaving.
  - unfold Sync.iteration.
    destruct (conversation_datas p) as [inner_html|]; cbn.
    + destruct (read_event inner_html c) as [c' [| |m]]; cbn.
      * intros _ H. now elim H.
      * destruct (eof_datas p || (tmo <? now p - start_time)%Z)%bool; cbn.
        -- intros _ _. unfold tracks; cbn. now rewrite append_empty.
        -- apply IH.
      * destruct (eof_datas p); cbn.
        -- intros [Hp _] _.
           apply (tracks_message last m (leaving m c' ExitBreak rest) Hp).
           apply tracks_leaving.
        -- intros [Hp He] Hx. apply (tracks_message _ _ _ Hp). now apply IH.
    + apply IH.
Qed.

End Diff.

(** ** Session refresh *)

Section Refresh.
Context {lib : PyLib}.

Lemma read_document_uuid4 w : uuid4 (snd (read_document w)) = uuid4 w.
Proof.
  unfold read_document, consult; cbn.
  now destruct (str_contains interstitial (page_content w (calls w))).
Qed.

Lemma refreshed_uuid4 s w : uuid4 (snd (refreshed s w)) = uuid4 w.
Proof.
  unfold refreshed. pose proof (read_document_uuid4 w) as H.
  destruct (read_document w) as [contents w']; cbn in *.
  destruct (braces contents) as [text|]; [|exact H].
  now destruct (json_loads text).
Qed.

(** A refresh leaves the old session or the parsed object, as a whole. *)
Lemma refreshed_cases s w :
  fst (refreshed s w) =
    match braces (fst (read_document w)) with
    | Some text =>
        match json_loads text with
        | Some parsed => parsed
        | None => s
        end
    | None => s
    end.
Proof.
  unfold refreshed. destruct (read_document w) as [contents w']; cbn.
  destruct (braces contents) as [text|]; [|reflexivity].
  now destruct (json_loads text).
Qed.

Lemma async_refresh_keeps st w :
  Async.lock (fst (Async.async_refresh_session st w)) = Async.lock st
  /\ Async.conv (fst (Async.async_refresh_session st w)) = Async.conv st
  /\ Async.timeout (fst (Async.async_refresh_session st w)) = Async.timeout st
  /\ Async.session (fst (Async.async_refresh_session st w)) =
       fst (refreshed (Async.session st) w)
  /\ snd (Async.async_refresh_session st w) = snd (refreshed (Async.session st) w).
Proof.
  unfold Async.async_refresh_session.
  destruct (refreshed (Async.session st) w) as [s w']. cbn. auto.
Qed.

End Refresh.

(** ** Re-entering [async_ask_stream] *)

Section Reentry.
Context {lib : PyLib}.

(** A call made while the lock is held never gets past the lock. *)
Lemma stream_locked fuel prompt b st w :
  Async.lock st = true ->
  Async.async_ask_stream fuel prompt b st w =
    Async.stop (match fuel with O => OutOfFuel | S _ => Blocked end)
      [] st w [EvStream prompt b].
Proof.
  intros H. destruct fuel; cbn; [reflexivity|]. now rewrite H.
Qed.

Lemma delegate_locked ys tr fuel prompt b st w :
  Async.lock st = true ->
  Async.delegate ys tr (Async.async_ask_stream fuel prompt b st w) =
    Async.stop (match fuel with O => OutOfFuel | S _ => Blocked end)
      ys st w (tr ++ [EvStream prompt b]).
Proof.
  intros H. rewrite (stream_locked _ _ _ _ _ H).
  unfold Async.delegate, Async.stop; cbn. rewrite app_nil_r.
  now destruct fuel.
Qed.

End Reentry.

(** ** The ways of a streaming call *)

Section Views.
Context {lib : PyLib}.

Lemma read_document_polls w : polls (snd (read_document w)) = polls w.
Proof.
  unfold read_document, consult; cbn.
  now destruct (str_contains interstitial (page_content w (calls w))).
Qed.

Lemma refreshed_polls s w : polls (snd (refreshed s w)) = polls w.
Proof.
  unfold refreshed. pose proof (read_document_polls w) as H.
  destruct (read_document w) as [contents w']; cbn in *.
  destruct (braces contents) as [text|]; [|exact H].
  now destruct (json_loads text).
Qed.

Lemma ensure_session_spec st w :
  exists st1 w1 tr1,
    Async.ensure_session st w = (st1, w1, tr1)
    /\ Async.lock st1 = Async.lock st
    /\ Async.conv st1 = Async.conv st
    /\ Async.timeout st1 = Async.timeout st
    /\ Async.session st1 = async_checked_session st w
    /\ uuid4 w1 = uuid4 w
    /\ polls w1 = polls w
    /\ (tr1 = [] \/ tr1 = [EvRefresh]).
Proof.
  unfold Async.ensure_session, async_checked_session.
  destruct (is_empty_dict (Async.session st)).
  - pose proof (async_refresh_keeps st w) as (H1 & H2 & H3 & H4 & H5).
    destruct (Async.async_refresh_session st w) as [st' w']; cbn in *.
    exists st', w', [EvRefresh]. subst w'.
    repeat split; auto using refreshed_uuid4, refreshed_polls.
  - exists st, w, []. repeat split; auto.
Qed.

Lemma stream_view fuel prompt b st w :
  StreamView prompt b st w (Async.async_ask_stream fuel prompt b st w).
Proof.
  destruct fuel as [|fuel]; cbn [Async.async_ask_stream].
  { apply (ViewEarly _ _ _ _ _ []); cbn; auto; discriminate. }
  destruct (Async.lock st) eqn:Hl.
  { apply (ViewEarly _ _ _ _ _ []); cbn; auto; discriminate. }
  destruct (b =? 0)%Z eqn:Hb.
  { apply Z.eqb_eq in Hb. apply (ViewEarly _ _ _ _ _ []); cbn; auto; discriminate. }
  destruct (ensure_session_spec (Async.with_lock true st) w)
    as (st1 & w1 & tr1 & -> & Hlock & Hconv & Htmo & _ & Hu & Hp & Htr).
  cbn in Hlock, Hconv, Htmo. unfold consult.
  destruct (contains "accessToken" (Async.session st1)) as [[|]|].
  2,3: apply (ViewEarly _ _ _ _ _ tr1); cbn; auto; discriminate.
  destruct (build_code _ _ _) as [code|] eqn:Hcode.
  2: apply (ViewEarly _ _ _ _ _ tr1); cbn; auto; discriminate.
  assert (Hreq : request_json code =
            build_request (uuid4 w (calls w1)) prompt Async.model (Async.conv st)).
  { unfold build_code in Hcode.
    destruct (getitem (Async.session st1) "accessToken") as [[]|]; try discriminate.
    injection Hcode as <-. cbn. now rewrite Hu, Hconv. }
  destruct (page_evaluate (tick w1) (calls (tick w1))).
  - cbn [polls tick]. rewrite Hp, Htmo, Hconv.
    set (start_time := time_time _ _).
    set (l := Async.poll_loop (polls w) start_time (Async.timeout st) None "" (Async.conv st)).
    destruct (exit l) eqn:Hx.
    + apply (ViewPolled _ _ _ _ _ tr1 [] code (calls w1) start_time); cbn; auto;
        try discriminate.
      left. split; [reflexivity|]. intros K.
      unfold l, start_time in Hx. cbn in Hx, K. congruence.
    + match goal with |- context [Async.async_refresh_session ?s ?x] =>
        pose proof (async_refresh_keeps s x) as (K1 & K2 & _);
        destruct (Async.async_refresh_session s x) as [st3 w6] end.
      cbn in K1, K2. rewrite delegate_locked by congruence.
      apply (ViewPolled _ _ _ _ _ tr1 [EvRefresh; EvStream prompt (b - 1)] code (calls w1) start_time);
        cbn; auto.
      * now rewrite <- !app_assoc.
      * right. unfold l, start_time in Hx. cbn in Hx. destruct fuel; auto.
      * destruct fuel; discriminate.
    + apply (ViewPolled _ _ _ _ _ tr1 [] code (calls w1) start_time); cbn; auto;
        try discriminate.
      left. split; [reflexivity|]. intros K.
      unfold l, start_time in Hx. cbn in Hx, K. congruence.
    + apply (ViewPolled _ _ _ _ _ tr1 [] code (calls w1) start_time); cbn; auto;
        try discriminate.
      left. split; [reflexivity|]. intros K.
      unfold l, start_time in Hx. cbn in Hx, K. congruence.
  - match goal with |- context [Async.async_refresh_session ?s ?x] =>
      pose proof (async_refresh_keeps s x) as (K1 & K2 & _);
      destruct (Async.async_refresh_session s x) as [st3 w6] end.
    cbn in K1, K2. rewrite delegate_locked by congruence.
    apply (ViewThrew _ _ _ _ _ tr1 code (calls w1)); cbn; auto.
    + now rewrite <- app_assoc.
    + congruence.
    + destruct fuel; auto.
Qed.
End Views.

(** ** The conversation state across iterations *)

Section Conversation.
Context {lib : PyLib}.

(** A silent marker content leaves the conversation state alone. *)
Lemma silent_keeps inner_html c :
  silent inner_html = true -> fst (read_event inner_html c) = c.
Proof.
  unfold silent, read_event.
  destruct (b64decode inner_html) as [event_raw|]; [|reflexivity].
  destruct (String.length event_raw =? 0)%nat; [reflexivity|].
  destruct (json_loads event_raw) as [event|]; [|reflexivity].
  destruct event; try reflexivity;
    (destruct (getitem _ "message") as [message|]; [|reflexivity];
     destruct (getitem message "id"); [discriminate | reflexivity]).
Qed.

Lemma async_quiet_loop ps start_time tmo full last c :
  quiet ps = true ->
  conv_end (Async.poll_loop ps start_time tmo full last c) = c.
Proof.
  revert full last c.
  induction ps as [|p rest IH]; intros full last c H; cbn [Async.poll_loop];
    [reflexivity|].
  cbn in H. apply andb_prop in H as [Hp Hrest].
  destruct ((now p - start_time <=? tmo)%Z || is_some full)%bool; [|reflexivity].
  unfold Async.iteration.
  destruct (conversation_datas p) as [inner_html|]; cbn; [|now apply IH].
  pose proof (silent_keeps inner_html c Hp) as K.
  destruct (read_event inner_html c) as [c' [| |m]]; cbn in *; subst c';
    try destruct (eof_datas p); cbn; auto.
Qed.

Lemma sync_quiet_loop ps start_time tmo last c :
  quiet ps = true ->
  conv_end (Sync.poll_loop ps start_time tmo last c) = c.
Proof.
  revert last c.
  induction ps as [|p rest IH]; intros last c H; cbn [Sync.poll_loop];
    [reflexivity|].
  cbn in H. apply andb_prop in H as [Hp Hrest].
  unfold Sync.iteration.
  destruct (conversation_datas p) as [inner_html|]; cbn; [|now apply IH].
  pose proof (silent_keeps inner_html c Hp) as K.
  destruct (read_event inner_html c) as [c' [| |m]]; cbn in *; subst c';
    try destruct (eof_datas p); try destruct (tmo <? now p - start_time)%Z;
    cbn; auto.
Qed.

End Conversation.

(** ** The ways of a synchronous streaming call *)

Section SyncViews.
Context {lib : PyLib}.

Lemma sync_refresh_keeps st w :
  Sync.conv (fst (Sync.refresh_session st w)) = Sync.conv st
  /\ Sync.model (fst (Sync.refresh_session st w)) = Sync.model st
  /\ Sync.timeout (fst (Sync.refresh_session st w)) = Sync.timeout st
  /\ Sync.session (fst (Sync.refresh_session st w)) =
       fst (refreshed (Sync.session st) w)
  /\ snd (Sync.refresh_session st w) = snd (refreshed (Sync.session st) w).
Proof.
  unfold Sync.refresh_session.
  destruct (refreshed (Sync.session st) w) as [s w']. cbn. auto.
Qed.

Lemma gen_title_keeps st w st' w' :
  Sync._gen_title st w = (inl st', w') -> Sync.conv st' = Sync.conv st.
Proof.
  unfold Sync._gen_title.
  destruct (_ || _)%bool; [now intros [= <- _]|].
  destruct (Sync.render_model _ _); [|discriminate].
  destruct (getitem _ _); [|discriminate].
  destruct (consult request_post w) as [[[|]|] w1]; intros [= <- _]; reflexivity.
Qed.

Lemma finish_keeps ys st w tr :
  yielded (Sync.finish ys st w tr) = ys
  /\ trace (Sync.finish ys st w tr) = tr
  /\ Sync.conv (client (Sync.finish ys st w tr)) = Sync.conv st.
Proof.
  unfold Sync.finish. destruct (consult cleanup_divs w) as [[|] w1]; cbn; auto.
  destruct (Sync._gen_title st w1) as [[st'|e] w2] eqn:E; cbn; auto.
  repeat split. eapply gen_title_keeps; eauto.
Qed.

Lemma sync_stream_view prompt st w :
  SyncView prompt st w (Sync.ask_stream prompt st w).
Proof.
  unfold Sync.ask_stream.
  destruct (contains "accessToken" (Sync.session st)) as [has|].
  2: { apply (SyncEarly _ _ _ _ []); cbn; auto. }
  assert (exists st1 w1 tr1,
            (if has then (st, w, [])
             else let (st', w') := Sync.refresh_session st w in (st', w', [EvRefresh]))
            = (st1, w1, tr1)
            /\ Sync.conv st1 = Sync.conv st /\ Sync.model st1 = Sync.model st
            /\ Sync.timeout st1 = Sync.timeout st
            /\ uuid4 w1 = uuid4 w /\ polls w1 = polls w
            /\ (tr1 = [] \/ tr1 = [EvRefresh]))
    as (st1 & w1 & tr1 & -> & Hconv & Hmodel & Htmo & Hu & Hp & Htr).
  { destruct has.
    - exists st, w, []. repeat split; auto.
    - pose proof (sync_refresh_keeps st w) as (H1 & H2 & H3 & H4 & H5).
      destruct (Sync.refresh_session st w) as [st' w']; cbn in *. subst w'.
      exists st', (snd (refreshed (Sync.session st) w)), [EvRefresh].
      repeat split; auto using refreshed_uuid4, refreshed_polls. }
  unfold consult.
  destruct (contains "accessToken" (Sync.session st1)) as [[|]|].
  2,3: apply (SyncEarly _ _ _ _ tr1); cbn; auto.
  rewrite Hmodel.
  destruct (Sync.render_model Sync.RENDER_MODELS (Sync.model st)) as [m|] eqn:Hm.
  2: apply (SyncEarly _ _ _ _ tr1); cbn; auto.
  destruct (build_code _ _ _) as [code|] eqn:Hcode.
  2: apply (SyncEarly _ _ _ _ tr1); cbn; auto.
  assert (Hreq : request_json code =
            build_request (uuid4 w (calls w1)) prompt m (Sync.conv st)).
  { unfold build_code in Hcode.
    destruct (getitem (Sync.session st1) "accessToken") as [[]|]; try discriminate.
    injection Hcode as <-. cbn. now rewrite Hu, Hconv. }
  destruct (page_evaluate (tick w1) (calls (tick w1))).
  - cbn [polls tick]. rewrite Hp, Htmo, Hconv.
    set (start_time := time_time _ _).
    set (l := Sync.poll_loop (polls w) start_time (Sync.timeout st) "" (Sync.conv st)).
    destruct (exit l);
      try match goal with |- context [Sync.finish ?a ?b ?c ?d] =>
        destruct (finish_keeps a b c d) as (F1 & F2 & F3) end;
      apply (SyncInjected _ _ _ _ tr1 code false (calls w1) m start_time);
      cbn; auto.
  - apply (SyncInjected _ _ _ _ tr1 code true (calls w1) m 0%Z); cbn; auto.
Qed.

End SyncViews.

(** ** The streamed diff (claim C1) *)

(** C1, as the specification states it, fails: the page decides what the
    stream marker holds.  Here the marker first holds "Good night!" and
    then "Hi": the second message is shorter than the first, and the
    deltas "Good night!" and "" do not add up to the final message "Hi". *)
Lemma deltas_miss_shrinking_message :
  let l := Async.poll_loop (lib := Sample.library)
             [ Sample.poll 1 false (Some Sample.html_good_night);
               Sample.poll 2 true (Some Sample.html_hi) ]
             0 60 None "" Sample.fresh in
  observed l = ["Good night!"; "Hi"]
  /\ chunks l = ["Good night!"; ""]
  /\ last_event_msg l = "Hi"
  /\ String.concat "" (chunks l) <> last_event_msg l
  /\ ~ nondecreasing 0 (observed l).
Proof.
  vm_compute. repeat split; try discriminate.
  intros (_ & H & _). lia.
Qed.

(** C1, amended: in both polling loops, when every cumulative message read
    extends the one read before it, the lengths of the messages read never
    go down and the deltas yielded, concatenated in order, are the last
    message read (in the synchronous loop: unless the loop was left through
    the failure text). *)
Theorem deltas_rebuild_extending_message {lib : PyLib}
    (ps : list Poll) (start_time tmo : Z) (c : Conv) :
  let a := Async.poll_loop ps start_time tmo None "" c in
  let s := Sync.poll_loop ps start_time tmo "" c in
  (extends "" (observed a) ->
     nondecreasing 0 (observed a)
     /\ String.concat "" (chunks a) = last_event_msg a
     /\ last_event_msg a = List.last (observed a) "")
  /\ (extends "" (observed s) -> exit s <> ExitRaise ->
     nondecreasing 0 (observed s)
     /\ String.concat "" (chunks s) = last_event_msg s
     /\ last_event_msg s = List.last (observed s) "").
Proof.
  cbv zeta. split.
  - intros H. destruct (async_loop_tracks _ _ _ _ _ _ H) as (Hc & Hl & Hn).
    cbn in Hc, Hn. auto.
  - intros H Hx. destruct (sync_loop_tracks _ _ _ _ _ H Hx) as (Hc & Hl & Hn).
    cbn in Hc, Hn. auto.
Qed.

Lemma deltas_rebuild_extending_message_witness :
  let ps := [ Sample.poll 1 false None;
              Sample.poll 2 false (Some Sample.html_good);
              Sample.poll 3 true (Some Sample.html_good_night) ] in
  let a := Async.poll_loop (lib := Sample.library) ps 0 60 None "" Sample.fresh in
  let s := Sync.poll_loop (lib := Sample.library) ps 0 60 "" Sample.fresh in
  (chunks a = ["Good "; "night!"]
   /\ String.concat "" (chunks a) = last_event_msg a)
  /\ (chunks s = ["Good "; "night!"]
      /\ String.concat "" (chunks s) = last_event_msg s).
Proof.
  cbv zeta.
  destruct (deltas_rebuild_extending_message (lib := Sample.library)
              [ Sample.poll 1 false None;
                Sample.poll 2 false (Some Sample.html_good);
                Sample.poll 3 true (Some Sample.html_good_night) ]
              0 60 Sample.fresh) as [Ha Hs].
  split.
  - split; [reflexivity|]. apply Ha. vm_compute. repeat split.
  - split; [reflexivity|]. apply Hs; vm_compute; [repeat split | discriminate].
Defined.

(** ** An empty marker (claim C10) *)

(** C10: an iteration that finds the stream marker with a content that
    decodes to the empty byte string yields no delta, leaves the
    conversation state and the last message seen as they were, and does not
    take the error path, in both implementations. *)
Theorem empty_payload_is_skipped {lib : PyLib}
    (p : Poll) (inner_html event_raw : string) (full : option string)
    (last : string) (c : Conv) (start_time tmo : Z) :
  conversation_datas p = Some inner_html ->
  b64decode inner_html = Some event_raw ->
  String.length event_raw = 0 ->
  let a := Async.iteration p full last c in
  let s := Sync.iteration p start_time tmo last c in
  (delta a = None /\ conv_after a = c /\ last_after a = last /\ control a <> Raise)
  /\ (delta s = None /\ conv_after s = c /\ last_after s = last /\ control s <> Raise).
Proof.
  intros Hp Hb Hl. unfold Async.iteration, Sync.iteration, read_event.
  rewrite Hp, Hb, Hl. cbn.
  repeat split; try reflexivity.
  - destruct (eof_datas p); discriminate.
  - destruct (eof_datas p || (tmo <? now p - start_time)%Z)%bool; discriminate.
Qed.

Lemma empty_payload_is_skipped_witness :
  let p := Sample.poll 1 false (Some "") in
  let a := Async.iteration (lib := Sample.library) p None "" Sample.fresh in
  let s := Sync.iteration (lib := Sample.library) p 0 60 "" Sample.fresh in
  (delta a = None /\ conv_after a = Sample.fresh /\ last_after a = "" /\ control a <> Raise)
  /\ (delta s = None /\ conv_after s = Sample.fresh /\ last_after s = "" /\ control s <> Raise).
Proof.
  apply (empty_payload_is_skipped (lib := Sample.library)
           (Sample.poll 1 false (Some "")) "" "" None "" Sample.fresh 0 60);
    reflexivity.
Defined.

(** ** Session refresh (claim C7) *)

Lemma rfind_char_is_last (c : ascii) (s : string) (i : nat) :
  rfind_char c s = Some i ->
  String.get i s = Some c
  /\ forall j, i < j -> String.get j s <> Some c.
Proof.
  revert i. induction s as [|a s IH]; intros i H; cbn in H; [discriminate|].
  destruct (rfind_char c s) as [k|] eqn:E.
  - injection H as <-. destruct (IH k eq_refl) as [Hg Hlast]. split; [exact Hg|].
    intros [|j] Hj; [lia|]. cbn. apply Hlast. lia.
  - destruct (Ascii.eqb a c) eqn:Ea; [|discriminate]. injection H as <-.
    apply Ascii.eqb_eq in Ea as ->. split; [reflexivity|].
    intros [|j] Hj; [lia|]. cbn.
    clear -E. revert j. induction s as [|b s IHs]; intros j; [discriminate|].
    cbn in E. destruct (rfind_char c s); [discriminate|].
    destruct (Ascii.eqb b c) eqn:Eb; [discriminate|].
    destruct j as [|j]; cbn.
    + intros [= ->]. now rewrite Ascii.eqb_refl in Eb.
    + now apply IHs.
Qed.

Lemma get_substring_one (s : string) (p : nat) (c : ascii) :
  String.get p s = Some c <-> String.substring p 1 s = String c EmptyString.
Proof.
  revert p. induction s as [|a s IH]; intros p.
  - destruct p; cbn; split; discriminate.
  - destruct p as [|p]; cbn.
    + destruct s; cbn; split; congruence.
    + apply IH.
Qed.

Lemma rfind_char_none (c : ascii) (s : string) :
  rfind_char c s = None -> forall j, String.get j s <> Some c.
Proof.
  induction s as [|a s IH]; cbn; intros H j; [destruct j; discriminate|].
  destruct (rfind_char c s); [discriminate|].
  destruct (Ascii.eqb a c) eqn:E; [discriminate|].
  destruct j as [|j]; cbn; [|now apply IH].
  intros [= ->]. now rewrite Ascii.eqb_refl in E.
Qed.

Lemma find_first (c : ascii) (s : string) (start : nat) :
  find (String c EmptyString) s = Some start ->
  String.get start s = Some c /\ forall j, j < start -> String.get j s <> Some c.
Proof.
  unfold find. intros H. split.
  - apply get_substring_one. exact (String.index_correct1 _ _ _ _ H).
  - intros j Hj Hg. apply get_substring_one in Hg.
    apply (String.index_correct2 _ _ _ _ H j); [lia | exact Hj | exact Hg].
Qed.

Lemma find_none (c : ascii) (s : string) :
  find (String c EmptyString) s = None -> forall j, String.get j s <> Some c.
Proof.
  unfold find. intros H j Hg. apply get_substring_one in Hg.
  eapply (String.index_correct3 _ _ _ _ H); [discriminate | | exact Hg]. lia.
Qed.

Lemma braces_window contents text :
  braces contents = Some text ->
  exists start stop,
    (String.get start contents = Some "{"%char
     /\ forall j, j < start -> String.get j contents <> Some "{"%char)
    /\ (String.get stop contents = Some "}"%char
        /\ forall j, stop < j -> String.get j contents <> Some "}"%char)
    /\ forall p, String.get p text =
         if (p <? S stop - start)%nat then String.get (p + start) contents else None.
Proof.
  unfold braces, slice.
  destruct (find "{" contents) as [start|] eqn:Ef; [|discriminate].
  destruct (rfind_char "}" contents) as [stop|] eqn:Er; [|discriminate].
  intros [= <-]. exists start, stop. split; [|split].
  - now apply find_first.
  - now apply rfind_char_is_last.
  - intros p. destruct (p <? S stop - start)%nat eqn:E.
    + apply Nat.ltb_lt in E. now apply String.substring_correct1.
    + apply Nat.ltb_ge in E. now apply String.substring_correct2.
Qed.

Lemma braces_none contents :
  braces contents = None ->
  (forall j, String.get j contents <> Some "{"%char)
  \/ (forall j, String.get j contents <> Some "}"%char).
Proof.
  unfold braces.
  destruct (find "{" contents) as [start|] eqn:Ef.
  - destruct (rfind_char "}" contents) eqn:Er; [discriminate|].
    intros _. right. now apply rfind_char_none.
  - intros _. left. now apply find_none.
Qed.

(** The text [braces] cuts is the window of the document, and the only
    one. *)
Lemma window_of_braces contents text :
  braces contents = Some text -> window contents text.
Proof.
  unfold braces, slice.
  destruct (find "{" contents) as [start|] eqn:Ef; [|discriminate].
  destruct (rfind_char "}" contents) as [stop|] eqn:Er; [|discriminate].
  intros [= <-]. exists start, stop. split; [|split].
  - now apply find_first.
  - now apply rfind_char_is_last.
  - reflexivity.
Qed.

Lemma braces_of_window contents text :
  window contents text -> braces contents = Some text.
Proof.
  intros (start & stop & (Hs & Hfirst) & (He & Hlast) & ->).
  unfold braces, slice.
  destruct (find "{" contents) as [start'|] eqn:Ef.
  - apply find_first in Ef as [Hs' Hfirst'].
    assert (start' = start) as ->.
    { destruct (Nat.lt_trichotomy start' start) as [H | [H | H]]; [|exact H|].
      - now elim (Hfirst _ H).
      - now elim (Hfirst' _ H). }
    destruct (rfind_char "}" contents) as [stop'|] eqn:Er.
    + apply rfind_char_is_last in Er as [He' Hlast'].
      assert (stop' = stop) as ->.
      { destruct (Nat.lt_trichotomy stop' stop) as [H | [H | H]]; [|exact H|].
        - now elim (Hlast' _ H).
        - now elim (Hlast _ H). }
      reflexivity.
    + now elim (rfind_char_none _ _ Er stop).
  - now elim (find_none _ _ Ef start).
Qed.

Section Steps.
Context {lib : PyLib}.

(** The steps leave the session the call leaves. *)
Lemma refresh_steps_session st w :
  Async.session (fst (Async.async_refresh_session st w)) =
    session_after (Async.refresh_steps w) (Async.session st).
Proof.
  destruct (async_refresh_keeps st w) as (_ & _ & _ & -> & _).
  rewrite refreshed_cases. unfold Async.refresh_steps.
  destruct (str_contains interstitial _);
    (destruct (braces (fst (read_document w))) as [text|]; [|reflexivity];
     now destruct (json_loads text)).
Qed.

(** Every await but the last comes before the assignment. *)
Lemma refresh_steps_seen w s :
  exists n,
    sessions_seen (Async.refresh_steps w) s =
      repeat s n ++ [session_after (Async.refresh_steps w) s].
Proof.
  unfold Async.refresh_steps.
  destruct (str_contains interstitial _);
    [exists 5 | exists 3];
    (destruct (braces (fst (read_document w))) as [text|]; [|reflexivity];
     now destruct (json_loads text)).
Qed.

End Steps.

(** C7: a refresh changes the stored session at most once, and to a whole
    object.  A coroutine that runs while the refresh is suspended at one of
    its awaits reads the session of before the refresh at every await but
    the last, and at the last the session the refresh leaves: never
    anything else.  The session left is the object [json.loads] made of the
    text from the first opening to the last closing brace of the document
    when that text parses; it is the session of before when the text does
    not parse or the document has no such text.  Nothing else of the client
    changes. *)
Theorem refresh_is_atomic {lib : PyLib} (st : Async.Client) (w : World) :
  let st' := fst (Async.async_refresh_session st w) in
  let contents := fst (read_document w) in
  let seen := sessions_seen (Async.refresh_steps w) (Async.session st) in
  Async.session st' = session_after (Async.refresh_steps w) (Async.session st)
  /\ (exists n, seen = repeat (Async.session st) n ++ [Async.session st'])
  /\ (forall s, In s seen -> s = Async.session st \/ s = Async.session st')
  /\ (forall text parsed,
        window contents text -> json_loads text = Some parsed ->
        Async.session st' = parsed)
  /\ (forall text,
        window contents text -> json_loads text = None ->
        Async.session st' = Async.session st)
  /\ ((forall text, ~ window contents text) -> Async.session st' = Async.session st)
  /\ Async.conv st' = Async.conv st
  /\ Async.lock st' = Async.lock st
  /\ Async.timeout st' = Async.timeout st.
Proof.
  cbv zeta.
  pose proof (refresh_steps_session st w) as Hafter.
  destruct (refresh_steps_seen w (Async.session st)) as [n Hseen].
  rewrite <- Hafter in Hseen.
  destruct (async_refresh_keeps st w) as (Hl & Hc & Ht & Hs & _).
  rewrite refreshed_cases in Hs.
  split; [exact Hafter|]. split; [now exists n|]. split; [|split; [|split; [|split]]].
  - intros s Hin. rewrite Hseen in Hin. apply in_app_or in Hin as [Hin | [<- | []]].
    + left. now apply repeat_spec in Hin.
    + now right.
  - intros text parsed Hw Hj. apply braces_of_window in Hw.
    now rewrite Hs, Hw, Hj.
  - intros text Hw Hj. apply braces_of_window in Hw. now rewrite Hs, Hw, Hj.
  - intros Hnone. rewrite Hs.
    destruct (braces (fst (read_document w))) as [text|] eqn:E; [|reflexivity].
    now elim (Hnone text (window_of_braces _ _ E)).
  - auto.
Qed.

Lemma refresh_is_atomic_witness :
  let st := Sample.async_client (JObj []) in
  let w := Sample.environment Sample.session_page true [] in
  Async.session (fst (Async.async_refresh_session (lib := Sample.library) st w))
    = Sample.session_value
  /\ sessions_seen (Async.refresh_steps (lib := Sample.library) w) (JObj [])
     = [JObj []; JObj []; JObj []; Sample.session_value].
Proof.
  cbv zeta.
  destruct (refresh_is_atomic (lib := Sample.library) (Sample.async_client (JObj []))
              (Sample.environment Sample.session_page true []))
    as (_ & _ & _ & Hok & _).
  split.
  - apply (Hok Sample.session_text Sample.session_value).
    + apply window_of_braces. reflexivity.
    + reflexivity.
  - reflexivity.
Defined.

Example refresh_reads_session :
  Async.session (fst (Async.async_refresh_session (lib := Sample.library)
                        (Sample.async_client (JObj []))
                        (Sample.environment Sample.session_page true [])))
  = Sample.session_value.
Proof. reflexivity. Qed.

Example refresh_keeps_session_on_failure :
  Async.session (fst (Async.async_refresh_session (lib := Sample.library)
                        (Sample.async_client Sample.session_value)
                        (Sample.environment "<html>{ Access denied }</html>" true [])))
  = Sample.session_value.
Proof. reflexivity. Qed.

(** ** The synchronous [ask] (claim C9) *)

Section Empty.
Context {lib : PyLib}.

Lemma read_event_no_message inner_html c c' :
  read_event inner_html c = (c', NoMessage) -> c' = c.
Proof.
  unfold read_event.
  destruct (b64decode inner_html) as [event_raw|]; [|discriminate].
  destruct (String.length event_raw =? 0)%nat; [now intros [= <-]|].
  destruct (json_loads event_raw) as [event|]; [|discriminate].
  destruct event; try (now intros [= <-]);
    repeat match goal with
           | |- context [match ?x with _ => _ end] => destruct x
           end; try discriminate; now intros [= <-].
Qed.

(** A synchronous loop that yielded nothing made no assignment. *)
Lemma sync_no_chunk_keeps ps start_time tmo last c :
  chunks (Sync.poll_loop ps start_time tmo last c) = [] ->
  conv_end (Sync.poll_loop ps start_time tmo last c) = c.
Proof.
  revert last c. induction ps as [|p rest IH]; intros last c; cbn [Sync.poll_loop];
    [reflexivity|].
  unfold Sync.iteration.
  destruct (conversation_datas p) as [inner_html|]; cbn; [|apply IH].
  destruct (read_event inner_html c) as [c' [| |m]] eqn:E; cbn; [discriminate| |].
  - apply read_event_no_message in E as ->.
    destruct (eof_datas p || (tmo <? now p - start_time)%Z)%bool; cbn; auto.
  - destruct (eof_datas p); discriminate.
Qed.

Lemma getitem_contains session key v :
  getitem session key = Some v ->
  exists d, session = JObj d /\ contains key session = Some true.
Proof.
  destruct session as [| | | |l|d]; try discriminate. cbn. intros H.
  exists d. split; [reflexivity|]. f_equal.
  induction d as [|[k x] d IH]; [discriminate|]. cbn in *.
  destruct (String.eqb k key); [reflexivity|]. now apply IH.
Qed.

(** The synchronous stream once the code is injected and the loop left:
    the identifier, the injection and the clock were asked for, in that
    order, and what follows the loop is still to come. *)
Lemma sync_stream_after_loop prompt st w token m :
  getitem (Sync.session st) "accessToken" = Some (JStr token) ->
  Sync.render_model Sync.RENDER_MODELS (Sync.model st) = Some m ->
  page_evaluate w (S (calls w)) = true ->
  let l := Sync.poll_loop (polls w) (time_time w (S (S (calls w)))) (Sync.timeout st) ""
             (Sync.conv st) in
  exit l = ExitBreak ->
  exists w' tr,
    calls w' = 3 + calls w /\ cleanup_divs w' = cleanup_divs w
    /\ Sync.ask_stream prompt st w =
         Sync.finish (chunks l) (Sync.with_conv (conv_end l) st) w' tr.
Proof.
  intros Ht Hm He l Hx. unfold Sync.ask_stream.
  destruct (getitem_contains _ _ _ Ht) as (d & _ & Hc).
  rewrite Hc. unfold consult. cbv beta iota zeta. rewrite Hc, Hm.
  unfold build_code. rewrite Ht. cbn [calls tick page_evaluate]. rewrite He.
  cbn [polls tick time_time]. fold l. rewrite Hx.
  eexists _, _. split; [|split; [|reflexivity]]; reflexivity.
Qed.

End Empty.

(** C9, as the specification states it, fails: a stream without a chunk
    need not return.  Here the stream marker stays empty and the
    end-of-stream marker never comes; when the time is over the loop is
    left, [_cleanup_divs] throws on the marker that is not there, and [ask]
    raises instead of returning the fallback text. *)
Lemma empty_stream_raises :
  let st := Sample.sync_client Sample.session_value in
  let w := Cases.marker_missing
             (Sample.environment Sample.session_page true
                [ Sample.poll 1 false (Some ""); Sample.poll 61 false (Some "") ]) in
  yielded (Sync.ask_stream (lib := Sample.library) "Good night!" st w) = []
  /\ fst (Sync.ask (lib := Sample.library) "Good night!" st w)
     = inr (Raised PlaywrightError)
  /\ fst (Sync.ask (lib := Sample.library) "Good night!" st w)
     <> inl Sync.fallback_text.
Proof. vm_compute. repeat split. discriminate. Qed.

(** C9, amended: the synchronous [ask] calls [ask_stream] once and never
    retries.  When that stream yields no chunk, [ask] returns the fallback
    text if the stream returned, and lets through what the stream raised
    otherwise.  In particular, when the code was injected and the loop was
    left without a chunk, [ask] raises the error of the page if removing
    the markers throws, and returns the fallback text if removing them
    succeeds and there is no title to generate. *)
Theorem ask_on_empty_stream {lib : PyLib}
    (message : string) (st : Sync.Client) (w : World) :
  let r := Sync.ask_stream message st w in
  (yielded r = [] ->
     snd (Sync.ask message st w) = r
     /\ length (injected (trace r)) <= 1
     /\ stream_budgets (trace r) = []
     /\ (outcome r = Returned -> fst (Sync.ask message st w) = inl Sync.fallback_text)
     /\ (outcome r <> Returned -> fst (Sync.ask message st w) = inr (outcome r)))
  /\ (forall token m,
        getitem (Sync.session st) "accessToken" = Some (JStr token) ->
        Sync.render_model Sync.RENDER_MODELS (Sync.model st) = Some m ->
        page_evaluate w (S (calls w)) = true ->
        let l := Sync.poll_loop (polls w) (time_time w (S (S (calls w))))
                   (Sync.timeout st) "" (Sync.conv st) in
        exit l = ExitBreak ->
        chunks l = [] ->
        (cleanup_divs w (3 + calls w) = false ->
           yielded r = []
           /\ fst (Sync.ask message st w) = inr (Raised PlaywrightError))
        /\ (cleanup_divs w (3 + calls w) = true ->
            truthy (conversation_id (Sync.conv st)) = false ->
            yielded r = []
            /\ fst (Sync.ask message st w) = inl Sync.fallback_text)).
Proof.
  cbv zeta. split.
  - intros Hy. unfold Sync.ask. split; [now destruct (outcome _)|].
    split; [|split; [|split]].
    + destruct (sync_stream_view message st w)
        as [tr1 -> Htr _ | tr1 code threw n m t0 l -> Htr _ _ _];
        destruct Htr as [-> | ->]; cbn; auto.
    + destruct (sync_stream_view message st w)
        as [tr1 -> Htr _ | tr1 code threw n m t0 l -> Htr _ _ _];
        destruct Htr as [-> | ->]; cbn; auto.
    + intros Ho. now rewrite Ho, Hy.
    + intros Ho. destruct (outcome _); [now elim Ho | reflexivity..].
  - intros token m Ht Hm He Hx Hch.
    destruct (sync_stream_after_loop message st w token m Ht Hm He Hx)
      as (w' & tr & Hcalls & Hclean & E).
    pose proof (sync_no_chunk_keeps _ _ _ _ _ Hch) as Hconv.
    unfold Sync.ask. rewrite E, Hch, Hconv. unfold Sync.finish, consult.
    rewrite Hclean, Hcalls. split.
    + intros ->. cbn. auto.
    + intros -> Hid. unfold Sync._gen_title. cbn [Sync.conv Sync.with_conv].
      rewrite Hid. cbn. auto.
Qed.

Lemma ask_on_empty_stream_witness :
  let st := Sample.sync_client Sample.session_value in
  let w := Sample.environment Sample.session_page true
             [ Sample.poll 1 false (Some ""); Sample.poll 61 false (Some "") ] in
  fst (Sync.ask (lib := Sample.library) "Good night!" st w) = inl Sync.fallback_text
  /\ fst (Sync.ask (lib := Sample.library) "Good night!" st (Cases.marker_missing w))
     = inr (Raised PlaywrightError).
Proof.
  cbv zeta. split.
  - destruct (ask_on_empty_stream (lib := Sample.library) "Good night!"
                (Sample.sync_client Sample.session_value)
                (Sample.environment Sample.session_page true
                   [ Sample.poll 1 false (Some ""); Sample.poll 61 false (Some "") ]))
      as [H _].
    destruct (H eq_refl) as (_ & _ & _ & Hr & _). apply Hr. reflexivity.
  - destruct (ask_on_empty_stream (lib := Sample.library) "Good night!"
                (Sample.sync_client Sample.session_value)
                (Cases.marker_missing
                   (Sample.environment Sample.session_page true
                      [ Sample.poll 1 false (Some ""); Sample.poll 61 false (Some "") ])))
      as [_ H].
    destruct (H "tok" "text-davinci-002-render-sha" eq_refl eq_refl eq_refl eq_refl eq_refl)
      as [Hraise _].
    apply Hraise. reflexivity.
Defined.

(** ** The request payload (claim C8) *)

Lemma build_request_is_spec_payload (id prompt m : string) (c : Conv) :
  build_request id prompt m c =
    spec_payload id prompt m (conversation_id c) (parent_message_id c).
Proof. reflexivity. Qed.

Lemma in_single_inject (tr1 : list Event) (code code' : Code) (threw threw' : bool)
    (tail : list Event) :
  tr1 = [] \/ tr1 = [EvRefresh] ->
  (forall c t, ~ In (EvInject c t) tail) ->
  In (EvInject code threw) (tr1 ++ EvInject code' threw' :: tail) ->
  code = code' /\ threw = threw'.
Proof.
  intros Htr Htail H. apply in_app_or in H as [H | [H | H]].
  - destruct Htr as [-> | ->]; cbn in H; [tauto|]. destruct H as [H | []]. discriminate.
  - now injection H as <- <-.
  - now apply Htail in H.
Qed.

(** Whatever the prompt, the dict [request] a streaming call makes its code
    from is the payload of the specification: one user message with a
    generated identifier and the prompt as its only text part, the model
    (the fixed render model, or the entry of [RENDER_MODELS] for the
    client's model), the identifiers of the conversation state at the call,
    and the action "next". *)
Lemma request_is_spec_payload {lib : PyLib} (prompt : string) (w : World) :
  (forall fuel b st code threw,
      In (EvInject code threw) (trace (Async.async_ask_stream fuel prompt b st w)) ->
      exists n,
        request_json code =
          spec_payload (uuid4 w n) prompt "text-davinci-002-render-sha"
            (conversation_id (Async.conv st)) (parent_message_id (Async.conv st)))
  /\ (forall st code threw,
      In (EvInject code threw) (trace (Sync.ask_stream prompt st w)) ->
      exists n m,
        Sync.render_model Sync.RENDER_MODELS (Sync.model st) = Some m
        /\ request_json code =
             spec_payload (uuid4 w n) prompt m
               (conversation_id (Sync.conv st)) (parent_message_id (Sync.conv st))).
Proof.
  split.
  - intros fuel b st code threw Hin.
    destruct (stream_view fuel prompt b st w)
      as [tr1 Ht Htr _ _ _ _ | tr1 code' n Ht Htr Hreq _ _ _
          | tr1 tail code' n t0 l Ht Htr Hreq Htail _ _ _];
      rewrite Ht in Hin.
    + destruct Hin as [H | H]; [discriminate|].
      destruct Htr as [-> | ->]; cbn in H; [tauto|]. destruct H as [H | []]. discriminate.
    + destruct Hin as [H | H]; [discriminate|].
      apply in_single_inject in H as [-> _]; auto.
      * exists n. now rewrite Hreq.
      * intros c t [K | [K | []]]; discriminate.
    + destruct Hin as [H | H]; [discriminate|].
      apply in_single_inject in H as [-> _]; auto.
      * exists n. now rewrite Hreq.
      * destruct Htail as [[-> _] | [-> _]]; intros c t K; cbn in K;
          [tauto | destruct K as [K | [K | []]]; discriminate].
  - intros st code threw Hin.
    destruct (sync_stream_view prompt st w)
      as [tr1 Ht Htr _ | tr1 code' threw' n m t0 l Ht Htr Hm Hreq _];
      rewrite Ht in Hin.
    + destruct Htr as [-> | ->]; cbn in Hin; [tauto|]. destruct Hin as [H | []]. discriminate.
    + apply in_single_inject in Hin as [-> _]; auto.
      exists n, m. split; [exact Hm | now rewrite Hreq].
Qed.

(** With a prompt that names neither marker, the code sends the request as
    it was built. *)
Example plain_prompt_is_sent :
  let w := Sample.environment Sample.session_page true [Sample.poll 1 true (Some "")] in
  exists code,
    injected (trace (Async.async_ask_stream (lib := Sample.library) 2 "Good night!" 2
                       (Sample.async_client Sample.session_value) w)) = [code]
    /\ request_json code =
         spec_payload "uuid-0" "Good night!" "text-davinci-002-render-sha"
           JNull (JStr "uuid-start")
    /\ sends (request_json code) (script code) = true
    /\ str_contains "'Authorization', 'Bearer tok'" (script code) = true.
Proof.
  cbv zeta. eexists. split; [vm_compute; reflexivity|].
  vm_compute. repeat split.
Qed.


(** ** The conversation state (claim C4) *)

Section Assignments.
Context {lib : PyLib}.

Lemma async_iteration_stores p full last c :
  conv_after (Async.iteration p full last c) = stored c p.
Proof.
  unfold Async.iteration, stored.
  destruct (conversation_datas p) as [inner_html|]; [|reflexivity].
  now destruct (read_event inner_html c) as [c' [| |m]].
Qed.

Lemma sync_iteration_stores p start_time tmo last c :
  conv_after (Sync.iteration p start_time tmo last c) = stored c p.
Proof.
  unfold Sync.iteration, stored.
  destruct (conversation_datas p) as [inner_html|]; [|reflexivity].
  now destruct (read_event inner_html c) as [c' [| |m]].
Qed.

Lemma iterated_cons p rest l l' :
  unread l = unread l' -> exit l = exit l' ->
  length (unread l') + match exit l' with ExitElse => 1 | _ => 0 end <= length rest ->
  iterated (p :: rest) l = p :: iterated rest l'.
Proof.
  intros Hu Hx Hle. unfold iterated. rewrite Hu, Hx. cbn [length].
  replace (S (length rest) - length (unread l')
           - match exit l' with ExitElse => 1 | _ => 0 end)
    with (S (length rest - length (unread l')
             - match exit l' with ExitElse => 1 | _ => 0 end)) by lia.
  reflexivity.
Qed.

Lemma iterated_last p rest l :
  unread l = rest -> exit l <> ExitElse -> iterated (p :: rest) l = [p].
Proof.
  intros Hu Hx. unfold iterated. rewrite Hu. cbn [length].
  replace (S (length rest) - length rest - match exit l with ExitElse => 1 | _ => 0 end)
    with 1 by (destruct (exit l); try lia; now elim Hx).
  reflexivity.
Qed.

Lemma async_loop_stores ps start_time tmo :
  forall full last c,
    let l := Async.poll_loop ps start_time tmo full last c in
    length (unread l) + match exit l with ExitElse => 1 | _ => 0 end <= length ps
    /\ conv_end l = fold_left stored (iterated ps l) c.
Proof.
  induction ps as [|p rest IH]; intros full last c; cbn [Async.poll_loop].
  - cbn. split; [lia | reflexivity].
  - destruct ((now p - start_time <=? tmo)%Z || is_some full)%bool.
    + pose proof (async_iteration_stores p full last c) as Hs.
      set (it := Async.iteration p full last c) in *.
      destruct (control it).
      * specialize (IH (full_after it) (last_after it) (conv_after it)).
        cbv zeta in IH. destruct IH as [Hle Hc].
        set (l' := Async.poll_loop rest start_time tmo (full_after it)
                     (last_after it) (conv_after it)) in *.
        cbv zeta. split; [cbn; lia|].
        rewrite (iterated_cons p rest (after it l') l' eq_refl eq_refl Hle).
        cbn [fold_left]. now rewrite <- Hs.
      * cbv zeta. split; [cbn; lia|].
        rewrite iterated_last; [|reflexivity|discriminate]. cbn. exact Hs.
      * cbv zeta. split; [cbn; lia|].
        rewrite iterated_last; [|reflexivity|discriminate]. cbn. exact Hs.
    + cbv zeta. split; [cbn; lia|]. unfold iterated. cbn [unread exit leaving length].
      replace (S (length rest) - length rest - 1) with 0 by lia. reflexivity.
Qed.

Lemma sync_loop_stores ps start_time tmo :
  forall last c,
    let l := Sync.poll_loop ps start_time tmo last c in
    length (unread l) <= length ps
    /\ exit l <> ExitElse
    /\ conv_end l = fold_left stored (iterated ps l) c.
Proof.
  induction ps as [|p rest IH]; intros last c; cbn [Sync.poll_loop].
  - cbn. repeat split; [lia | discriminate].
  - pose proof (sync_iteration_stores p start_time tmo last c) as Hs.
    set (it := Sync.iteration p start_time tmo last c) in *.
    destruct (control it).
    + specialize (IH (last_after it) (conv_after it)).
      cbv zeta in IH. destruct IH as (Hle & Hx & Hc).
      set (l' := Sync.poll_loop rest start_time tmo (last_after it) (conv_after it)) in *.
      cbv zeta. split; [cbn; lia|]. split; [exact Hx|].
      rewrite (iterated_cons p rest (after it l') l' eq_refl eq_refl).
      * cbn [fold_left]. now rewrite <- Hs.
      * destruct (exit l'); try lia. now elim Hx.
    + cbv zeta. split; [cbn; lia|]. split; [discriminate|].
      rewrite iterated_last; [|reflexivity|discriminate]. cbn. exact Hs.
    + cbv zeta. split; [cbn; lia|]. split; [discriminate|].
      rewrite iterated_last; [|reflexivity|discriminate]. cbn. exact Hs.
Qed.

(** The state a streaming call leaves is the state it found with the
    assignments of a first part of the script applied in order. *)
Lemma async_turn_stores fuel prompt b st w :
  exists k,
    Async.conv (client (Async.async_ask_stream fuel prompt b st w)) =
      fold_left stored (firstn k (polls w)) (Async.conv st).
Proof.
  destruct (stream_view fuel prompt b st w)
    as [tr1 _ _ _ Hc _ _ | tr1 code n _ _ _ _ Hc _
        | tr1 tail code n t0 l _ _ _ _ _ Hc _].
  - now exists 0.
  - now exists 0.
  - eexists. rewrite Hc.
    apply (async_loop_stores (polls w) t0 (Async.timeout st) None "" (Async.conv st)).
Qed.

Lemma sync_turn_stores prompt st w :
  exists k,
    Sync.conv (client (Sync.ask_stream prompt st w)) =
      fold_left stored (firstn k (polls w)) (Sync.conv st).
Proof.
  destruct (sync_stream_view prompt st w)
    as [tr1 _ _ Hc | tr1 code threw n m t0 l _ _ _ _ Hc].
  - now exists 0.
  - destruct threw; destruct Hc as [_ Hc]; [now exists 0|].
    eexists. rewrite Hc.
    apply (sync_loop_stores (polls w) t0 (Sync.timeout st) "" (Sync.conv st)).
Qed.

End Assignments.

(** C4, as the specification states it, fails: an event that is not the
    terminal one already overwrites the conversation state.  Here the first
    iteration decodes an event, the second finds a marker content that does
    not parse: the turn raises [ChatGPTResponseError] and the conversation
    state is the one of the first event. *)
Lemma failed_turn_changes_conversation :
  let st := Sample.async_client Sample.session_value in
  let r := Async.async_ask_stream (lib := Sample.library) 2 "Good night!" 2 st
             (Sample.environment Sample.session_page true
                [ Sample.poll 1 false (Some Sample.html_good);
                  Sample.poll 2 false (Some Sample.html_broken) ]) in
  outcome r = Raised ChatGPTResponseError
  /\ Async.conv (client r) =
       {| parent_message_id := JStr "m1"; conversation_id := JStr "c1" |}
  /\ Async.conv (client r) <> Async.conv st.
Proof. vm_compute. repeat split. discriminate. Qed.

(** C4, amended: the conversation state is assigned inside the polling
    loop, by the [try] block of every iteration that reads the stream
    marker, whether or not the end-of-stream marker is there:
    [parent_message_id] as soon as the decoded event has [message.id],
    [conversation_id] when it has [conversation_id] as well; an iteration
    that decodes no event with [message.id] leaves the state alone.  The
    state a loop leaves, however it is left, is the state it started from
    with the assignments of the iterations it ran applied in order; so is
    the state after a turn, whether it returned, failed or was retried.  A
    turn none of whose iterations decodes an event (one that times out on an
    empty marker, say) leaves the conversation state as it was.  All of it
    holds in both implementations. *)
Theorem conversation_follows_decoded_events {lib : PyLib} :
  (forall p inner_html event_raw event message id cid full last c start_time tmo,
      conversation_datas p = Some inner_html ->
      b64decode inner_html = Some event_raw ->
      String.length event_raw <> 0 ->
      json_loads event_raw = Some event ->
      getitem event "message" = Some message ->
      getitem message "id" = Some id ->
      getitem event "conversation_id" = Some cid ->
      conv_after (Async.iteration p full last c) =
        {| parent_message_id := id; conversation_id := cid |}
      /\ conv_after (Sync.iteration p start_time tmo last c) =
        {| parent_message_id := id; conversation_id := cid |})
  /\ (forall p inner_html event_raw event message id full last c start_time tmo,
      conversation_datas p = Some inner_html ->
      b64decode inner_html = Some event_raw ->
      String.length event_raw <> 0 ->
      json_loads event_raw = Some event ->
      getitem event "message" = Some message ->
      getitem message "id" = Some id ->
      getitem event "conversation_id" = None ->
      conv_after (Async.iteration p full last c) =
        {| parent_message_id := id; conversation_id := conversation_id c |}
      /\ conv_after (Sync.iteration p start_time tmo last c) =
        {| parent_message_id := id; conversation_id := conversation_id c |})
  /\ (forall p full last c start_time tmo,
      quiet [p] = true ->
      conv_after (Async.iteration p full last c) = c
      /\ conv_after (Sync.iteration p start_time tmo last c) = c)
  /\ (forall p full last c start_time tmo,
      conv_after (Async.iteration p full last c) = stored c p
      /\ conv_after (Sync.iteration p start_time tmo last c) = stored c p)
  /\ (forall ps start_time tmo full last c,
      let l := Async.poll_loop ps start_time tmo full last c in
      conv_end l = fold_left stored (iterated ps l) c)
  /\ (forall ps start_time tmo last c,
      let l := Sync.poll_loop ps start_time tmo last c in
      conv_end l = fold_left stored (iterated ps l) c)
  /\ (forall fuel prompt b st w,
      exists k,
        Async.conv (client (Async.async_ask_stream fuel prompt b st w)) =
          fold_left stored (firstn k (polls w)) (Async.conv st))
  /\ (forall prompt st w,
      exists k,
        Sync.conv (client (Sync.ask_stream prompt st w)) =
          fold_left stored (firstn k (polls w)) (Sync.conv st))
  /\ (forall fuel prompt b st w,
      quiet (polls w) = true ->
      Async.conv (client (Async.async_ask_stream fuel prompt b st w)) = Async.conv st)
  /\ (forall prompt st w,
      quiet (polls w) = true ->
      Sync.conv (client (Sync.ask_stream prompt st w)) = Sync.conv st).
Proof.
  repeat match goal with |- _ /\ _ => split end.
  - intros p inner_html event_raw event message id cid full last c start_time tmo
      Hp Hb Hl Hj Hm Hi Hc.
    unfold Async.iteration, Sync.iteration, read_event.
    rewrite Hp, Hb, Hj. apply Nat.eqb_neq in Hl. rewrite Hl.
    destruct event; try discriminate Hm.
    rewrite Hm, Hi, Hc.
    destruct (getitem message "content") as [content|]; [|split; reflexivity].
    destruct (getitem content "parts") as [parts|]; [|split; reflexivity].
    destruct (join_lines parts); split; reflexivity.
  - intros p inner_html event_raw event message id full last c start_time tmo
      Hp Hb Hl Hj Hm Hi Hc.
    unfold Async.iteration, Sync.iteration, read_event.
    rewrite Hp, Hb, Hj. apply Nat.eqb_neq in Hl. rewrite Hl.
    destruct event; try discriminate Hm.
    rewrite Hm, Hi, Hc. split; reflexivity.
  - intros p full last c start_time tmo Hq.
    rewrite async_iteration_stores, (sync_iteration_stores p start_time tmo last c).
    cbn in Hq. rewrite andb_true_r in Hq. unfold stored.
    destruct (conversation_datas p) as [inner_html|]; [|split; reflexivity].
    now rewrite silent_keeps.
  - intros. split; [apply async_iteration_stores | apply sync_iteration_stores].
  - intros. apply async_loop_stores.
  - intros. apply sync_loop_stores.
  - intros. apply async_turn_stores.
  - intros. apply sync_turn_stores.
  - intros fuel prompt b st w Hq.
    destruct (stream_view fuel prompt b st w)
      as [tr1 _ _ _ Hc _ _ | tr1 code n _ _ _ _ Hc _
          | tr1 tail code n t0 l _ _ _ _ _ Hc _]; try exact Hc.
    rewrite Hc. now apply async_quiet_loop.
  - intros prompt st w Hq.
    destruct (sync_stream_view prompt st w)
      as [tr1 _ _ Hc | tr1 code threw n m t0 l _ _ _ _ Hc]; [exact Hc|].
    destruct threw; destruct Hc as [_ Hc]; [exact Hc|].
    rewrite Hc. now apply sync_quiet_loop.
Qed.

Lemma conversation_follows_decoded_events_witness :
  let p := Sample.poll 1 false (Some Sample.html_good) in
  let ps := [ Sample.poll 1 false (Some Sample.html_good);
              Sample.poll 2 false (Some Cases.html_no_conversation) ] in
  let w := Sample.environment Sample.session_page true
             [ Sample.poll 1 false (Some ""); Sample.poll 61 false (Some "") ] in
  (conv_after (Async.iteration (lib := Sample.library) p None "" Sample.fresh) =
     {| parent_message_id := JStr "m1"; conversation_id := JStr "c1" |}
   /\ conv_after (Sync.iteration (lib := Sample.library) p 0 60 "" Sample.fresh) =
     {| parent_message_id := JStr "m1"; conversation_id := JStr "c1" |})
  /\ (exit (Async.poll_loop (lib := Cases.library) ps 0 60 None "" Sample.fresh) = ExitRaise
      /\ conv_end (Async.poll_loop (lib := Cases.library) ps 0 60 None "" Sample.fresh) =
           {| parent_message_id := JStr "m9"; conversation_id := JStr "c1" |})
  /\ Async.conv (client (Async.async_ask_stream (lib := Sample.library) 2 "Good night!" 2
                           (Sample.async_client Sample.session_value) w)) = Sample.fresh
  /\ Sync.conv (client (Sync.ask_stream (lib := Sample.library) "Good night!"
                          (Sample.sync_client Sample.session_value) w)) = Sample.fresh.
Proof.
  cbv zeta.
  destruct (conversation_follows_decoded_events (lib := Sample.library))
    as (Hstore & _ & _ & _ & _ & _ & _ & _ & Hasync & Hsync).
  destruct (conversation_follows_decoded_events (lib := Cases.library))
    as (_ & _ & _ & _ & Hloop & _).
  split; [|split; [|split]].
  - apply (Hstore (Sample.poll 1 false (Some Sample.html_good)) Sample.html_good
             (Sample.event_text "m1" "Good ") (Sample.event_value "m1" "Good ")
             (JObj [ ("id", JStr "m1");
                     ("content", JObj [ ("parts", JArr [JStr "Good "]) ]) ])
             (JStr "m1") (JStr "c1") None "" Sample.fresh 0%Z 60%Z);
      try reflexivity.
    vm_compute. discriminate.
  - split; [reflexivity|]. rewrite Hloop. reflexivity.
  - apply (Hasync 2 "Good night!" 2%Z (Sample.async_client Sample.session_value)).
    reflexivity.
  - apply (Hsync "Good night!" (Sample.sync_client Sample.session_value)).
    reflexivity.
Defined.

(** The state after a turn that fails need not be that of one event: here
    the second event has a message identifier and no conversation
    identifier, and the turn raises with the message identifier of the
    second event and the conversation identifier of the first. *)
Example failed_turn_mixes_events :
  let r := Async.async_ask_stream (lib := Cases.library) 2 "Good night!" 2
             (Sample.async_client Sample.session_value)
             (Sample.environment Sample.session_page true
                [ Sample.poll 1 false (Some Sample.html_good);
                  Sample.poll 2 false (Some Cases.html_no_conversation) ]) in
  outcome r = Raised ChatGPTResponseError
  /\ Async.conv (client r) =
       {| parent_message_id := JStr "m9"; conversation_id := JStr "c1" |}.
Proof. vm_compute. split; reflexivity. Qed.

(** ** A session without credential (claim C3) *)

(** C3, as the specification states it, fails for the synchronous
    implementation: with no credential in the session (the session endpoint
    shows the login page), [ask_stream] does not raise; it yields the text
    of the error as its only chunk and returns. *)
Lemma sync_yields_not_usable_text :
  let st := Sample.sync_client (JObj []) in
  let w := Sample.environment Sample.login_page true [] in
  let r := Sync.ask_stream (lib := Sample.library) "Good night!" st w in
  contains "accessToken" (sync_checked_session (lib := Sample.library) st w) = Some false
  /\ outcome r = Returned
  /\ yielded r = [Sync.not_usable_text]
  /\ outcome r <> Raised NotLoggedInError.
Proof. vm_compute. repeat split. discriminate. Qed.

(** C3, amended: when the session tested for the credential (the stored
    one, after the refresh the call may make) has no "accessToken", neither
    implementation injects anything into the page.  The asynchronous
    [async_ask_stream], called with the lock free and a retry budget other
    than zero, raises [NotLoggedInError]; the synchronous [ask_stream]
    yields the not-usable text as its only chunk and returns. *)
Theorem no_credential_no_injection {lib : PyLib} (prompt : string) (w : World) :
  (forall fuel b st,
      Async.lock st = false ->
      b <> 0%Z ->
      contains "accessToken" (async_checked_session st w) = Some false ->
      let r := Async.async_ask_stream (S fuel) prompt b st w in
      outcome r = Raised NotLoggedInError /\ yielded r = [] /\ injected (trace r) = [])
  /\ (forall st,
      contains "accessToken" (sync_checked_session st w) = Some false ->
      let r := Sync.ask_stream prompt st w in
      outcome r = Returned /\ yielded r = [Sync.not_usable_text]
      /\ injected (trace r) = []).
Proof.
  split.
  - intros fuel b st Hl Hb Hc. cbn [Async.async_ask_stream]. rewrite Hl.
    apply Z.eqb_neq in Hb. rewrite Hb.
    destruct (ensure_session_spec (Async.with_lock true st) w)
      as (st1 & w1 & tr1 & -> & _ & _ & _ & Hs & _ & _ & Htr).
    change (async_checked_session (Async.with_lock true st) w)
      with (async_checked_session st w) in Hs.
    unfold consult. rewrite Hs, Hc. cbn.
    destruct Htr as [-> | ->]; auto.
  - intros st Hc. unfold Sync.ask_stream, sync_checked_session in *.
    destruct (contains "accessToken" (Sync.session st)) as [[|]|] eqn:E;
      try congruence.
    destruct (sync_refresh_keeps st w) as (_ & _ & _ & Hs & _).
    destruct (Sync.refresh_session st w) as [st' w']; cbn in Hs.
    unfold consult. rewrite Hs, Hc. cbn. auto.
Qed.

Lemma no_credential_no_injection_witness :
  let w := Sample.environment Sample.login_page true [] in
  outcome (Async.async_ask_stream (lib := Sample.library) 1 "Good night!" 2
             (Sample.async_client (JObj [])) w) = Raised NotLoggedInError
  /\ yielded (Sync.ask_stream (lib := Sample.library) "Good night!"
                (Sample.sync_client (JObj [])) w) = [Sync.not_usable_text].
Proof.
  cbv zeta.
  destruct (no_credential_no_injection (lib := Sample.library) "Good night!"
              (Sample.environment Sample.login_page true [])) as [Ha Hs].
  split.
  - apply (Ha 0 2%Z (Sample.async_client (JObj []))); [reflexivity | lia | reflexivity].
  - apply (Hs (Sample.sync_client (JObj []))). reflexivity.
Defined.

(** ** Retries (claims C2, C5 and C6) *)

Section Budgets.
Context {lib : PyLib}.

Lemma ask_budgets_app (l1 l2 : list Event) :
  ask_budgets (l1 ++ l2) = ask_budgets l1 ++ ask_budgets l2.
Proof.
  induction l1 as [|e l1 IH]; [reflexivity|].
  destruct e; cbn; now rewrite IH.
Qed.

Lemma stream_budgets_app (l1 l2 : list Event) :
  stream_budgets (l1 ++ l2) = stream_budgets l1 ++ stream_budgets l2.
Proof.
  induction l1 as [|e l1 IH]; [reflexivity|].
  destruct e; cbn; now rewrite IH.
Qed.

(** The budgets a streaming call is entered with: its own, then possibly
    the one of a retry. *)
Lemma stream_budgets_cases fuel prompt b st w :
  let tr := trace (Async.async_ask_stream fuel prompt b st w) in
  ask_budgets tr = []
  /\ (stream_budgets tr = [b]
      \/ (stream_budgets tr = [b; (b - 1)%Z] /\ exists code, In (EvInject code false) tr)
      \/ (stream_budgets tr = [b; 2%Z] /\ exists code, In (EvInject code true) tr)).
Proof.
  cbv zeta.
  destruct (stream_view fuel prompt b st w)
    as [tr1 Ht Htr _ _ _ _ | tr1 code n Ht Htr _ _ _ _
        | tr1 tail code n t0 l Ht Htr _ Htail _ _ _]; rewrite Ht.
  - destruct Htr as [-> | ->]; cbn; auto.
  - split.
    + destruct Htr as [-> | ->]; reflexivity.
    + right; right. split; [destruct Htr as [-> | ->]; reflexivity|].
      exists code. right. apply in_or_app. right. now left.
  - split.
    + destruct Htr as [-> | ->]; destruct Htail as [[-> _] | [-> _]]; reflexivity.
    + destruct Htail as [[-> _] | [-> _]].
      * left. destruct Htr as [-> | ->]; reflexivity.
      * right; left. split; [destruct Htr as [-> | ->]; reflexivity|].
        exists code. right. apply in_or_app. right. now left.
Qed.

Lemma ask_budgets_head fuel message b st w :
  exists rest,
    ask_budgets (Async.ask_trace (Async.async_ask fuel message b st w)) = b :: rest.
Proof.
  destruct fuel as [|fuel]; cbn [Async.async_ask]; [now exists []|].
  destruct (b =? 0)%Z; [now exists []|].
  set (r := Async.async_ask_stream (S fuel) message 2 st w). clearbody r.
  destruct (outcome r); try (cbn; eexists; reflexivity).
  destruct (yielded r); [|cbn; eexists; reflexivity].
  destruct (Async.async_refresh_session _ _). cbn. eexists; reflexivity.
Qed.

Lemma ask_budgets_step_down fuel message b st w :
  chain (fun x y => y = (x - 1)%Z)
    (ask_budgets (Async.ask_trace (Async.async_ask fuel message b st w))).
Proof.
  revert b st w. induction fuel as [|fuel IH]; intros b st w;
    cbn [Async.async_ask]; [exact I|].
  destruct (b =? 0)%Z; [exact I|].
  set (r := Async.async_ask_stream (S fuel) message 2 st w).
  destruct (stream_budgets_cases (S fuel) message 2 st w) as [Hr _]. fold r in Hr.
  clearbody r.
  destruct (outcome r); try (cbn; rewrite ?ask_budgets_app, Hr; exact I).
  destruct (yielded r); [|cbn; rewrite ?ask_budgets_app, Hr; exact I].
  destruct (Async.async_refresh_session (client r) (world r)) as [st' w'].
  cbn [Async.ask_trace]. cbn. rewrite ?ask_budgets_app, Hr. cbn.
  specialize (IH (b - 1)%Z st' w').
  destruct (ask_budgets_head fuel message (b - 1)%Z st' w') as [rest E].
  rewrite E in *. split; [reflexivity | exact IH].
Qed.

End Budgets.

(** C2 fails on the code: the retry after a time-out is made inside the
    [async with AsyncChatGPT.lock] block of the attempt that timed out, and
    the retry waits for that lock.  Here the marker stays empty until the
    time is over: the attempt with budget 2 refreshes the session and calls
    itself with budget 1, and that call never gets the lock; nothing is
    raised, [NetworkError] least of all. *)
Theorem timeout_retry_waits_for_the_lock :
  let r := Async.async_ask_stream (lib := Sample.library) 3 "Good night!" 2
             (Sample.async_client Sample.session_value)
             (Sample.environment Sample.session_page true
                [ Sample.poll 1 false (Some ""); Sample.poll 61 false (Some "") ]) in
  outcome r = Blocked
  /\ stream_budgets (trace r) = [2%Z; 1%Z]
  /\ yielded r = []
  /\ Async.lock (client r) = true.
Proof. vm_compute. repeat split. Qed.

(** Whatever the environment does, a streaming call raises [NetworkError]
    only when it is itself called with budget zero, and a call that retried
    ends waiting for the lock. *)
Lemma network_error_only_at_zero {lib : PyLib} fuel prompt b st w :
  let r := Async.async_ask_stream fuel prompt b st w in
  (outcome r = Raised NetworkError -> b = 0%Z)
  /\ (length (stream_budgets (trace r)) = 2 ->
      outcome r = Blocked \/ outcome r = OutOfFuel).
Proof.
  cbv zeta.
  destruct (stream_view fuel prompt b st w)
    as [tr1 Ht Htr _ _ _ Hn | tr1 code n Ht Htr _ _ _ Ho
        | tr1 tail code n t0 l Ht Htr _ Htail _ _ Hn].
  - split; [exact Hn|]. rewrite Ht. destruct Htr as [-> | ->]; discriminate.
  - split; [|auto]. destruct Ho as [-> | ->]; discriminate.
  - split; [intros K; now elim Hn|]. rewrite Ht.
    destruct Htail as [[-> _] | (_ & _ & Ho)]; [|auto].
    destruct Htr as [-> | ->]; discriminate.
Qed.




(** C6, as the specification states it, fails: after a failed injection
    the next attempt has the default budget, which is not smaller than the
    budget of the attempt that failed. *)
Lemma injection_retry_budget_not_smaller :
  let r := Async.async_ask_stream (lib := Sample.library) 2 "Good night!" 2
             (Sample.async_client Sample.session_value)
             (Sample.environment Sample.session_page false []) in
  stream_budgets (trace r) = [2%Z; 2%Z]
  /\ ~ strictly_decreasing (stream_budgets (trace r)).
Proof.
  vm_compute. split; [reflexivity|]. intros [H _]. discriminate.
Qed.

(** C6, amended: in [async_ask] every retry has the budget of the attempt
    before it less one, and an attempt with budget zero raises
    [ChatGPTResponseError]; in [async_ask_stream] the retry after a
    time-out is called with the budget less one and the retry after a
    failed injection with the default budget 2, and an attempt that has the
    lock free and budget zero raises [NetworkError]. *)
Theorem retry_budgets {lib : PyLib} :
  (forall fuel message b st w,
      chain (fun x y => y = (x - 1)%Z)
        (ask_budgets (Async.ask_trace (Async.async_ask fuel message b st w))))
  /\ (forall fuel message st w,
      let a := Async.async_ask (S fuel) message 0 st w in
      Async.ask_outcome a = Raised ChatGPTResponseError /\ Async.response a = None)
  /\ (forall fuel prompt b st w,
      let tr := trace (Async.async_ask_stream fuel prompt b st w) in
      stream_budgets tr = [b]
      \/ (stream_budgets tr = [b; (b - 1)%Z] /\ exists code, In (EvInject code false) tr)
      \/ (stream_budgets tr = [b; 2%Z] /\ exists code, In (EvInject code true) tr))
  /\ (forall fuel prompt st w,
      Async.lock st = false ->
      let r := Async.async_ask_stream (S fuel) prompt 0 st w in
      outcome r = Raised NetworkError /\ yielded r = [] /\ injected (trace r) = []).
Proof.
  split; [|split; [|split]].
  - intros. apply ask_budgets_step_down.
  - intros. cbn. auto.
  - intros. apply stream_budgets_cases.
  - intros fuel prompt st w Hl. cbn. rewrite Hl. cbn. auto.
Qed.

Lemma retry_budgets_witness :
  let r := Async.async_ask_stream (lib := Sample.library) 1 "Good night!" 0
             (Sample.async_client Sample.session_value)
             (Sample.environment Sample.session_page true []) in
  outcome r = Raised NetworkError /\ yielded r = [] /\ injected (trace r) = [].
Proof.
  destruct (retry_budgets (lib := Sample.library)) as (_ & _ & _ & H).
  apply (H 0 "Good night!" (Sample.async_client Sample.session_value)
           (Sample.environment Sample.session_page true [])).
  reflexivity.
Defined.

(** The scenario of the specification: two growing events, the second with
    the end-of-stream marker. *)
Example sample_two_events :
  let r := Async.async_ask_stream (lib := Sample.library) 2 "Good night!" 2
             (Sample.async_client Sample.session_value)
             (Sample.environment Sample.session_page true
                [ Sample.poll 1 false None;
                  Sample.poll 2 false (Some Sample.html_good);
                  Sample.poll 3 true (Some Sample.html_good_night) ]) in
  yielded r = ["Good "; "night!"] /\ outcome r = Returned /\
  Async.conv (client r) =
    {| parent_message_id := JStr "m2"; conversation_id := JStr "c1" |}.
Proof. vm_compute. repeat split. Qed.

(** [async_ask] on a stream that ends without a chunk: one retry per unit
    of budget, then [ChatGPTResponseError]. *)
Example sample_empty_responses :
  let a := Async.async_ask (lib := Sample.library) 3 "Good night!" 2
             (Sample.async_client Sample.session_value)
             (Sample.environment Sample.session_page true
                [ Sample.poll 1 true (Some ""); Sample.poll 1 true (Some "") ]) in
  Async.ask_outcome a = Raised ChatGPTResponseError
  /\ ask_budgets (Async.ask_trace a) = [2%Z; 1%Z; 0%Z].
Proof. vm_compute. repeat split. Qed.

(** * Further properties

    Properties of the code beyond the claims of the specification. *)

(** ** Helpers *)

Section Further.

Context {lib : PyLib}.

Ltac refresh_step :=
  match goal with |- context [Async.async_refresh_session ?s ?x] =>
    let K1 := fresh "K1" in let K2 := fresh "K2" in
    pose proof (async_refresh_keeps s x) as (K1 & K2 & _);
    destruct (Async.async_refresh_session s x) as [? ?]; cbn in K1, K2
  end.

Lemma stream_fuel_enough f1 f2 prompt b st w :
  f1 <> 0 -> f2 <> 0 ->
  Async.async_ask_stream (S f1) prompt b st w =
  Async.async_ask_stream (S f2) prompt b st w
  /\ outcome (Async.async_ask_stream (S f1) prompt b st w) <> OutOfFuel.
Proof.
  intros H1 H2. cbn [Async.async_ask_stream].
  destruct (Async.lock st); [split; [reflexivity | discriminate]|].
  destruct (b =? 0)%Z; [split; [reflexivity | discriminate]|].
  destruct (ensure_session_spec (Async.with_lock true st) w)
    as (st1 & w1 & tr1 & -> & Hlock & _). cbn in Hlock. unfold consult.
  destruct (contains "accessToken" (Async.session st1)) as [[|]|];
    try (split; [reflexivity | discriminate]).
  destruct (build_code _ _ _) as [code|]; [|split; [reflexivity | discriminate]].
  destruct (page_evaluate _ _).
  - destruct (exit _); try (split; [reflexivity | discriminate]).
    refresh_step. rewrite !delegate_locked by congruence.
    destruct f1, f2; try congruence. split; [reflexivity | discriminate].
  - refresh_step. rewrite !delegate_locked by congruence.
    destruct f1, f2; try congruence. split; [reflexivity | discriminate].
Qed.



(** Leaving the asynchronous loop by [break] takes an iteration that saw
    both markers. *)
Lemma async_break_saw_eof ps start_time tmo full last c :
  exit (Async.poll_loop ps start_time tmo full last c) = ExitBreak ->
  exists p inner_html,
    In p ps /\ eof_datas p = true /\ conversation_datas p = Some inner_html.
Proof.
  revert full last c. induction ps as [|p rest IH]; intros full last c;
    cbn [Async.poll_loop]; [discriminate|].
  destruct ((now p - start_time <=? tmo)%Z || is_some full)%bool; [|discriminate].
  unfold Async.iteration.
  destruct (conversation_datas p) as [inner_html|] eqn:Ep; cbn.
  - destruct (read_event inner_html c) as [c' [| |m]]; cbn; [discriminate| |];
      (destruct (eof_datas p) eqn:Ee; cbn;
       [intros _; exists p, inner_html; repeat split; auto; now left
       | intros H; apply IH in H as (p' & h & Hin & He & Hc);
         exists p', h; repeat split; auto; now right]).
  - intros H; apply IH in H as (p' & h & Hin & He & Hc).
    exists p', h; repeat split; auto; now right.
Qed.

Lemma stream_returned fuel prompt b st w :
  outcome (Async.async_ask_stream fuel prompt b st w) = Returned ->
  exists p inner_html,
    In p (polls w) /\ eof_datas p = true /\ conversation_datas p = Some inner_html.
Proof.
  destruct fuel as [|fuel]; cbn [Async.async_ask_stream]; [discriminate|].
  destruct (Async.lock st); [discriminate|].
  destruct (b =? 0)%Z; [discriminate|].
  destruct (ensure_session_spec (Async.with_lock true st) w)
    as (st1 & w1 & tr1 & -> & Hlock & _ & _ & _ & _ & Hp & _). cbn in Hlock.
  unfold consult.
  destruct (contains "accessToken" (Async.session st1)) as [[|]|]; try discriminate.
  destruct (build_code _ _ _) as [code|]; [|discriminate].
  destruct (page_evaluate _ _).
  - cbn [polls tick]. rewrite Hp.
    destruct (exit _) eqn:Hx; try discriminate.
    + intros _. eapply async_break_saw_eof; eauto.
    + refresh_step. rewrite delegate_locked by congruence.
      destruct fuel; discriminate.
  - refresh_step. rewrite delegate_locked by congruence.
    destruct fuel; discriminate.
Qed.

(** While every iteration reads a message and no end-of-stream marker, the
    asynchronous loop goes on, whatever the clock shows. *)
Lemma async_loop_goes_on ps start_time tmo :
  (forall p, In p ps ->
     eof_datas p = false
     /\ exists inner_html,
          conversation_datas p = Some inner_html
          /\ forall c, exists c' m, read_event inner_html c = (c', Message m)) ->
  forall full last c,
    (full <> None \/ forall p, hd_error ps = Some p -> (now p - start_time <= tmo)%Z) ->
    exit (Async.poll_loop ps start_time tmo full last c) = ExitPending
    /\ length (chunks (Async.poll_loop ps start_time tmo full last c)) = length ps.
Proof.
  induction ps as [|p rest IH]; intros Hall full last c Hfirst;
    cbn [Async.poll_loop]; [split; reflexivity|].
  destruct (Hall p (or_introl eq_refl)) as (He & inner_html & Hc & Hm).
  assert (Hcond : ((now p - start_time <=? tmo)%Z || is_some full)%bool = true).
  { destruct Hfirst as [Hf | Hf].
    - destruct full; [apply orb_true_r | now elim Hf].
    - apply orb_true_iff. left. apply Z.leb_le. now apply Hf. }
  rewrite Hcond. unfold Async.iteration. rewrite Hc.
  destruct (Hm c) as (c' & m & ->). rewrite He. cbn.
  destruct (IH (fun q Hq => Hall q (or_intror Hq)) (Some m) m c') as [Hx Hl].
  - left. discriminate.
  - split; [exact Hx | now rewrite Hl].
Qed.

(** Without a stream marker the synchronous loop never leaves: the time
    limit is only looked at after a marker was read. *)
Lemma sync_loop_waits_for_marker ps start_time tmo last c :
  (forall p, In p ps -> conversation_datas p = None) ->
  exit (Sync.poll_loop ps start_time tmo last c) = ExitPending
  /\ chunks (Sync.poll_loop ps start_time tmo last c) = [].
Proof.
  induction ps as [|p rest IH]; intros Hall; cbn [Sync.poll_loop];
    [split; reflexivity|].
  unfold Sync.iteration. rewrite (Hall p (or_introl eq_refl)). cbn.
  apply IH. intros q Hq. apply Hall. now right.
Qed.

(** Without a stream marker the asynchronous loop leaves through its
    [else] as soon as the clock is past the limit. *)
Lemma async_loop_times_out ps start_time tmo last c :
  (forall p, In p ps -> conversation_datas p = None) ->
  (exists p, In p ps /\ (tmo < now p - start_time)%Z) ->
  exit (Async.poll_loop ps start_time tmo None last c) = ExitElse
  /\ chunks (Async.poll_loop ps start_time tmo None last c) = []
  /\ conv_end (Async.poll_loop ps start_time tmo None last c) = c.
Proof.
  induction ps as [|p rest IH]; intros Hall (q & Hq & Hlate); [destruct Hq|].
  cbn [Async.poll_loop]. cbn [is_some]. rewrite orb_false_r.
  destruct (now p - start_time <=? tmo)%Z eqn:E; [|repeat split].
  unfold Async.iteration. rewrite (Hall p (or_introl eq_refl)). cbn.
  apply IH.
  - intros x Hx. apply Hall. now right.
  - destruct Hq as [<- | Hq]; [apply Z.leb_le in E; lia|]. now exists q.
Qed.

(** Identifier stored, conversation identifier missing: the [try] block
    fails with the first assignment made. *)
Lemma read_event_half inner_html event_raw event message id c :
  b64decode inner_html = Some event_raw ->
  String.length event_raw <> 0 ->
  json_loads event_raw = Some event ->
  getitem event "message" = Some message ->
  getitem message "id" = Some id ->
  getitem event "conversation_id" = None ->
  read_event inner_html c =
    ({| parent_message_id := id; conversation_id := conversation_id c |},
     DecodeError).
Proof.
  intros Hb Hl Hj Hm Hi Hc. unfold read_event.
  rewrite Hb, Hj. apply Nat.eqb_neq in Hl. rewrite Hl.
  destruct event; try discriminate Hm. now rewrite Hm, Hi, Hc.
Qed.

(** The synchronous stream raises none of the exceptions of the package. *)
Lemma sync_outcomes prompt st w :
  match outcome (Sync.ask_stream prompt st w) with
  | Returned | Pending | Raised PyError | Raised PlaywrightError => True
  | _ => False
  end.
Proof.
  unfold Sync.ask_stream.
  destruct (contains "accessToken" (Sync.session st)) as [has|]; [|exact I].
  destruct (if has then _ else _) as [[st1 w1] tr1]. unfold consult.
  destruct (contains "accessToken" (Sync.session st1)) as [[|]|]; try exact I.
  destruct (Sync.render_model _ _); [|exact I].
  destruct (build_code _ _ _); [|exact I].
  destruct (page_evaluate _ _); [|exact I].
  destruct (exit _); try exact I;
    (unfold Sync.finish, consult; destruct (cleanup_divs _ _); [|exact I];
     match goal with |- context [Sync._gen_title ?a ?b] =>
       destruct (Sync._gen_title a b) as [[st'|e] w'] eqn:E end; [exact I|];
     unfold Sync._gen_title in E;
     repeat match type of E with
            | context [if ?x then _ else _] => destruct x
            | context [match ?x with _ => _ end] => destruct x
            end; try discriminate; injection E as <- _; exact I).
Qed.

Lemma reduce_add_is_concat first rest :
  Sync.reduce_add (first :: rest) = String.concat "" (first :: rest).
Proof.
  unfold Sync.reduce_add. revert first.
  induction rest as [|x rest IH]; intros first.
  - reflexivity.
  - cbn [fold_left]. rewrite IH, !concat_cons. apply append_assoc.
Qed.

Lemma chunk_length last m :
  String.length (chunk_of last m) = String.length m - String.length last.
Proof.
  unfold chunk_of. revert m. induction last as [|a last IH]; intros m; cbn.
  - lia.
  - destruct m as [|b m]; cbn; [reflexivity | apply IH].
Qed.



(** Refreshing again on the same document changes nothing. *)
Lemma refreshed_again s w w2 :
  fst (read_document w2) = fst (read_document w) ->
  fst (refreshed (fst (refreshed s w)) w2) = fst (refreshed s w).
Proof.
  intros H. rewrite !refreshed_cases, H.
  destruct (braces (fst (read_document w))) as [text|]; [|reflexivity].
  now destruct (json_loads text).
Qed.

(** [async_ask]: enough recursion depth for a budget. *)
Lemma ask_fuel (n : nat) :
  forall b f1 f2 message st w,
    (0 <= b)%Z -> Z.to_nat b <= n -> n < f1 -> n < f2 ->
    Async.async_ask f1 message b st w = Async.async_ask f2 message b st w
    /\ Async.ask_outcome (Async.async_ask f1 message b st w) <> OutOfFuel
    /\ length (ask_budgets (Async.ask_trace (Async.async_ask f1 message b st w)))
       <= S (Z.to_nat b).
Proof.
  induction n as [|n IH]; intros b f1 f2 message st w Hb Hn H1 H2;
    destruct f1 as [|f1], f2 as [|f2]; try lia; cbn [Async.async_ask].
  - assert (b = 0%Z) as -> by lia. cbn. repeat split; [discriminate | lia].
  - destruct (b =? 0)%Z eqn:E0.
    { cbn. repeat split; [discriminate | lia]. }
    apply Z.eqb_neq in E0.
    destruct (stream_fuel_enough f1 f2 message 2 st w) as [Es Ho]; try lia.
    rewrite <- Es.
    destruct (stream_budgets_cases (S f1) message 2 st w) as [Hab _].
    set (r := Async.async_ask_stream (S f1) message 2 st w) in *. clearbody r.
    destruct (outcome r) eqn:Eo;
      try (cbn; rewrite ?ask_budgets_app, Hab; cbn;
           repeat split; [discriminate | lia]).
    + destruct (yielded r).
      * destruct (Async.async_refresh_session (client r) (world r)) as [st' w'].
        destruct (IH (b - 1)%Z f1 f2 message st' w') as (E & Hout & Hlen); try lia.
        rewrite <- E. cbn. rewrite !ask_budgets_app, Hab. cbn.
        repeat split; [exact Hout|].
        replace (Z.to_nat b) with (S (Z.to_nat (b - 1))) by lia. lia.
      * cbn. rewrite ?ask_budgets_app, Hab. cbn. repeat split; [discriminate | lia].
    + now elim Ho.
Qed.

(** What [async_ask] returns is what its last streaming call yielded. *)
Lemma ask_returns_last_attempt fuel :
  forall message b st w,
    let a := Async.async_ask fuel message b st w in
    Async.ask_outcome a = Returned ->
    exists earlier r,
      ask_attempts fuel message b st w = earlier ++ [r]
      /\ (forall e, In e earlier -> outcome e = Returned /\ yielded e = [])
      /\ outcome r = Returned
      /\ yielded r <> []
      /\ Async.response a = Some (String.concat "" (yielded r))
      /\ Async.ask_client a = client r
      /\ Async.ask_world a = world r.
Proof.
  induction fuel as [|fuel IH]; intros message b st w;
    cbn [Async.async_ask ask_attempts]; [discriminate|].
  destruct (b =? 0)%Z; [discriminate|].
  set (r := Async.async_ask_stream (S fuel) message 2 st w). clearbody r.
  destruct (outcome r) eqn:Ho; try discriminate.
  destruct (yielded r) as [|y ys] eqn:Hy.
  - destruct (Async.async_refresh_session (client r) (world r)) as [st' w'].
    cbn. intros Ha.
    destruct (IH message (b - 1)%Z st' w' Ha)
      as (earlier & r' & E & Hall & H1 & H2 & H3 & H4 & H5).
    exists (r :: earlier), r'. rewrite E. repeat split; auto.
    + destruct H as [<- | H]; [exact Ho | now apply Hall].
    + destruct H as [<- | H]; [exact Hy | now apply Hall].
  - intros _. exists [], r. rewrite Hy. cbn [app Async.response Async.ask_client
      Async.ask_world]. repeat split; auto; try contradiction. discriminate.
Qed.

End Further.

(** ** Walking a conversation *)

Section Walks.


Lemma py_eq_str a s : Api.py_eq a (JStr s) = true -> a = JStr s.
Proof. destruct a; cbn; try discriminate. now intros ->%String.eqb_eq. Qed.

Lemma py_eq_null a : Api.py_eq a JNull = true -> a = JNull.
Proof. destruct a; cbn; try discriminate. reflexivity. Qed.

Lemma py_eq_key a b : is_key b -> Api.py_eq a b = true -> a = b.
Proof. intros [-> | [s ->]]; [apply py_eq_null | apply py_eq_str]. Qed.

Lemma py_eq_key_refl a : is_key a -> Api.py_eq a a = true.
Proof. intros [-> | [s ->]]; cbn; [reflexivity | apply String.eqb_refl]. Qed.

Lemma next_item_found values p x :
  Api.next_item values p = Some (Some x) ->
  In x values /\ exists q, getitem x "parent" = Some q /\ Api.py_eq q p = true.
Proof.
  induction values as [|y rest IH]; cbn; [discriminate|].
  destruct (getitem y "parent") as [q|] eqn:E; [|discriminate].
  destruct (Api.py_eq q p) eqn:Eq.
  - intros [= <-]. split; [now left|]. exists q. split; assumption.
  - intros H. destruct (IH H) as [Hin Hq]. split; [now right | exact Hq].
Qed.

Lemma ids_of_length values : length (ids_of values) <= length values.
Proof.
  unfold ids_of. induction values as [|x rest IH]; cbn; [lia|].
  rewrite length_app. destruct (getitem x "id"); cbn; lia.
Qed.

Lemma trail_incl values visited :
  trail values visited -> incl visited (ids_of values).
Proof.
  induction visited as [|a rest IH]; cbn; [intros _ b []|].
  intros [(x & Hin & Hid & _) Hrest] b [<- | Hb]; [|now apply IH].
  unfold ids_of. apply in_flat_map. exists x. split; [exact Hin|].
  rewrite Hid. now left.
Qed.

Lemma trail_suffix values l1 l2 : trail values (l1 ++ l2) -> trail values l2.
Proof. induction l1 as [|a l1 IH]; cbn; [auto | intros [_ H]; auto]. Qed.

Lemma trail_head_str values a rest :
  well_formed values -> trail values (a :: rest) -> exists s, a = JStr s.
Proof. intros (H1 & _) [(x & Hin & Hid & _) _]. eauto. Qed.

Lemma trail_nodup values visited :
  well_formed values -> trail values visited -> NoDup visited.
Proof.
  intros Hwf. induction visited as [|a rest IH]; intros Ht; [constructor|].
  pose proof Ht as [(x & Hx & Hxid & Hxp) Hrest].
  specialize (IH Hrest). constructor; [|exact IH].
  intros Hin. apply in_split in Hin as (l1 & l2 & ->).
  pose proof (trail_suffix _ _ _ Hrest) as Hsuf.
  pose proof Hsuf as [(y & Hy & Hyid & Hyp) Hl2].
  destruct Hwf as (H1 & H2 & H3).
  pose proof (H3 x y a Hx Hy Hxid Hyid) as Hpar. rewrite Hxp, Hyp in Hpar.
  injection Hpar as Hhd.
  assert (Hc : exists c l3, l1 ++ a :: l2 = c :: l3 /\ hd JNull (l1 ++ a :: l2) = c
                           /\ exists s, c = JStr s).
  { destruct l1 as [|c l1'].
    - exists a, l2. repeat split. eapply (H1 x); eauto.
    - exists c, (l1' ++ a :: l2). repeat split.
      destruct Hrest as [(z & Hz & Hzid & _) _]. eapply (H1 z); eauto. }
  destruct Hc as (c & l3 & E & Ehd & s & ->). rewrite Ehd in Hhd.
  destruct l2 as [|b l2']; [discriminate|]. cbn in Hhd. subst b.
  (* [JStr s] is in the visited list twice *)
  destruct l1 as [|c l1']; cbn in E; injection E as E1 E2.
  - subst a l3. inversion IH as [|? ? Hn _]; subst. apply Hn. now left.
  - subst c l3. inversion IH as [|? ? Hn _]; subst. apply Hn.
    apply in_or_app. right. right. now left.
Qed.

Lemma walk_ends_from values :
  well_formed values ->
  forall steps visited messages,
    trail values visited ->
    length values < steps + length visited ->
    Api.walk steps values (hd JNull visited) messages <> Api.Walking.
Proof.
  intros Hwf. induction steps as [|steps IH]; intros visited messages Ht Hlen.
  - exfalso.
    pose proof (NoDup_incl_length (trail_nodup _ _ Hwf Ht) (trail_incl _ _ Ht)).
    pose proof (ids_of_length values). cbn in Hlen. lia.
  - cbn [Api.walk].
    destruct (Api.next_item values (hd JNull visited)) as [[x|]|] eqn:En;
      try discriminate.
    destruct (getitem x "message") as [m|]; [|discriminate].
    destruct (Api.wanted m) as [keep|]; [|discriminate].
    destruct (getitem x "id") as [a|] eqn:Ea; [|discriminate].
    apply (IH (a :: visited)).
    + split; [|exact Ht]. exists x.
      destruct (next_item_found _ _ _ En) as (Hin & q & Hq & Heq).
      repeat split; auto. rewrite Hq. f_equal. apply py_eq_key; [|exact Heq].
      destruct visited as [|b rest]; [now left|]. right.
      eapply trail_head_str; eauto.
    + cbn. lia.
Qed.



Lemma ids_of_cons x rest a :
  getitem x "id" = Some a -> ids_of (x :: rest) = a :: ids_of rest.
Proof. intros H. unfold ids_of. cbn [flat_map]. now rewrite H. Qed.

Lemma linear_ids p items :
  linear p items -> Forall (fun a => exists s, a = JStr s) (ids_of items).
Proof.
  revert p. induction items as [|x rest IH]; intros p; [constructor|].
  cbn [linear]. intros (_ & s & Hid & Hrest). rewrite (ids_of_cons _ _ _ Hid).
  constructor; [eauto | exact (IH _ Hrest)].
Qed.

Lemma last_id_in p items :
  linear p items -> last_id p items = p \/ In (last_id p items) (ids_of items).
Proof.
  revert p. induction items as [|x rest IH]; intros p; [now left|].
  cbn [linear last_id]. intros (_ & s & Hid & Hrest). rewrite Hid. right.
  rewrite (ids_of_cons _ _ _ Hid).
  destruct (IH _ Hrest) as [-> | H]; [now left | now right].
Qed.

(** No item has the last identifier as parent. *)
Lemma linear_end p items :
  linear p items -> NoDup (ids_of items) -> ~ In p (ids_of items) ->
  forall y, In y items -> getitem y "parent" <> Some (last_id p items).
Proof.
  revert p. induction items as [|x rest IH]; intros p Hl Hnd Hp y Hy; [destruct Hy|].
  cbn in Hl. destruct Hl as (Hpar & s & Hid & Hrest).
  rewrite (ids_of_cons _ _ _ Hid) in Hnd, Hp.
  inversion Hnd as [|? ? Hs Hnd']; subst.
  cbn [last_id]. rewrite Hid.
  destruct Hy as [<- | Hy].
  - rewrite Hpar. intros [= E].
    destruct (last_id_in _ _ Hrest) as [K | K]; rewrite <- E in K; apply Hp;
      [left; now symmetry | now right].
  - now apply IH.
Qed.

(** Two items with the same parent are the same item. *)
Lemma linear_parents p items :
  linear p items -> NoDup (ids_of items) -> ~ In p (ids_of items) ->
  forall x y q, In x items -> In y items ->
    getitem x "parent" = Some q -> getitem y "parent" = Some q -> x = y.
Proof.
  revert p. induction items as [|z rest IH]; intros p Hl Hnd Hp x y q Hx Hy Ex Ey;
    [destruct Hx|].
  cbn in Hl. destruct Hl as (Hpar & s & Hid & Hrest).
  rewrite (ids_of_cons _ _ _ Hid) in Hnd, Hp.
  inversion Hnd as [|? ? Hs Hnd']; subst.
  assert (Hrest_par : forall u, In u rest -> getitem u "parent" <> Some p).
  { clear -Hrest Hp. revert s Hrest Hp.
    induction rest as [|v rest IH]; intros s Hrest Hp u Hu; [destruct Hu|].
    cbn in Hrest. destruct Hrest as (Hv & t & Hvid & Hrest).
    destruct Hu as [<- | Hu].
    - rewrite Hv. intros [= <-]. apply Hp. now left.
    - apply (IH t Hrest); [|exact Hu].
      rewrite (ids_of_cons _ _ _ Hvid) in Hp. cbn in Hp. tauto. }
  destruct Hx as [<- | Hx], Hy as [<- | Hy]; auto.
  - exfalso. apply (Hrest_par y Hy). congruence.
  - exfalso. apply (Hrest_par x Hx). congruence.
  - eapply (IH (JStr s)); eauto.
Qed.

Lemma linear_keys p items :
  is_key p -> linear p items ->
  forall y, In y items -> exists q, getitem y "parent" = Some q /\ is_key q.
Proof.
  revert p. induction items as [|x rest IH]; intros p Hk Hl y Hy; [destruct Hy|].
  cbn in Hl. destruct Hl as (Hpar & s & Hid & Hrest).
  destruct Hy as [<- | Hy]; [eauto|].
  apply (IH (JStr s)); auto. right. eauto.
Qed.

Lemma next_item_none values p :
  is_key p ->
  (forall y, In y values -> exists q, getitem y "parent" = Some q /\ is_key q) ->
  (forall y, In y values -> getitem y "parent" <> Some p) ->
  Api.next_item values p = Some None.
Proof.
  intros Hp. induction values as [|y rest IH]; intros Hk Hn; [reflexivity|].
  cbn. destruct (Hk y (or_introl eq_refl)) as (q & Hq & Hqk). rewrite Hq.
  destruct (Api.py_eq q p) eqn:E.
  - apply py_eq_key in E; [|exact Hp]. subst q. now elim (Hn y (or_introl eq_refl)).
  - apply IH; intros; [apply Hk | apply Hn]; now right.
Qed.

Lemma next_item_unique values p x :
  is_key p ->
  (forall y, In y values -> exists q, getitem y "parent" = Some q /\ is_key q) ->
  In x values -> getitem x "parent" = Some p ->
  (forall y, In y values -> getitem y "parent" = Some p -> y = x) ->
  Api.next_item values p = Some (Some x).
Proof.
  intros Hp. induction values as [|y rest IH]; intros Hk Hx Hxp Hu; [destruct Hx|].
  cbn. destruct (Hk y (or_introl eq_refl)) as (q & Hq & Hqk). rewrite Hq.
  destruct (Api.py_eq q p) eqn:E.
  - apply py_eq_key in E; [|exact Hp]. subst q.
    now rewrite (Hu y (or_introl eq_refl) Hq).
  - destruct Hx as [-> | Hx].
    + rewrite Hxp in Hq. injection Hq as <-.
      now rewrite (py_eq_key_refl _ Hp) in E.
    + apply IH; auto.
      * intros; apply Hk; now right.
      * intros; apply Hu; auto. now right.
Qed.

Lemma walk_step steps values p messages :
  Api.walk (S steps) values p messages =
    match Api.next_item values p with
    | None => Api.Fails
    | Some None => Api.Messages messages
    | Some (Some current_item) =>
        match getitem current_item "message" with
        | None => Api.Fails
        | Some message =>
            match Api.wanted message with
            | None => Api.Fails
            | Some keep =>
                match getitem current_item "id" with
                | None => Api.Fails
                | Some id =>
                    Api.walk steps values id
                      (if keep then messages ++ [message] else messages)
                end
            end
        end
    end.
Proof. reflexivity. Qed.

Lemma walk_linear values :
  (forall y, In y values -> exists q, getitem y "parent" = Some q /\ is_key q) ->
  (forall x y q, In x values -> In y values ->
     getitem x "parent" = Some q -> getitem y "parent" = Some q -> x = y) ->
  forall todo steps p messages out,
    length todo < steps ->
    is_key p ->
    linear p todo ->
    (forall x, In x todo -> In x values) ->
    (forall y, In y values -> getitem y "parent" <> Some (last_id p todo)) ->
    selected todo = Some out ->
    Api.walk steps values p messages = Api.Messages (messages ++ out).
Proof.
  intros Hk Hinj. induction todo as [|x rest IH];
    intros steps p messages out Hsteps Hp Hl Hin Hend Hsel;
    (destruct steps as [|steps]; [cbn in Hsteps; lia|]); rewrite walk_step.
  - cbn in *. injection Hsel as <-. rewrite app_nil_r.
    now rewrite (next_item_none values p Hp Hk Hend).
  - cbn in Hl. destruct Hl as (Hpar & s & Hid & Hrest).
    rewrite (next_item_unique values p x Hp Hk (Hin x (or_introl eq_refl)) Hpar).
    2: { intros y Hy Hyp. symmetry.
         apply (Hinj x y p); auto. apply Hin. now left. }
    cbn in Hsel. destruct (getitem x "message") as [m|]; [|discriminate].
    destruct (Api.wanted m) as [keep|]; [|discriminate].
    destruct (selected rest) as [out'|] eqn:Er; [|discriminate].
    injection Hsel as <-. rewrite Hid.
    rewrite (IH steps (JStr s) _ out'); auto.
    + destruct keep; [now rewrite <- app_assoc | reflexivity].
    + cbn in Hsteps. lia.
    + right. eauto.
    + intros; apply Hin; now right.
    + cbn in Hend. now rewrite Hid in Hend.
Qed.

(** What a walk returns was appended by it: messages of items of the
    mapping that passed the test. *)
Lemma walk_sound values steps :
  forall p messages out,
    Api.walk steps values p messages = Api.Messages out ->
    exists added,
      out = messages ++ added
      /\ Forall (fun m => Api.wanted m = Some true
                          /\ exists x, In x values /\ getitem x "message" = Some m)
           added.
Proof.
  induction steps as [|steps IH]; intros p messages out; [discriminate|].
  rewrite walk_step.
  destruct (Api.next_item values p) as [[x|]|] eqn:En; try discriminate.
  2: { intros [= <-]. exists []. now rewrite app_nil_r. }
  destruct (getitem x "message") as [m|] eqn:Em; [|discriminate].
  destruct (Api.wanted m) as [keep|] eqn:Ew; [|discriminate].
  destruct (getitem x "id") as [a|]; [|discriminate].
  intros H. apply IH in H as (added & -> & Hall).
  destruct keep.
  - exists (m :: added). rewrite <- app_assoc. split; [reflexivity|].
    constructor; [|exact Hall]. split; [exact Ew|]. exists x. split; [|exact Em].
    now destruct (next_item_found _ _ _ En).
  - now exists added.
Qed.

Lemma wanted_true m :
  Api.wanted m = Some true ->
  m <> JNull
  /\ exists author role,
       getitem m "author" = Some author /\ getitem author "role" = Some role
       /\ role <> JStr "system".
Proof.
  unfold Api.wanted. intros H.
  assert (Hn : m <> JNull) by (intros ->; discriminate).
  split; [exact Hn|].
  assert (K : match contains "author" m with
              | Some true =>
                  match getitem m "author" with
                  | Some author =>
                      match getitem author "role" with
                      | Some role => Some (negb (Api.py_eq role (JStr "system")))
                      | None => None
                      end
                  | None => None
                  end
              | Some false => Some false
              | None => None
              end = Some true) by (destruct m; auto; congruence).
  clear H. destruct (contains "author" m) as [[|]|]; try discriminate.
  destruct (getitem m "author") as [author|]; [|discriminate].
  destruct (getitem author "role") as [role|] eqn:Er; [|discriminate].
  exists author, role. split; [reflexivity|]. split; [exact Er|].
  intros ->. cbn in K. discriminate.
Qed.

(** A root item whose identifier is [None] is found again and again. *)
Lemma walk_loops values x m keep :
  Api.next_item values JNull = Some (Some x) ->
  getitem x "message" = Some m ->
  Api.wanted m = Some keep ->
  getitem x "id" = Some JNull ->
  forall steps messages, Api.walk steps values JNull messages = Api.Walking.
Proof.
  intros Hn Hm Hw Hid. induction steps as [|steps IH]; intros messages;
    [reflexivity|].
  rewrite walk_step, Hn, Hm, Hw, Hid. apply IH.
Qed.


End Walks.

(** ** The API calls *)

Section Calls.
Context {lib : PyLib}.


Lemma py_eq_str_left s b : Api.py_eq (JStr s) b = true -> b = JStr s.
Proof. destruct b; cbn; try discriminate. now intros ->%String.eqb_eq. Qed.

Lemma py_eq_str_refl s : Api.py_eq (JStr s) (JStr s) = true.
Proof. apply String.eqb_refl. Qed.

(** Looking a string key up after an assignment. *)
Lemma dict_get_set s k v d :
  Api.dict_get (JStr s) (Api.dict_set k v d) =
    if Api.py_eq k (JStr s) then Some v else Api.dict_get (JStr s) d.
Proof.
  induction d as [|[k' v'] rest IH]; cbn; [reflexivity|].
  destruct (Api.py_eq k' k) eqn:Ek; cbn.
  - destruct (Api.py_eq k' (JStr s)) eqn:Es.
    + apply py_eq_str in Es. subst k'. apply py_eq_str_left in Ek. subst k.
      now rewrite py_eq_str_refl.
    + destruct (Api.py_eq k (JStr s)) eqn:E; [|reflexivity].
      apply py_eq_str in E. subst k. congruence.
  - rewrite IH. destruct (Api.py_eq k' (JStr s)) eqn:Es; [|reflexivity].
    apply py_eq_str in Es. subst k'.
    destruct (Api.py_eq k (JStr s)) eqn:E; [|reflexivity].
    apply py_eq_str in E. subst k. now rewrite py_eq_str_refl in Ek.
Qed.

Lemma index_items_lookup s items :
  forall history built,
    Api.index_items items history = Some built ->
    Api.dict_get (JStr s) built =
      last_with_id s items (Api.dict_get (JStr s) history).
Proof.
  induction items as [|item rest IH]; intros history built; cbn.
  - now intros [= <-].
  - destruct (getitem item "id") as [id|]; [|discriminate].
    destruct (Api.hashable id) eqn:Eh; [|discriminate].
    intros H. rewrite (IH _ _ H), dict_get_set. f_equal.
    destruct id; cbn; try reflexivity; discriminate Eh.
Qed.

(** A session without the credential has nothing under its key. *)
Lemma no_credential_no_token session :
  contains "accessToken" session = Some false ->
  getitem session "accessToken" = None.
Proof.
  destruct session; cbn; try reflexivity.
  intros [= H]. induction items as [|[k v] rest IH]; [reflexivity|].
  cbn in *. destruct (String.eqb k "accessToken"); [discriminate | auto].
Qed.

Lemma with_credential_cases st w :
  match Api.with_credential st w with
  | None => contains "accessToken" (Sync.session st) = None
  | Some (st1, w1) =>
      Sync.session st1 = sync_checked_session st w
      /\ Sync.conv st1 = Sync.conv st
  end.
Proof.
  unfold Api.with_credential, sync_checked_session.
  destruct (contains "accessToken" (Sync.session st)) as [[|]|]; auto.
  destruct (sync_refresh_keeps st w) as (H1 & _ & _ & H4 & _).
  destruct (Sync.refresh_session st w) as [st1 w1]. cbn in *. auto.
Qed.

Lemma send_cases server verb target data session :
  match Api.send server verb target data session with
  | (inr PyError, rs) => rs = [] /\ getitem session "accessToken" = None
  | (_, rs) =>
      exists token,
        getitem session "accessToken" = Some token
        /\ rs = [ {| Api.method := verb; Api.endpoint := target;
                     Api.authorization := token; Api.payload := data |} ]
  end.
Proof.
  unfold Api.send, Api._api_request_build_headers.
  destruct (getitem session "accessToken") as [token|]; [|auto].
  destruct (server _) as [response|]; cbn; eauto.
Qed.


End Calls.

(** ** The lock, the recursion depth and the end of a streaming call *)

(** X1: a streaming call that finds the lock free gives it back on every
    way out: the lock is free after a call that returned or raised.  It is
    still held only where the call itself goes on, waiting for the lock or
    polling. *)
Theorem lock_follows_outcome {lib : PyLib}
    (fuel : nat) (prompt : string) (b : Z) (st : Async.Client) (w : World) :
  Async.lock st = false ->
  let r := Async.async_ask_stream fuel prompt b st w in
  match outcome r with
  | Returned | Raised _ => Async.lock (client r) = false
  | Blocked | Pending => Async.lock (client r) = true
  | OutOfFuel => True
  end.
Proof.
  intros Hl. cbv zeta. destruct fuel as [|fuel]; [exact I|].
  cbn [Async.async_ask_stream]. rewrite Hl.
  destruct (b =? 0)%Z; [exact Hl|].
  destruct (ensure_session_spec (Async.with_lock true st) w)
    as (st1 & w1 & tr1 & -> & Hlock & _). cbn in Hlock. unfold consult.
  destruct (contains "accessToken" (Async.session st1)) as [[|]|]; try reflexivity.
  destruct (build_code _ _ _) as [code|]; [|reflexivity].
  destruct (page_evaluate _ _).
  - destruct (exit _); try reflexivity.
    + match goal with |- context [Async.async_refresh_session ?s ?x] =>
        pose proof (async_refresh_keeps s x) as (K1 & _);
        destruct (Async.async_refresh_session s x) as [st3 w6]; cbn in K1 end.
      rewrite delegate_locked by congruence.
      destruct fuel; cbn; [exact I | congruence].
    + cbn. exact Hlock.
  - match goal with |- context [Async.async_refresh_session ?s ?x] =>
      pose proof (async_refresh_keeps s x) as (K1 & _);
      destruct (Async.async_refresh_session s x) as [st3 w6]; cbn in K1 end.
    rewrite delegate_locked by congruence.
    destruct fuel; cbn; [exact I | congruence].
Qed.

Lemma lock_follows_outcome_witness :
  let r := Async.async_ask_stream (lib := Sample.library) 2 "Good night!" 2
             (Sample.async_client Sample.session_value)
             (Sample.environment Sample.session_page true
                [ Sample.poll 1 false (Some Sample.html_good);
                  Sample.poll 2 false (Some Sample.html_broken) ]) in
  outcome r = Raised ChatGPTResponseError /\ Async.lock (client r) = false.
Proof.
  cbv zeta. split; [reflexivity|].
  exact (lock_follows_outcome (lib := Sample.library) 2 "Good night!" 2%Z
           (Sample.async_client Sample.session_value)
           (Sample.environment Sample.session_page true
              [ Sample.poll 1 false (Some Sample.html_good);
                Sample.poll 2 false (Some Sample.html_broken) ])
           eq_refl).
Defined.

(** X2: a streaming call never nests deeper than one retry: with two
    levels of recursion or more the model gives the same run, and that run
    does not stop for lack of depth. *)
Theorem two_levels_suffice {lib : PyLib}
    (fuel : nat) (prompt : string) (b : Z) (st : Async.Client) (w : World) :
  2 <= fuel ->
  Async.async_ask_stream fuel prompt b st w = Async.async_ask_stream 2 prompt b st w
  /\ outcome (Async.async_ask_stream fuel prompt b st w) <> OutOfFuel.
Proof.
  intros H. destruct fuel as [|[|fuel]]; try lia.
  apply stream_fuel_enough; discriminate.
Qed.

Lemma two_levels_suffice_witness :
  let w := Sample.environment Sample.session_page true
             [ Sample.poll 1 false (Some ""); Sample.poll 61 false (Some "") ] in
  Async.async_ask_stream (lib := Sample.library) 7 "Good night!" 2
    (Sample.async_client Sample.session_value) w =
  Async.async_ask_stream (lib := Sample.library) 2 "Good night!" 2
    (Sample.async_client Sample.session_value) w.
Proof.
  cbv zeta.
  apply (two_levels_suffice (lib := Sample.library) 7 "Good night!" 2%Z). lia.
Defined.

(** X3: a streaming call returns only after an iteration that found the
    end-of-stream marker together with the stream marker. *)
Theorem returns_only_after_eof {lib : PyLib}
    (fuel : nat) (prompt : string) (b : Z) (st : Async.Client) (w : World) :
  outcome (Async.async_ask_stream fuel prompt b st w) = Returned ->
  exists p inner_html,
    In p (polls w) /\ eof_datas p = true /\ conversation_datas p = Some inner_html.
Proof. apply stream_returned. Qed.

Lemma returns_only_after_eof_witness :
  exists p inner_html,
    In p [ Sample.poll 1 false (Some Sample.html_good);
           Sample.poll 2 true (Some Sample.html_good_night) ]
    /\ eof_datas p = true /\ conversation_datas p = Some inner_html.
Proof.
  exact (returns_only_after_eof (lib := Sample.library) 2 "Good night!" 2%Z
           (Sample.async_client Sample.session_value)
           (Sample.environment Sample.session_page true
              [ Sample.poll 1 false (Some Sample.html_good);
                Sample.poll 2 true (Some Sample.html_good_night) ])
           eq_refl).
Defined.

(** ** The time limit of the polling loops *)

(** X4: the time limit of the asynchronous loop holds only while the last
    iteration read no message.  When the first iteration is in time and
    every iteration reads a message and finds no end-of-stream marker, the
    loop yields a chunk in every iteration and is never left, however late
    the clock is. *)
Theorem stream_with_messages_never_times_out {lib : PyLib}
    (ps : list Poll) (start_time tmo : Z) (c : Conv) :
  (forall p, In p ps ->
     eof_datas p = false
     /\ exists inner_html,
          conversation_datas p = Some inner_html
          /\ forall c', exists c'' m, read_event inner_html c' = (c'', Message m)) ->
  (forall p, hd_error ps = Some p -> (now p - start_time <= tmo)%Z) ->
  exit (Async.poll_loop ps start_time tmo None "" c) = ExitPending
  /\ length (chunks (Async.poll_loop ps start_time tmo None "" c)) = length ps.
Proof.
  intros Hall Hfirst. apply async_loop_goes_on; [exact Hall | now right].
Qed.

Lemma stream_with_messages_never_times_out_witness :
  let ps := [ Sample.poll 1 false (Some Sample.html_good);
              Sample.poll 1000 false (Some Sample.html_good);
              Sample.poll 100000 false (Some Sample.html_good_night) ] in
  exit (Async.poll_loop (lib := Sample.library) ps 0 60 None "" Sample.fresh) = ExitPending
  /\ length (chunks (Async.poll_loop (lib := Sample.library) ps 0 60 None "" Sample.fresh)) = 3.
Proof.
  cbv zeta.
  apply (stream_with_messages_never_times_out (lib := Sample.library)
           [ Sample.poll 1 false (Some Sample.html_good);
             Sample.poll 1000 false (Some Sample.html_good);
             Sample.poll 100000 false (Some Sample.html_good_night) ]
           0 60 Sample.fresh).
  - intros p [<- | [<- | [<- | []]]]; (split; [reflexivity|]);
      eexists; (split; [reflexivity|]); intros c'; eexists; eexists; reflexivity.
  - intros p [= <-]. cbn. lia.
Defined.

(** X5: while the stream marker is not in the page, the two loops differ.
    The asynchronous loop is left through its [else] branch as soon as the
    clock is past the limit, with nothing yielded and the conversation
    state untouched; the synchronous loop looks at the clock only after it
    read a marker, and is never left. *)
Theorem loops_without_marker {lib : PyLib}
    (ps : list Poll) (start_time tmo : Z) (last : string) (c : Conv) :
  (forall p, In p ps -> conversation_datas p = None) ->
  (exit (Sync.poll_loop ps start_time tmo last c) = ExitPending
   /\ chunks (Sync.poll_loop ps start_time tmo last c) = [])
  /\ ((exists p, In p ps /\ (tmo < now p - start_time)%Z) ->
      exit (Async.poll_loop ps start_time tmo None last c) = ExitElse
      /\ chunks (Async.poll_loop ps start_time tmo None last c) = []
      /\ conv_end (Async.poll_loop ps start_time tmo None last c) = c).
Proof.
  intros Hall. split.
  - now apply sync_loop_waits_for_marker.
  - intros Hlate. now apply async_loop_times_out.
Qed.

Lemma loops_without_marker_witness :
  let ps := [ Sample.poll 1 false None; Sample.poll 61 false None;
              Sample.poll 3600 true None ] in
  exit (Sync.poll_loop (lib := Sample.library) ps 0 60 "" Sample.fresh) = ExitPending
  /\ exit (Async.poll_loop (lib := Sample.library) ps 0 60 None "" Sample.fresh) = ExitElse.
Proof.
  cbv zeta.
  destruct (loops_without_marker (lib := Sample.library)
              [ Sample.poll 1 false None; Sample.poll 61 false None;
                Sample.poll 3600 true None ] 0 60 "" Sample.fresh) as [[Hs _] Ha].
  - intros p [<- | [<- | [<- | []]]]; reflexivity.
  - split; [exact Hs|]. apply Ha.
    exists (Sample.poll 61 false None). split; [right; now left | cbn; lia].
Defined.

(** ** A decode failure in the middle of the assignments *)

(** X6: the two identifiers are stored one after the other inside the
    [try] block.  An event that has [message.id] and no [conversation_id]
    makes the block fail after the first assignment: the turn takes the
    error path with the new parent message identifier and the old
    conversation identifier. *)
Theorem decode_failure_keeps_first_assignment {lib : PyLib}
    (p : Poll) (inner_html event_raw : string) (event message id : Json)
    (full : option string) (last : string) (c : Conv) (start_time tmo : Z) :
  conversation_datas p = Some inner_html ->
  b64decode inner_html = Some event_raw ->
  String.length event_raw <> 0 ->
  json_loads event_raw = Some event ->
  getitem event "message" = Some message ->
  getitem message "id" = Some id ->
  getitem event "conversation_id" = None ->
  let half := {| parent_message_id := id; conversation_id := conversation_id c |} in
  (conv_after (Async.iteration p full last c) = half
   /\ control (Async.iteration p full last c) = Raise
   /\ delta (Async.iteration p full last c) = None)
  /\ (conv_after (Sync.iteration p start_time tmo last c) = half
      /\ delta (Sync.iteration p start_time tmo last c) = Some Sync.failed_text).
Proof.
  intros Hp Hb Hl Hj Hm Hi Hc. cbv zeta.
  unfold Async.iteration, Sync.iteration.
  rewrite Hp, (read_event_half _ _ _ _ _ c Hb Hl Hj Hm Hi Hc). cbn. auto.
Qed.

Lemma decode_failure_keeps_first_assignment_witness :
  let p := Sample.poll 1 false (Some Cases.html_no_conversation) in
  conv_after (Async.iteration (lib := Cases.library) p None "" Sample.fresh) =
    {| parent_message_id := JStr "m9"; conversation_id := JNull |}
  /\ control (Async.iteration (lib := Cases.library) p None "" Sample.fresh) = Raise.
Proof.
  cbv zeta.
  destruct (decode_failure_keeps_first_assignment (lib := Cases.library)
              (Sample.poll 1 false (Some Cases.html_no_conversation))
              Cases.html_no_conversation Cases.text_no_conversation
              Cases.value_no_conversation (JObj [ ("id", JStr "m9") ]) (JStr "m9")
              None "" Sample.fresh 0 60) as [(H1 & H2 & _) _];
    try reflexivity.
  - vm_compute. discriminate.
  - split; assumption.
Defined.

(** ** The synchronous implementation *)

(** X7: the synchronous [ask_stream] raises none of the exceptions of the
    package: it returns, is still polling, or lets an error of the
    interpreter or of the page through. *)
Theorem sync_stream_raises_no_package_exception {lib : PyLib}
    (prompt : string) (st : Sync.Client) (w : World) (e : Exn) :
  outcome (Sync.ask_stream prompt st w) = Raised e ->
  e = PyError \/ e = PlaywrightError.
Proof.
  intros H. pose proof (sync_outcomes prompt st w) as K. rewrite H in K.
  destruct e; auto; contradiction.
Qed.

Lemma sync_stream_raises_no_package_exception_witness :
  PlaywrightError = PyError \/ PlaywrightError = PlaywrightError.
Proof.
  exact (sync_stream_raises_no_package_exception (lib := Sample.library)
           "Good night!" (Sample.sync_client Sample.session_value)
           (Sample.environment Sample.session_page false []) PlaywrightError
           eq_refl).
Defined.

(** X8: when the synchronous stream returns with at least one chunk,
    [ask] returns the chunks joined in order, and makes no other call. *)
Theorem sync_ask_joins_chunks {lib : PyLib}
    (message : string) (st : Sync.Client) (w : World) :
  outcome (Sync.ask_stream message st w) = Returned ->
  yielded (Sync.ask_stream message st w) <> [] ->
  Sync.ask message st w =
    (inl (String.concat "" (yielded (Sync.ask_stream message st w))),
     Sync.ask_stream message st w).
Proof.
  intros Ho Hy. unfold Sync.ask. rewrite Ho.
  destruct (yielded (Sync.ask_stream message st w)) as [|first rest];
    [now elim Hy|].
  now rewrite reduce_add_is_concat.
Qed.

Lemma sync_ask_joins_chunks_witness :
  fst (Sync.ask (lib := Sample.library) "Good night!"
         (Sample.sync_client Sample.session_value)
         (Sample.environment Sample.session_page true
            [ Sample.poll 1 false (Some Sample.html_good);
              Sample.poll 2 true (Some Sample.html_good_night) ]))
  = inl "Good night!".
Proof.
  rewrite (sync_ask_joins_chunks (lib := Sample.library) "Good night!"
             (Sample.sync_client Sample.session_value)
             (Sample.environment Sample.session_page true
                [ Sample.poll 1 false (Some Sample.html_good);
                  Sample.poll 2 true (Some Sample.html_good_night) ])
             eq_refl).
  - reflexivity.
  - vm_compute. discriminate.
Defined.

(** ** The text a refresh parses *)

(** X9: the text a refresh hands to [json.loads] is the window of the
    document from its first opening brace to its last closing brace, both
    included (empty when the last closing brace comes first); there is no
    such text exactly when the document has no opening brace or no closing
    brace. *)
Theorem braces_cut_first_to_last (contents : string) :
  match braces contents with
  | Some text =>
      exists start stop,
        (String.get start contents = Some "{"%char
         /\ forall j, j < start -> String.get j contents <> Some "{"%char)
        /\ (String.get stop contents = Some "}"%char
            /\ forall j, stop < j -> String.get j contents <> Some "}"%char)
        /\ forall p, String.get p text =
             if (p <? S stop - start)%nat then String.get (p + start) contents
             else None
  | None =>
      (forall j, String.get j contents <> Some "{"%char)
      \/ (forall j, String.get j contents <> Some "}"%char)
  end.
Proof.
  destruct (braces contents) as [text|] eqn:E.
  - now apply braces_window.
  - now apply braces_none.
Qed.

Example braces_of_session_page :
  braces Sample.session_page = Some Sample.session_text
  /\ braces "} no object {" = Some ""
  /\ braces Sample.login_page = None.
Proof. vm_compute. auto. Qed.

(** X10: refreshing is idempotent: a second refresh that reads the same
    document as the first leaves the session the first one left. *)
Theorem refresh_twice_is_refresh_once {lib : PyLib}
    (st : Async.Client) (w w2 : World) :
  fst (read_document w2) = fst (read_document w) ->
  Async.session
    (fst (Async.async_refresh_session (fst (Async.async_refresh_session st w)) w2))
  = Async.session (fst (Async.async_refresh_session st w)).
Proof.
  intros H.
  destruct (async_refresh_keeps (fst (Async.async_refresh_session st w)) w2)
    as (_ & _ & _ & -> & _).
  destruct (async_refresh_keeps st w) as (_ & _ & _ & -> & _).
  now apply refreshed_again.
Qed.

Lemma refresh_twice_is_refresh_once_witness :
  let st := Sample.async_client (JObj []) in
  let w := Sample.environment Sample.session_page true [] in
  Async.session
    (fst (Async.async_refresh_session (lib := Sample.library)
            (fst (Async.async_refresh_session (lib := Sample.library) st w))
            (snd (Async.async_refresh_session (lib := Sample.library) st w))))
  = Sample.session_value.
Proof.
  cbv zeta.
  rewrite (refresh_twice_is_refresh_once (lib := Sample.library)
             (Sample.async_client (JObj []))
             (Sample.environment Sample.session_page true [])
             (snd (Async.async_refresh_session (lib := Sample.library)
                     (Sample.async_client (JObj []))
                     (Sample.environment Sample.session_page true []))));
    reflexivity.
Defined.

(** ** [async_ask] *)

(** X11: with a budget that is not negative, [async_ask] makes at most
    budget + 1 attempts (the last one only to raise): a recursion depth
    above the budget always gives the same run, which does not stop for
    lack of depth. *)
Theorem ask_attempts_are_bounded {lib : PyLib}
    (f1 f2 : nat) (message : string) (b : Z) (st : Async.Client) (w : World) :
  (0 <= b)%Z -> Z.to_nat b < f1 -> Z.to_nat b < f2 ->
  Async.async_ask f1 message b st w = Async.async_ask f2 message b st w
  /\ Async.ask_outcome (Async.async_ask f1 message b st w) <> OutOfFuel
  /\ length (ask_budgets (Async.ask_trace (Async.async_ask f1 message b st w)))
     <= S (Z.to_nat b).
Proof.
  intros Hb H1 H2. apply (ask_fuel (Z.to_nat b)); auto.
Qed.

Lemma ask_attempts_are_bounded_witness :
  let w := Sample.environment Sample.session_page true
             [ Sample.poll 1 true (Some ""); Sample.poll 1 true (Some "") ] in
  Async.ask_outcome (Async.async_ask (lib := Sample.library) 3 "Good night!" 2
                       (Sample.async_client Sample.session_value) w) <> OutOfFuel
  /\ length (ask_budgets (Async.ask_trace
               (Async.async_ask (lib := Sample.library) 3 "Good night!" 2
                  (Sample.async_client Sample.session_value) w))) <= 3.
Proof.
  cbv zeta.
  destruct (ask_attempts_are_bounded (lib := Sample.library) 3 4 "Good night!" 2%Z
              (Sample.async_client Sample.session_value)
              (Sample.environment Sample.session_page true
                 [ Sample.poll 1 true (Some ""); Sample.poll 1 true (Some "") ]))
    as (_ & H1 & H2); try (cbn; lia).
  split; assumption.
Defined.

(** X12: what [async_ask] returns is what its last streaming call yielded.
    When [async_ask] returns, the last of the streaming calls it made
    returned with at least one chunk, every call before it returned without
    a chunk, the response is the join of the chunks of that last call (the
    join itself may be the empty string), and the client and the environment
    are left as that call left them. *)
Theorem ask_returns_joined_chunks {lib : PyLib}
    (fuel : nat) (message : string) (b : Z) (st : Async.Client) (w : World) :
  let a := Async.async_ask fuel message b st w in
  Async.ask_outcome a = Returned ->
  exists earlier r,
    ask_attempts fuel message b st w = earlier ++ [r]
    /\ (forall e, In e earlier -> outcome e = Returned /\ yielded e = [])
    /\ outcome r = Returned
    /\ yielded r <> []
    /\ Async.response a = Some (String.concat "" (yielded r))
    /\ Async.ask_client a = client r
    /\ Async.ask_world a = world r.
Proof. apply ask_returns_last_attempt. Qed.

Lemma ask_returns_joined_chunks_witness :
  exists earlier r,
    ask_attempts (lib := Sample.library) 3 "Good night!" 2
      (Sample.async_client Sample.session_value)
      (Sample.environment Sample.session_page true
         [ Sample.poll 1 true (Some "");
           Sample.poll 1 false (Some Sample.html_good);
           Sample.poll 2 true (Some Sample.html_good_night) ]) = earlier ++ [r]
    /\ length earlier = 1
    /\ yielded r = ["Good "; "night!"]
    /\ Async.response
         (Async.async_ask (lib := Sample.library) 3 "Good night!" 2
            (Sample.async_client Sample.session_value)
            (Sample.environment Sample.session_page true
               [ Sample.poll 1 true (Some "");
                 Sample.poll 1 false (Some Sample.html_good);
                 Sample.poll 2 true (Some Sample.html_good_night) ]))
       = Some "Good night!".
Proof.
  destruct (ask_returns_joined_chunks (lib := Sample.library) 3 "Good night!" 2%Z
              (Sample.async_client Sample.session_value)
              (Sample.environment Sample.session_page true
                 [ Sample.poll 1 true (Some "");
                   Sample.poll 1 false (Some Sample.html_good);
                   Sample.poll 2 true (Some Sample.html_good_night) ])
              eq_refl) as (earlier & r & E & _ & _ & _ & Hr & _).
  exists earlier, r. split; [exact E|].
  vm_compute in E.
  destruct earlier as [|e1 [|e2 [|e3 earlier]]]; try discriminate E.
  injection E as _ <-.
  repeat split; reflexivity.
Defined.

(** ** The chunk *)

(** X13: the chunk cut from a message has the length of the message less
    the length of the message before, and none below zero: a message that
    is not longer than the one before gives the empty chunk, never an
    error. *)
Theorem chunk_length_is_difference (last m : string) :
  String.length (chunk_of last m) = String.length m - String.length last
  /\ (String.length m <= String.length last -> chunk_of last m = "").
Proof.
  pose proof (chunk_length last m) as H. split; [exact H|].
  intros Hle. destruct (chunk_of last m); [reflexivity|]. cbn in H. lia.
Qed.

Lemma chunk_length_is_difference_witness :
  chunk_of "Good night!" "Hi" = "".
Proof.
  apply (chunk_length_is_difference "Good night!" "Hi"). cbn. lia.
Defined.

(** ** [conversation_data_to_messages] *)

Lemma cases_thread_ids : ids_of Cases.thread = [JStr "a"; JStr "b"; JStr "c"].
Proof. reflexivity. Qed.

Lemma cases_thread_nodup : NoDup (ids_of Cases.thread).
Proof.
  rewrite cases_thread_ids.
  repeat constructor; cbn; intros H;
    repeat (destruct H as [H | H]; [discriminate H|]); exact H.
Qed.

(** X14: for a conversation without branches whose identifiers are
    distinct strings, [conversation_data_to_messages] returns the messages
    in the order of the conversation, whatever the order of the mapping,
    leaving out the items without message and the messages of the system. *)
Theorem messages_follow_the_thread
    (conversation_data : Json) (mapping_dict : list (string * Json))
    (items out : list Json) (steps : nat) :
  getitem conversation_data "mapping" = Some (JObj mapping_dict) ->
  Permutation items (map snd mapping_dict) ->
  linear JNull items ->
  NoDup (ids_of items) ->
  selected items = Some out ->
  length items < steps ->
  Api.conversation_data_to_messages steps conversation_data = Api.Messages out.
Proof.
  intros Hm Hperm Hlin Hnd Hsel Hsteps.
  unfold Api.conversation_data_to_messages. rewrite Hm.
  assert (Hnull : ~ In JNull (ids_of items)).
  { intros Hin. pose proof (linear_ids _ _ Hlin) as Hall.
    rewrite Forall_forall in Hall. destruct (Hall _ Hin) as [s Hs]. discriminate. }
  assert (Hin : forall x, In x (map snd mapping_dict) -> In x items).
  { intros x Hx. eapply Permutation_in; [apply Permutation_sym; exact Hperm | exact Hx]. }
  change out with ([] ++ out).
  apply (walk_linear (map snd mapping_dict)) with (todo := items); auto.
  - intros y Hy. apply (linear_keys JNull items); auto. now left.
  - intros x y q Hx Hy. apply (linear_parents JNull items); auto.
  - now left.
  - intros x Hx. eapply Permutation_in; eauto.
  - intros y Hy. apply linear_end; auto.
Qed.

Lemma messages_follow_the_thread_witness :
  Api.conversation_data_to_messages 4 Cases.conversation =
    Api.Messages [ Cases.message_of "user" "Good night!";
                   Cases.message_of "assistant" "Sleep well." ].
Proof.
  apply (messages_follow_the_thread Cases.conversation
           [ ("c", Cases.item "c" (JStr "b") "assistant" "Sleep well.");
             ("a", Cases.item "a" JNull "system" "");
             ("b", Cases.item "b" (JStr "a") "user" "Good night!") ]
           Cases.thread).
  - reflexivity.
  - apply Permutation_sym.
    exact (Permutation_cons_append
             [ Cases.item "a" JNull "system" "";
               Cases.item "b" (JStr "a") "user" "Good night!" ]
             (Cases.item "c" (JStr "b") "assistant" "Sleep well.")).
  - cbn. repeat (split; [reflexivity|]; eexists; split; [reflexivity|]). exact I.
  - exact cases_thread_nodup.
  - reflexivity.
  - cbn. lia.
Defined.

(** X15: [conversation_data_to_messages] ends (it returns or raises)
    within one iteration more than the mapping has items, provided the
    identifiers of the items are strings, their parents strings or [None],
    and items with the same identifier have the same parent. *)
Theorem walk_of_well_formed_mapping_ends
    (conversation_data : Json) (mapping_dict : list (string * Json)) (steps : nat) :
  getitem conversation_data "mapping" = Some (JObj mapping_dict) ->
  well_formed (map snd mapping_dict) ->
  length mapping_dict < steps ->
  Api.conversation_data_to_messages steps conversation_data <> Api.Walking.
Proof.
  intros Hm Hwf Hsteps. unfold Api.conversation_data_to_messages. rewrite Hm.
  apply (walk_ends_from _ Hwf steps [] []); [exact I|].
  rewrite length_map. cbn. lia.
Qed.

Lemma walk_of_well_formed_mapping_ends_witness :
  Api.conversation_data_to_messages 4 Cases.conversation <> Api.Walking.
Proof.
  apply (walk_of_well_formed_mapping_ends Cases.conversation
           [ ("c", Cases.item "c" (JStr "b") "assistant" "Sleep well.");
             ("a", Cases.item "a" JNull "system" "");
             ("b", Cases.item "b" (JStr "a") "user" "Good night!") ]).
  - reflexivity.
  - split; [|split].
    + intros x a [<- | [<- | [<- | []]]] H; cbn in H; injection H as <-; eauto.
    + intros x p [<- | [<- | [<- | []]]] H; cbn in H; injection H as <-;
        unfold is_key; eauto.
    + intros x y a [<- | [<- | [<- | []]]] [<- | [<- | [<- | []]]] Hx Hy;
        cbn in *; congruence.
  - cbn. lia.
Defined.

(** X16: every message [conversation_data_to_messages] returns is the
    message of an item of the mapping, is not [None], and has an author
    whose role is not "system". *)
Theorem returned_messages_are_wanted
    (conversation_data : Json) (mapping_dict : list (string * Json))
    (steps : nat) (out : list Json) :
  getitem conversation_data "mapping" = Some (JObj mapping_dict) ->
  Api.conversation_data_to_messages steps conversation_data = Api.Messages out ->
  Forall (fun m =>
            m <> JNull
            /\ (exists x, In x (map snd mapping_dict) /\ getitem x "message" = Some m)
            /\ exists author role,
                 getitem m "author" = Some author
                 /\ getitem author "role" = Some role
                 /\ role <> JStr "system") out.
Proof.
  intros Hm. unfold Api.conversation_data_to_messages. rewrite Hm. intros H.
  apply walk_sound in H as (added & -> & Hall). cbn [app].
  rewrite Forall_forall in *. intros m Hin.
  destruct (Hall m Hin) as [Hw Hx].
  destruct (wanted_true m Hw) as [Hn Hrole]. auto.
Qed.

Lemma returned_messages_are_wanted_witness :
  Forall (fun m =>
            m <> JNull
            /\ (exists x, In x (map snd [ ("c", Cases.item "c" (JStr "b") "assistant" "Sleep well.");
                                          ("a", Cases.item "a" JNull "system" "");
                                          ("b", Cases.item "b" (JStr "a") "user" "Good night!") ])
                          /\ getitem x "message" = Some m)
            /\ exists author role,
                 getitem m "author" = Some author
                 /\ getitem author "role" = Some role
                 /\ role <> JStr "system")
    [ Cases.message_of "user" "Good night!";
      Cases.message_of "assistant" "Sleep well." ].
Proof.
  exact (returned_messages_are_wanted Cases.conversation _ 4 _ eq_refl eq_refl).
Defined.

(** X17: the loop of [conversation_data_to_messages] has no guard: when
    the first item without parent has the identifier [None] (and a message
    the test accepts or rejects), the same item is found in every
    iteration and the function never returns. *)
Theorem root_without_identifier_never_ends
    (conversation_data : Json) (mapping_dict : list (string * Json))
    (x m : Json) (keep : bool) :
  getitem conversation_data "mapping" = Some (JObj mapping_dict) ->
  Api.next_item (map snd mapping_dict) JNull = Some (Some x) ->
  getitem x "message" = Some m ->
  Api.wanted m = Some keep ->
  getitem x "id" = Some JNull ->
  forall steps, Api.conversation_data_to_messages steps conversation_data = Api.Walking.
Proof.
  intros Hm Hn Hx Hw Hid steps. unfold Api.conversation_data_to_messages.
  rewrite Hm. eapply walk_loops; eauto.
Qed.

Lemma root_without_identifier_never_ends_witness :
  Api.conversation_data_to_messages 1000 Cases.rootless = Api.Walking.
Proof.
  refine (root_without_identifier_never_ends Cases.rootless
           [ ("x", JObj [ ("id", JNull); ("message", JNull); ("parent", JNull) ]) ]
           (JObj [ ("id", JNull); ("message", JNull); ("parent", JNull) ])
           JNull false _ _ _ _ _ 1000); reflexivity.
Defined.

(** ** The API calls *)

(** X18: the dict [get_history] returns maps every identifier that is a
    string to the last item of the listing with that identifier: an item
    listed again replaces the one listed before. *)
Theorem history_maps_identifier_to_last_item {lib : PyLib}
    (server : Api.Request -> option Api.Response) (limit offset : Json)
    (st : Sync.Client) (w : World) (history : list (Json * Json)) :
  Api.reply (Api.get_history server limit offset st w) = Api.Table history ->
  exists request response j items l,
    server request = Some response
    /\ Api.ok response = true
    /\ Api.body response = Some j
    /\ getitem j "items" = Some items
    /\ Api.iterate items = Some l
    /\ forall s, Api.dict_get (JStr s) history = last_with_id s l None.
Proof.
  unfold Api.get_history.
  destruct (Api.with_credential st w) as [[st1 w1]|]; [|discriminate].
  unfold Api.send.
  destruct (Api._api_request_build_headers (Sync.session st1)) as [token|];
    [|discriminate].
  match goal with |- context [server ?r] => set (request := r) end.
  destruct (server request) as [response|] eqn:Es; [|discriminate].
  unfold Api._process_api_response.
  destruct (Api.ok response) eqn:Eo; [|discriminate].
  destruct (Api.body response) as [j|] eqn:Eb; [|discriminate].
  destruct (getitem j "items") as [items|] eqn:Ei; [|discriminate].
  destruct (Api.iterate items) as [l|] eqn:El; [|discriminate].
  destruct (Api.index_items l []) as [built|] eqn:Ex; [|discriminate].
  cbn. intros [= <-].
  exists request, response, j, items, l. repeat split; auto.
  intros s. now rewrite (index_items_lookup s l [] built Ex).
Qed.

Lemma history_maps_identifier_to_last_item_witness :
  exists history,
    Api.reply (Api.get_history (lib := Sample.library)
                 (Cases.server (Cases.answered Cases.listing)) (JNum 20) (JNum 0)
                 (Cases.in_conversation Sample.session_value)
                 (Sample.environment Sample.session_page true []))
    = Api.Table history
    /\ Api.dict_get (JStr "c1") history = Some (Cases.entry "c1" "new").
Proof.
  eexists. split; [reflexivity|].
  destruct (history_maps_identifier_to_last_item (lib := Sample.library)
              (Cases.server (Cases.answered Cases.listing)) (JNum 20) (JNum 0)
              (Cases.in_conversation Sample.session_value)
              (Sample.environment Sample.session_page true []) _ eq_refl)
    as (request & response & j & items & l & _ & _ & _ & _ & _ & H).
  reflexivity.
Defined.

(** X19: a call of the API whose session has no credential even after the
    refresh sends no request and raises the [KeyError] of the header
    builder.  [delete_conversation] and [get_conversation] do so when they
    have a conversation to act on; [set_title] and [get_history] always. *)
Theorem api_calls_need_credential {lib : PyLib}
    (server : Api.Request -> option Api.Response) (st : Sync.Client) (w : World) :
  contains "accessToken" (sync_checked_session st w) = Some false ->
  (forall title id,
      Api.reply (Api.set_title server title id st w) = Api.Throws PyError
      /\ Api.requests (Api.set_title server title id st w) = [])
  /\ (forall limit offset,
      Api.reply (Api.get_history server limit offset st w) = Api.Throws PyError
      /\ Api.requests (Api.get_history server limit offset st w) = [])
  /\ (forall uuid,
      (truthy uuid || truthy (conversation_id (Sync.conv st)))%bool = true ->
      Api.reply (Api.delete_conversation server uuid st w) = Api.Throws PyError
      /\ Api.requests (Api.delete_conversation server uuid st w) = [])
  /\ (forall id,
      (truthy id || truthy (conversation_id (Sync.conv st)))%bool = true ->
      Api.reply (Api.get_conversation server id st w) = Api.Throws PyError
      /\ Api.requests (Api.get_conversation server id st w) = []).
Proof.
  intros Hc.
  pose proof (with_credential_cases st w) as Hw.
  destruct (Api.with_credential st w) as [[st1 w1]|] eqn:E.
  2: { unfold sync_checked_session in Hc. rewrite Hw in Hc. congruence. }
  destruct Hw as [Hs Hconv].
  assert (Hsend : forall verb target data,
             Api.send server verb target data (Sync.session st1) = (inr PyError, [])).
  { intros. unfold Api.send, Api._api_request_build_headers.
    now rewrite Hs, (no_credential_no_token _ Hc). }
  split; [|split; [|split]].
  - intros title id. unfold Api.set_title. rewrite E, Hsend. auto.
  - intros limit offset. unfold Api.get_history. rewrite E, Hsend. auto.
  - intros uuid Ht. unfold Api.delete_conversation. rewrite E, Hconv, Hsend.
    destruct (truthy uuid), (truthy (conversation_id (Sync.conv st)));
      cbn in *; auto; discriminate.
  - intros id Ht. unfold Api.get_conversation. rewrite E, Hconv.
    destruct (truthy id) eqn:Ei.
    + rewrite Ei, Hsend. auto.
    + cbn in Ht. rewrite Ht, Hsend. auto.
Qed.

Lemma api_calls_need_credential_witness :
  Api.reply (Api.get_history (lib := Sample.library)
               (Cases.server (Cases.answered Cases.listing)) (JNum 20) (JNum 0)
               (Cases.in_conversation (JObj []))
               (Sample.environment Sample.login_page true []))
  = Api.Throws PyError
  /\ Api.reply (Api.delete_conversation (lib := Sample.library)
                  (Cases.server (Cases.answered Cases.listing)) JNull
                  (Cases.in_conversation (JObj []))
                  (Sample.environment Sample.login_page true []))
     = Api.Throws PyError.
Proof.
  destruct (api_calls_need_credential (lib := Sample.library)
              (Cases.server (Cases.answered Cases.listing))
              (Cases.in_conversation (JObj []))
              (Sample.environment Sample.login_page true []) eq_refl)
    as (_ & Hh & Hd & _).
  split.
  - apply Hh.
  - apply Hd. reflexivity.
Defined.

Lemma send_at_most_one {lib : PyLib} server verb target data session :
  length (snd (Api.send server verb target data session)) <= 1.
Proof.
  unfold Api.send. destruct (Api._api_request_build_headers session); cbn; [|lia].
  destruct (server _); cbn; lia.
Qed.

(** X20: the four API calls leave the conversation state as it is and
    send one request at most; [delete_conversation] in particular keeps
    [conversation_id] when it deletes the current conversation, and sends
    nothing when there is neither an argument nor a current conversation. *)
Theorem api_calls_keep_conversation {lib : PyLib}
    (server : Api.Request -> option Api.Response) (st : Sync.Client) (w : World) :
  (forall uuid,
      Sync.conv (Api.client_after (Api.delete_conversation server uuid st w)) = Sync.conv st
      /\ length (Api.requests (Api.delete_conversation server uuid st w)) <= 1
      /\ (truthy uuid = false -> truthy (conversation_id (Sync.conv st)) = false ->
          Api.requests (Api.delete_conversation server uuid st w) = []))
  /\ (forall title id,
      Sync.conv (Api.client_after (Api.set_title server title id st w)) = Sync.conv st
      /\ length (Api.requests (Api.set_title server title id st w)) <= 1)
  /\ (forall limit offset,
      Sync.conv (Api.client_after (Api.get_history server limit offset st w)) = Sync.conv st
      /\ length (Api.requests (Api.get_history server limit offset st w)) <= 1)
  /\ (forall id,
      Sync.conv (Api.client_after (Api.get_conversation server id st w)) = Sync.conv st
      /\ length (Api.requests (Api.get_conversation server id st w)) <= 1).
Proof.
  pose proof (with_credential_cases st w) as Hw.
  split; [|split; [|split]].
  - intros uuid. unfold Api.delete_conversation.
    destruct (Api.with_credential st w) as [[st1 w1]|]; [|cbn; auto].
    destruct Hw as [_ Hconv]. rewrite Hconv.
    destruct (negb (truthy uuid) && negb (truthy (conversation_id (Sync.conv st))))%bool
      eqn:En; [cbn; auto|].
    match goal with |- context [Api.send ?a ?b ?c ?d ?e] =>
      pose proof (send_at_most_one a b c d e) as Hlen;
      destruct (Api.send a b c d e) as [[[[|] json]|e'] rs] end; cbn in *;
      (repeat split; auto; intros H1 H2; rewrite H1, H2 in En; discriminate).
  - intros title id. unfold Api.set_title.
    destruct (Api.with_credential st w) as [[st1 w1]|]; [|cbn; auto].
    destruct Hw as [_ Hconv].
    match goal with |- context [Api.send ?a ?b ?c ?d ?e] =>
      pose proof (send_at_most_one a b c d e) as Hlen;
      destruct (Api.send a b c d e) as [[[[|] json]|e'] rs] end; cbn in *; auto.
  - intros limit offset. unfold Api.get_history.
    destruct (Api.with_credential st w) as [[st1 w1]|]; [|cbn; auto].
    destruct Hw as [_ Hconv].
    match goal with |- context [Api.send ?a ?b ?c ?d ?e] =>
      pose proof (send_at_most_one a b c d e) as Hlen;
      destruct (Api.send a b c d e) as [[[[|] json]|e'] rs] end; cbn in *; auto.
    destruct json as [j|]; [|cbn; auto].
    destruct (getitem j "items") as [items|]; [|cbn; auto].
    destruct (Api.iterate items) as [l|]; [|cbn; auto].
    destruct (Api.index_items l []); cbn; auto.
  - intros id. unfold Api.get_conversation.
    destruct (Api.with_credential st w) as [[st1 w1]|]; [|cbn; auto].
    destruct Hw as [_ Hconv].
    destruct (truthy _); [|cbn; auto].
    match goal with |- context [Api.send ?a ?b ?c ?d ?e] =>
      pose proof (send_at_most_one a b c d e) as Hlen;
      destruct (Api.send a b c d e) as [[[[|] json]|e'] rs] end; cbn in *; auto.
Qed.

Lemma api_calls_keep_conversation_witness :
  let r := Api.delete_conversation (lib := Sample.library)
             (Cases.server (Cases.answered (JObj [ ("success", JBool true) ]))) JNull
             (Cases.in_conversation Sample.session_value)
             (Sample.environment Sample.session_page true []) in
  Api.reply r = Api.Value (JObj [ ("success", JBool true) ])
  /\ conversation_id (Sync.conv (Api.client_after r)) = JStr "c1".
Proof.
  cbv zeta. split; [reflexivity|].
  destruct (api_calls_keep_conversation (lib := Sample.library)
              (Cases.server (Cases.answered (JObj [ ("success", JBool true) ])))
              (Cases.in_conversation Sample.session_value)
              (Sample.environment Sample.session_page true [])) as [Hd _].
  destruct (Hd JNull) as [H _]. now rewrite H.
Defined.

(** ** The title of a conversation *)

(** X21: [_gen_title] never touches the conversation state, and once
    [conversation_title_set] is set, as a successful call leaves it, every
    later call returns at once without sending a request. *)
Theorem title_is_generated_once (st st' : Sync.Client) (w w' : World) :
  Sync._gen_title st w = (inl st', w') ->
  Sync.conv st' = Sync.conv st
  /\ (st' = st \/ Sync.conversation_title_set st' = JBool true)
  /\ (truthy (Sync.conversation_title_set st') = true ->
      forall w2, Sync._gen_title st' w2 = (inl st', w2)).
Proof.
  intros H. split; [exact (gen_title_keeps _ _ _ _ H)|]. split.
  - unfold Sync._gen_title in H. revert H.
    destruct (_ || _)%bool; [intros [= <- _]; now left|].
    destruct (Sync.render_model _ _); [|discriminate].
    destruct (getitem _ _); [|discriminate].
    destruct (consult request_post w) as [[[|]|] w1]; intros [= <- _];
      [now right | now left].
  - intros Ht w2. unfold Sync._gen_title. rewrite Ht, orb_true_r. reflexivity.
Qed.

Lemma title_is_generated_once_witness :
  let w := Sample.environment Sample.session_page true [] in
  Sync.conversation_title_set (Cases.in_conversation Sample.session_value) = JBool true
  /\ Sync._gen_title (Cases.in_conversation Sample.session_value) w
     = (inl (Cases.in_conversation Sample.session_value), w).
Proof.
  cbv zeta. split; [reflexivity|].
  destruct (title_is_generated_once
              {| Sync.session := Sample.session_value;
                 Sync.conv := {| parent_message_id := JStr "m2";
                                 conversation_id := JStr "c1" |};
                 Sync.conversation_title_set := JNull; Sync.model := "default";
                 Sync.timeout := 60 |}
              (Cases.in_conversation Sample.session_value)
              (Sample.environment Sample.session_page true [])
              (tick (Sample.environment Sample.session_page true []))
              eq_refl) as (_ & _ & H).
  apply H. reflexivity.
Defined.

(** ** A new conversation *)

(** X22: after [async_new_conversation] or [new_conversation] the next
    streaming call sends a request without conversation identifier whose
    parent message identifier is the one just generated. *)
Theorem new_conversation_starts_a_thread {lib : PyLib} (prompt : string) (w : World) :
  (forall fuel b st code threw,
      let st' := fst (Async.async_new_conversation st w) in
      let w' := snd (Async.async_new_conversation st w) in
      In (EvInject code threw) (trace (Async.async_ask_stream fuel prompt b st' w')) ->
      getitem (request_json code) "conversation_id" = Some JNull
      /\ getitem (request_json code) "parent_message_id"
         = Some (JStr (uuid4 w (calls w))))
  /\ (forall st code threw,
      let st' := fst (Sync.new_conversation st w) in
      let w' := snd (Sync.new_conversation st w) in
      In (EvInject code threw) (trace (Sync.ask_stream prompt st' w')) ->
      getitem (request_json code) "conversation_id" = Some JNull
      /\ getitem (request_json code) "parent_message_id"
         = Some (JStr (uuid4 w (calls w)))).
Proof.
  split.
  - intros fuel b st code threw st' w' Hin. subst st' w'.
    unfold Async.async_new_conversation, consult in *. cbn [fst snd] in *.
    match type of Hin with
      In _ (trace (Async.async_ask_stream _ _ _ ?s ?x)) =>
        destruct (stream_view fuel prompt b s x)
          as [tr1 Ht Htr _ _ _ _ | tr1 code' n Ht Htr Hreq _ _ _
              | tr1 tail code' n t0 l Ht Htr Hreq Htail _ _ _]
    end; rewrite Ht in Hin.
    + destruct Hin as [H | H]; [discriminate|].
      destruct Htr as [-> | ->]; cbn in H; [tauto|]. destruct H as [H | []]. discriminate.
    + destruct Hin as [H | H]; [discriminate|].
      apply in_single_inject in H as [-> _]; auto.
      * rewrite Hreq. split; reflexivity.
      * intros c t [K | [K | []]]; discriminate.
    + destruct Hin as [H | H]; [discriminate|].
      apply in_single_inject in H as [-> _]; auto.
      * rewrite Hreq. split; reflexivity.
      * destruct Htail as [[-> _] | [-> _]]; intros c t K; cbn in K;
          [tauto | destruct K as [K | [K | []]]; discriminate].
  - intros st code threw st' w' Hin. subst st' w'.
    unfold Sync.new_conversation, consult in *. cbn [fst snd] in *.
    match type of Hin with
      In _ (trace (Sync.ask_stream _ ?s ?x)) =>
        destruct (sync_stream_view prompt s x)
          as [tr1 Ht Htr _ | tr1 code' threw' n m t0 l Ht Htr Hm Hreq _]
    end; rewrite Ht in Hin.
    + destruct Htr as [-> | ->]; cbn in Hin; [tauto|]. destruct Hin as [H | []]. discriminate.
    + apply in_single_inject in Hin as [-> _]; auto.
      rewrite Hreq. split; reflexivity.
Qed.

Lemma new_conversation_starts_a_thread_witness :
  let w := Sample.environment Sample.session_page true [Sample.poll 1 true (Some "")] in
  let st := {| Async.session := Sample.session_value; Async.lock := false;
               Async.conv := {| parent_message_id := JStr "m2";
                                conversation_id := JStr "c1" |};
               Async.timeout := 60 |} in
  exists code,
    injected (trace (Async.async_ask_stream (lib := Sample.library) 2 "Hello" 2
                       (fst (Async.async_new_conversation st w))
                       (snd (Async.async_new_conversation st w)))) = [code]
    /\ getitem (request_json code) "conversation_id" = Some JNull
    /\ getitem (request_json code) "parent_message_id" = Some (JStr "uuid-0").
Proof.
  cbv zeta. eexists. split; [reflexivity|].
  destruct (new_conversation_starts_a_thread (lib := Sample.library) "Hello"
              (Sample.environment Sample.session_page true
                 [Sample.poll 1 true (Some "")])) as [Ha _].
  apply (Ha 2 2%Z
           {| Async.session := Sample.session_value; Async.lock := false;
              Async.conv := {| parent_message_id := JStr "m2";
                               conversation_id := JStr "c1" |};
              Async.timeout := 60 |}
           _ false).
  vm_compute. auto.
Defined.

(** ** A response without body, a model without entry *)

(** X23: when the server answers ok with a body that is no JSON,
    [get_history] raises (it subscripts [None]) while
    [delete_conversation], [set_title] and [get_conversation] return
    [None]. *)
Theorem ok_response_without_body {lib : PyLib}
    (server : Api.Request -> option Api.Response) (st : Sync.Client) (w : World)
    (token : Json) :
  contains "accessToken" (Sync.session st) = Some true ->
  getitem (Sync.session st) "accessToken" = Some token ->
  (forall request, server request = Some {| Api.ok := true; Api.body := None |}) ->
  (forall limit offset,
      Api.reply (Api.get_history server limit offset st w) = Api.Throws PyError)
  /\ (forall title id,
      Api.reply (Api.set_title server title id st w) = Api.Value JNull)
  /\ (forall uuid, truthy uuid = true ->
      Api.reply (Api.delete_conversation server uuid st w) = Api.Value JNull)
  /\ (forall id, truthy id = true ->
      Api.reply (Api.get_conversation server id st w) = Api.Value JNull).
Proof.
  intros Hc Ht Hs.
  assert (Hsend : forall verb target data,
             fst (Api.send server verb target data (Sync.session st))
             = inl (true, None)).
  { intros. unfold Api.send, Api._api_request_build_headers. now rewrite Ht, Hs. }
  assert (Hw : Api.with_credential st w = Some (st, w)).
  { unfold Api.with_credential. now rewrite Hc. }
  split; [|split; [|split]].
  - intros limit offset. unfold Api.get_history. rewrite Hw.
    specialize (Hsend "GET" Api.Conversations
                  (JObj [("offset", offset); ("limit", limit)])).
    destruct (Api.send _ _ _ _ _) as [r rs]. cbn in Hsend. now subst r.
  - intros title id. unfold Api.set_title. rewrite Hw.
    match goal with |- context [Api.send ?a ?b ?c ?d ?e] =>
      specialize (Hsend b c d); destruct (Api.send a b c d e) as [r rs] end.
    cbn in Hsend. now subst r.
  - intros uuid Hu. unfold Api.delete_conversation. rewrite Hw, Hu. cbn [negb andb].
    match goal with |- context [Api.send ?a ?b ?c ?d ?e] =>
      specialize (Hsend b c d); destruct (Api.send a b c d e) as [r rs] end.
    cbn in Hsend. now subst r.
  - intros id Hi. unfold Api.get_conversation. rewrite Hw, Hi, Hi.
    match goal with |- context [Api.send ?a ?b ?c ?d ?e] =>
      specialize (Hsend b c d); destruct (Api.send a b c d e) as [r rs] end.
    cbn in Hsend. now subst r.
Qed.

Lemma ok_response_without_body_witness :
  Api.reply (Api.get_history (lib := Sample.library)
               (Cases.server (Some {| Api.ok := true; Api.body := None |}))
               (JNum 20) (JNum 0) (Cases.in_conversation Sample.session_value)
               (Sample.environment Sample.session_page true []))
  = Api.Throws PyError.
Proof.
  destruct (ok_response_without_body (lib := Sample.library)
              (Cases.server (Some {| Api.ok := true; Api.body := None |}))
              (Cases.in_conversation Sample.session_value)
              (Sample.environment Sample.session_page true []) (JStr "tok")
              eq_refl eq_refl (fun _ => eq_refl)) as [H _].
  apply H.
Defined.

(** X24: a client whose model has no entry in [RENDER_MODELS] cannot
    stream: with a credential in the session, the synchronous [ask_stream]
    raises the [KeyError] before anything is injected or yielded. *)
Theorem unknown_model_raises_before_injection {lib : PyLib}
    (prompt : string) (st : Sync.Client) (w : World) :
  contains "accessToken" (Sync.session st) = Some true ->
  Sync.render_model Sync.RENDER_MODELS (Sync.model st) = None ->
  let r := Sync.ask_stream prompt st w in
  outcome r = Raised PyError /\ yielded r = [] /\ injected (trace r) = [].
Proof.
  intros Hc Hm. cbv zeta. unfold Sync.ask_stream. rewrite Hc. unfold consult.
  rewrite Hc, Hm. cbn. auto.
Qed.

Lemma unknown_model_raises_before_injection_witness :
  outcome (Sync.ask_stream (lib := Sample.library) "Good night!"
             {| Sync.session := Sample.session_value; Sync.conv := Sample.fresh;
                Sync.conversation_title_set := JNull; Sync.model := "gpt-4";
                Sync.timeout := 60 |}
             (Sample.environment Sample.session_page true []))
  = Raised PyError.
Proof.
  apply (unknown_model_raises_before_injection (lib := Sample.library)
           "Good night!"
           {| Sync.session := Sample.session_value; Sync.conv := Sample.fresh;
              Sync.conversation_title_set := JNull; Sync.model := "gpt-4";
              Sync.timeout := 60 |}
           (Sample.environment Sample.session_page true [])); reflexivity.
Defined.
